(** * pysam build orchestrator (setup.py): a shallow embedding

    The script is modelled as state-passing code over the process state
    (working directory, environment, file system, interpreter lists that are
    aliased) with Python exceptions as an error result.  External programs
    (configure, make, nm, the C compiler driven by distutils) are oracles of
    the host; every call is recorded in a trace together with its reply. *)

From Stdlib Require Import String Ascii ZArith Lia.
From stdpp Require Import base gmap sets list strings pretty.

Set Default Proof Using "Type".

(** ** Python string operations used by setup.py *)

Module Py.

(** [p] is a prefix of [s]. *)
Fixpoint is_prefix (p s : string) : bool :=
  match p with
  | EmptyString => true
  | String b p' =>
      match s with
      | EmptyString => false
      | String a s' => Ascii.eqb a b && is_prefix p' s'
      end
  end.

(** [s.startswith(p)] *)
Definition startswith (s p : string) : bool := is_prefix p s.

(** [c in s] for a one-character [c]. *)
Fixpoint char_in (c : ascii) (s : string) : bool :=
  match s with
  | EmptyString => false
  | String a s' => if Ascii.eqb a c then true else char_in c s'
  end.

(** [x in s] for strings: substring test. *)
Fixpoint str_in (x s : string) : bool :=
  if is_prefix x s then true
  else match s with
       | EmptyString => false
       | String _ s' => str_in x s'
       end.

(** [sep.join(l)] *)
Definition join (sep : string) (l : list string) : string := String.concat sep l.

(** [s.split(c)] with a one-character separator: every occurrence cuts. *)
Fixpoint split_char (c : ascii) (s : string) : list string :=
  match s with
  | EmptyString => [EmptyString]
  | String a s' =>
      if Ascii.eqb a c then EmptyString :: split_char c s'
      else match split_char c s' with
           | w :: ws => String a w :: ws
           | [] => [String a EmptyString]
           end
  end.

(** [str.isspace] on an ASCII character: TAB LF VT FF CR, FS GS RS US, SP. *)
Definition isspace (a : ascii) : bool :=
  let n := N_of_ascii a in
  ((9 <=? n) && (n <=? 13) || (28 <=? n) && (n <=? 32))%N.

(** [s.split()]: maximal runs of non-space characters. *)
Fixpoint split_ws (s : string) : list string :=
  match s with
  | EmptyString => []
  | String a s' =>
      if isspace a then split_ws s'
      else match s' with
           | EmptyString => [String a EmptyString]
           | String b _ =>
               if isspace b then String a EmptyString :: split_ws s'
               else match split_ws s' with
                    | w :: ws => String a w :: ws
                    | [] => [String a EmptyString]
                    end
           end
  end.

(** Line boundaries of [str.splitlines] among ASCII characters:
    LF VT FF CR FS GS RS (CR LF counts once). *)
Definition is_linebreak (a : ascii) : bool :=
  let n := N_of_ascii a in
  ((10 <=? n) && (n <=? 13) || (28 <=? n) && (n <=? 30))%N.

(** [s.splitlines()] *)
Fixpoint splitlines (s : string) : list string :=
  match s with
  | EmptyString => []
  | String a s' =>
      if is_linebreak a then
        match s' with
        | String b s'' =>
            if Ascii.eqb a "013" && Ascii.eqb b "010"
            then EmptyString :: splitlines s''
            else EmptyString :: splitlines s'
        | EmptyString => [EmptyString]
        end
      else match splitlines s' with
           | l :: ls => String a l :: ls
           | [] => [String a EmptyString]
           end
  end.

(** [s.lstrip()], [s.rstrip()], [s.strip()] *)
Fixpoint lstrip (s : string) : string :=
  match s with
  | EmptyString => EmptyString
  | String a s' => if isspace a then lstrip s' else s
  end.
Definition rstrip (s : string) : string := String.rev (lstrip (String.rev s)).
Definition strip (s : string) : string := rstrip (lstrip s).

(** [s.lstrip(chars)]: drops leading characters that occur in [chars]. *)
Fixpoint lstrip_chars (chars : string) (s : string) : string :=
  match s with
  | EmptyString => EmptyString
  | String a s' => if char_in a chars then lstrip_chars chars s' else s
  end.

(** [s.replace(old, new)] for a non-empty [old]: occurrences are replaced
    left to right without overlap; [skip] counts the characters of the
    occurrence just replaced that are still to be dropped. *)
Fixpoint replace_go (old new : string) (skip : nat) (s : string) : string :=
  match s with
  | EmptyString => EmptyString
  | String a s' =>
      match skip with
      | S k => replace_go old new k s'
      | O =>
          if is_prefix old s
          then new +:+ replace_go old new (String.length old - 1) s'
          else String a (replace_go old new 0 s')
      end
  end.
Definition replace (old new s : string) : string := replace_go old new 0 s.

(** [re.sub("^" + p, "", s)] for a literal [p]: drops one leading [p]. *)
Definition drop_prefix (p s : string) : string :=
  if is_prefix p s then String.substring (String.length p) (String.length s - String.length p) s
  else s.

(** [s[1:]] *)
Definition tail (s : string) : string :=
  match s with EmptyString => EmptyString | String _ s' => s' end.

(** [s.endswith(p)] *)
Definition endswith (s p : string) : bool := is_prefix (String.rev p) (String.rev s).

(** [os.path.join(a, b)] of posixpath, two arguments. *)
Definition os_path_join (a b : string) : string :=
  if startswith b "/" then b
  else if String.eqb a "" || endswith a "/" then a +:+ b
  else a +:+ "/" +:+ b.

(** Every character is below 128 (what [encoding="ascii"] demands). *)
Fixpoint is_ascii (s : string) : bool :=
  match s with
  | EmptyString => true
  | String a s' => (N_of_ascii a <? 128)%N && is_ascii s'
  end.

End Py.

(** ** Exceptions, process state, trace *)

(** The Python exceptions that setup.py raises, catches or lets through. *)
Inductive exn : Type :=
| ValueError (msg : string)
| TypeError
| KeyError (key : string)
| IndexError
| AttributeError
| UnicodeDecodeError
| OSError
| CalledProcessError
| CompileError
| LinkError (msg : string)
| DistutilsError (msg : string).

Inductive result (A : Type) : Type :=
| Ok (a : A)
| Raise (e : exn).
Arguments Ok {A} a.
Arguments Raise {A} e.

Global Instance exn_eq_dec : EqDecision exn.
Proof. solve_decision. Defined.

Global Instance result_eq_dec {A} `{EqDecision A} : EqDecision (result A).
Proof. solve_decision. Defined.

Inductive Level : Type := INFO | WARNING | ERROR.

Global Instance Level_eq_dec : EqDecision Level.
Proof. solve_decision. Defined.

(** The value of an attribute of the distutils compiler object that holds a
    command: [None], a string or a list of strings. *)
Inductive PyCmd : Type :=
| PyNone
| PyStr (s : string)
| PyList (l : list string).

Global Instance PyCmd_eq_dec : EqDecision PyCmd.
Proof. solve_decision. Defined.

(** [self.compiler]: its attributes [compiler] and [compiler_so]
    ([None] here: the attribute does not exist). *)
Record CCompiler : Type := mkCCompiler {
  cc_compiler : option PyCmd;
  cc_compiler_so : option PyCmd
}.

Global Instance CCompiler_eq_dec : EqDecision CCompiler.
Proof. solve_decision. Defined.

(** The pre-build hooks that the module list declares. *)
Inductive Hook : Type := prebuild_libchtslib_hook | prebuild_libcsamtools_hook.

Global Instance Hook_eq_dec : EqDecision Hook.
Proof. solve_decision. Defined.

(** [CyExtension]: the attributes setup.py reads or writes.  [library_dirs]
    is a reference into the interpreter heap: every module gets the one list
    object of [common_options], and [build_extension] appends to it in
    place.  No module of the list declares an [init_func]. *)
Record Extension : Type := mkExtension {
  ext_name : string;
  ext_sources : list string;
  ext_include_dirs : list string;
  ext_define_macros : list (string * option string);
  ext_undef_macros : list string;
  ext_library_dirs : nat;
  ext_libraries : list string;
  ext_extra_objects : list string;
  ext_extra_compile_args : list string;
  ext_extra_link_args : list string;
  ext_language : option string;
  ext_prebuild_func : option Hook
}.

Global Instance Extension_eq_dec : EqDecision Extension.
Proof. solve_decision. Defined.

(** What the run did to the outside world, in order. *)
Inductive Event : Type :=
| EvPrint (msg : string)
| EvLog (lvl : Level) (msg : string)
| EvWrite (path : string) (content : string)
| EvSpawn (shell : bool) (argv : list string) (reply : option (Z * string))
| EvCompile (cc : CCompiler) (sources : list string) (output_dir : string)
            (extra_preargs : option (list string)) (reply : result unit)
| EvBuildExtension (cc : CCompiler) (ext : Extension) (library_dirs : list string)
                   (reply : result unit).

Global Instance Event_eq_dec : EqDecision Event.
Proof. solve_decision. Defined.

(** Process state.  [files] and [dirs] hold absolute paths; external tools
    create and remove files, directories stay as they are during a run.
    [heap] holds the list objects that several extensions share. *)
Record State : Type := mkState {
  cwd : string;
  environ : gmap string string;
  files : gset string;
  dirs : gset string;
  heap : gmap nat (list string);
  trace : list Event
}.

Definition set_cwd (d : string) (st : State) : State :=
  mkState d (environ st) (files st) (dirs st) (heap st) (trace st).
Definition set_environ (e : gmap string string) (st : State) : State :=
  mkState (cwd st) e (files st) (dirs st) (heap st) (trace st).
Definition set_files (f : gset string) (st : State) : State :=
  mkState (cwd st) (environ st) f (dirs st) (heap st) (trace st).
Definition set_heap (hp : gmap nat (list string)) (st : State) : State :=
  mkState (cwd st) (environ st) (files st) (dirs st) hp (trace st).
Definition emit (e : Event) (st : State) : State :=
  mkState (cwd st) (environ st) (files st) (dirs st) (heap st) (trace st ++ [e]).

(** The host: platform facts and the external tools.  A tool sees the whole
    process state and answers with its reply and the files that exist
    afterwards; a child process cannot change the parent's working directory
    or environment.  [spawn] answers [None] when the program cannot be
    started ([OSError]) and the exit status with the standard output
    otherwise.  [split_quoted] is [distutils.util.split_quoted], which cuts
    a command line into its words. *)
Record Host : Type := mkHost {
  platform_system : string;
  sys_platform : string;
  sysconfig : gmap string string;
  HAVE_CYTHON : bool;
  cython_version : string;
  glob : string -> list string;
  abspath : string -> string -> string;
  splitext_root : string -> string;
  get_ext_fullpath : string -> string;
  split_quoted : string -> list string;
  spawn : State -> bool -> list string -> option (Z * string) * gset string;
  cc_compile : State -> CCompiler -> list string -> string -> option (list string) ->
               result unit * gset string;
  super_build_extension : State -> CCompiler -> Extension -> list string ->
                          result unit * gset string
}.

(** ** The state-and-exception monad *)

Definition M (A : Type) : Type := State -> result A * State.

Definition ret {A} (a : A) : M A := fun st => (Ok a, st).
Definition raise {A} (e : exn) : M A := fun st => (Raise e, st).
Definition bind {A B} (m : M A) (k : A -> M B) : M B :=
  fun st => match m st with
            | (Ok a, st') => k a st'
            | (Raise e, st') => (Raise e, st')
            end.

Notation "'let*' x ':=' m 'in' k" := (bind m (fun x => k))
  (at level 10, x name, m at level 100, k at level 200).

(** [try: body finally: fin]: [fin] always runs; an exception of [fin]
    replaces the outcome of [body]. *)
Definition try_finally {A} (body : M A) (fin : M unit) : M A :=
  fun st =>
    let '(r, st1) := body st in
    match fin st1 with
    | (Ok _, st2) => (r, st2)
    | (Raise e, st2) => (Raise e, st2)
    end.

(** [try: body except ...]: [handler e] is [Some h] when a clause catches [e]. *)
Definition try_except {A} (body : M A) (handler : exn -> option (M A)) : M A :=
  fun st =>
    match body st with
    | (Ok a, st1) => (Ok a, st1)
    | (Raise e, st1) =>
        match handler e with
        | Some h => h st1
        | None => (Raise e, st1)
        end
    end.

Definition get_state : M State := fun st => (Ok st, st).
Definition modify (f : State -> State) : M unit := fun st => (Ok tt, f st).
Definition print (msg : string) : M unit := modify (emit (EvPrint msg)).
Definition log (lvl : Level) (msg : string) : M unit := modify (emit (EvLog lvl msg)).

Fixpoint for_each {A} (l : list A) (body : A -> M unit) : M unit :=
  match l with
  | [] => ret tt
  | x :: l' => let* _ := body x in for_each l' body
  end.

(** ** Paths and files *)

(** The absolute path a name stands for in directory [d]. *)
Definition resolve (d p : string) : string :=
  if Py.startswith p "/" then p else d +:+ "/" +:+ p.

(** [os.path.dirname], for paths without doubled slashes: what stands
    before the last slash. *)
Fixpoint dirname_go (p : string) : option string :=
  match p with
  | EmptyString => None
  | String a p' =>
      match dirname_go p' with
      | Some d => Some (String a d)
      | None => if Ascii.eqb a "/" then Some EmptyString else None
      end
  end.
Definition dirname (p : string) : string :=
  match dirname_go p with
  | Some EmptyString => "/"
  | Some d => d
  | None => EmptyString
  end.

(** [os.path.exists(p)] *)
Definition path_exists (st : State) (p : string) : bool :=
  bool_decide (resolve (cwd st) p ∈ files st) || bool_decide (resolve (cwd st) p ∈ dirs st).

(** [os.getcwd()] and [os.chdir(p)] *)
Definition getcwd : M string := fun st => (Ok (cwd st), st).
Definition chdir (p : string) : M unit :=
  fun st =>
    if bool_decide (resolve (cwd st) p ∈ dirs st)
    then (Ok tt, set_cwd (resolve (cwd st) p) st)
    else (Raise OSError, st).

(** [with open(p, "w") as outf: outf.write(...)]: the file is created or
    truncated; opening fails when its directory does not exist. *)
Definition write_file (p content : string) : M unit :=
  fun st =>
    if bool_decide (dirname (resolve (cwd st) p) ∈ dirs st)
    then (Ok tt, emit (EvWrite p content) (set_files ({[resolve (cwd st) p]} ∪ files st) st))
    else (Raise OSError, st).

(** ** Insertion-ordered dictionaries (Python [dict] with string keys) *)

Module Dict.

Definition t (V : Type) : Type := list (string * V).

Fixpoint get {V} (d : t V) (k : string) : option V :=
  match d with
  | [] => None
  | (k', v) :: d' => if String.eqb k' k then Some v else get d' k
  end.

(** [d[k] = v]: an existing key keeps its position. *)
Fixpoint set {V} (d : t V) (k : string) (v : V) : t V :=
  match d with
  | [] => [(k, v)]
  | (k', v') :: d' => if String.eqb k' k then (k', v) :: d' else (k', v') :: set d' k v
  end.

Definition keys {V} (d : t V) : list string := map fst d.

End Dict.

(** ** The functions of setup.py *)

Definition newline : string := String "010" EmptyString.
Definition dquote : string := String "034" EmptyString.

Section Setup.

Context (h : Host).

(** [IS_DARWIN = platform.system() == 'Darwin'] *)
Definition IS_DARWIN : bool := String.eqb (platform_system h) "Darwin".

(** [os.environ.get(var, default)] *)
Definition environ_get (st : State) (var dflt : string) : string :=
  default dflt (environ st !! var).

(** A child process: the host replies, the reply is traced, the files it
    left are taken over. *)
Definition subprocess (shell : bool) (argv : list string) : M (Z * string) :=
  fun st =>
    let '(r, fs) := spawn h st shell argv in
    (match r with Some x => Ok x | None => Raise OSError end,
     emit (EvSpawn shell argv r) (set_files fs st)).

(** [subprocess.call(cmd, shell=True)] *)
Definition subprocess_call_shell (cmd : string) : M Z :=
  let* r := subprocess true [cmd] in ret (fst r).

(** [subprocess.check_call(argv)] *)
Definition subprocess_check_call (argv : list string) : M unit :=
  let* r := subprocess false argv in
  if Z.eqb (fst r) 0 then ret tt else raise CalledProcessError.

(** [subprocess.check_output(argv, encoding="ascii")] *)
Definition subprocess_check_output (argv : list string) : M string :=
  let* r := subprocess false argv in
  if negb (Z.eqb (fst r) 0) then raise CalledProcessError
  else if negb (Py.is_ascii (snd r)) then raise UnicodeDecodeError
  else ret (snd r).

Definition changedir {A} (path : string) (body : M A) : M A :=
  let* save_dir := getcwd in
  let* _ := chdir path in
  try_finally body (chdir save_dir).

Definition run_configure (option : string) : M bool :=
  try_except
    (let* retcode := subprocess_call_shell (Py.join " " ["./configure"; option]) in
     if negb (Z.eqb retcode 0) then ret false else ret true)
    (fun e => match e with OSError => Some (ret false) | _ => None end).

Definition make_program (st : State) : string := environ_get st "MAKE" "make".

Definition run_make (targets : list string) : M unit :=
  let* st := get_state in
  subprocess_check_call ([make_program st] ++ targets).

Definition parse_print_config (stdout : string) : Dict.t string :=
  foldl (fun make_print_config line =>
           if Py.str_in "=" line then
             match Py.split_char "=" line with
             | [k; v] => Dict.set make_print_config (Py.strip k) (Py.strip v)
             | _ => make_print_config
             end
           else make_print_config)
        [] (Py.splitlines stdout).

Definition run_make_print_config : M (Dict.t string) :=
  let* st := get_state in
  let* stdout := subprocess_check_output [make_program st; "-s"; "print-config"] in
  ret (parse_print_config stdout).

(** One iteration of the loop of [run_nm_defined_symbols]. *)
Definition nm_line (symbols : gset string) (line : string) : result (gset string) :=
  match Py.split_ws line with
  | sym :: symtype :: _ =>
      if negb (Py.str_in symtype "UFNWw") then
        if IS_DARWIN then
          Ok ({[ if Py.startswith sym "_" then Py.tail sym else sym ]} ∪ symbols)
        else
          match sym with
          | String c _ => if negb (Py.char_in c "_$.@") then Ok ({[sym]} ∪ symbols) else Ok symbols
          | EmptyString => Raise IndexError
          end
      else Ok symbols
  | _ => Raise (ValueError "not enough values to unpack")
  end.

Fixpoint nm_lines (symbols : gset string) (lines : list string) : result (gset string) :=
  match lines with
  | [] => Ok symbols
  | line :: lines' =>
      match nm_line symbols line with
      | Ok symbols' => nm_lines symbols' lines'
      | Raise e => Raise e
      end
  end.

(** The symbols [run_nm_defined_symbols] extracts from the output of nm. *)
Definition nm_defined_symbols (stdout : string) : result (gset string) :=
  match nm_lines ∅ (Py.splitlines stdout) with
  | Ok symbols => Ok (symbols ∖ {["__pyx_CommonTypesMetaclass_get_module"]})
  | Raise e => Raise e
  end.

Definition run_nm_defined_symbols (objfile : string) : M (gset string) :=
  let* stdout := subprocess_check_output ["nm"; "-g"; "-P"; objfile] in
  match nm_defined_symbols stdout with
  | Ok symbols => ret symbols
  | Raise e => raise e
  end.

(** *** build_config_dict *)

(** [env(var)] and [sc(var)]: the value as a list of zero or one element. *)
Definition env (st : State) (var : string) : list string :=
  match environ st !! var with Some v => [v] | None => [] end.

Definition sc (var : string) : list string :=
  match sysconfig h !! var with Some v => [v] | None => [] end.

Definition quote (s : string) : string :=
  if Py.str_in " " s then "'" +:+ s +:+ "'" else s.

Definition optionise (option : string) (valuelist : list string) : list string :=
  map (fun v => quote (option +:+ v)) valuelist.

Definition appendoptvalue (t : string * option string) : string :=
  match snd t with
  | None => fst t
  | Some v => fst t +:+ "=" +:+ v
  end.

Definition kvtuples (pairlist : list (string * option string)) : list string :=
  map appendoptvalue pairlist.

(** The list object an extension's [library_dirs] refers to. *)
Definition library_dirs_of (st : State) (ext : Extension) : list string :=
  default [] (heap st !! ext_library_dirs ext).

(** The operands of the five joins, before [" ".join]. *)
Definition cc_candidates (st : State) : list string := env st "CC" ++ sc "CC" ++ ["gcc"].

Definition cppflags_parts (st : State) (ext : Extension) : list string :=
  env st "CPPFLAGS" ++ optionise "-I" (ext_include_dirs ext) ++
  optionise "-D" (kvtuples (ext_define_macros ext)) ++
  optionise "-U" (ext_undef_macros ext).

Definition cflags_parts (st : State) (ext : Extension) : list string :=
  sc "CFLAGS" ++ env st "CFLAGS" ++ sc "CCSHARED" ++ ext_extra_compile_args ext.

Definition ldflags_parts (st : State) (ext : Extension) : list string :=
  sc "LDFLAGS" ++ env st "LDFLAGS" ++ env st "CFLAGS" ++
  optionise "-L" (library_dirs_of st ext) ++ ext_extra_link_args ext.

Definition libs_parts (ext : Extension) : list string := optionise "-l" (ext_libraries ext).

Definition build_config_dict (st : State) (ext : Extension) : Dict.t string :=
  let cc := hd "gcc" (cc_candidates st) in
  let cppflags := Py.join " " (cppflags_parts st ext) in
  let cflags := Py.join " " (cflags_parts st ext) in
  let ldflags := Py.join " " (ldflags_parts st ext) in
  let libs := Py.join " " (libs_parts ext) in
  [("CC", cc); ("CPPFLAGS", cppflags); ("CFLAGS", cflags); ("LDFLAGS", ldflags); ("LIBS", libs)].

Definition define_line (prefix : string) (item : string * string) : string :=
  "#define " +:+ prefix +:+ "_" +:+ fst item +:+ " " +:+ dquote +:+ snd item +:+ dquote +:+ newline.

Definition write_configvars_header (filename : string) (ext : Extension) (prefix : string) : M unit :=
  let* st := get_state in
  let config := build_config_dict st ext in
  let config :=
    if negb (String.eqb prefix "HTS")
    then Dict.set (Dict.set config "HTSDIR" "(unused)") "CURSES_LIB" "(unused)"
    else config in
  let* _ := log INFO ("creating " +:+ filename +:+ " for '" +:+ ext_name ext +:+ "' extension") in
  write_file filename (String.concat "" (map (define_line prefix) config)).

(** *** set_compiler_envvars *)

Definition setenv (var value : string) : M unit :=
  modify (fun st => set_environ (<[var := value]> (environ st)) st).

(** [del os.environ[var]] *)
Definition delenv (var : string) : M unit :=
  fun st =>
    match environ st !! var with
    | Some _ => (Ok tt, set_environ (delete var (environ st)) st)
    | None => (Raise (KeyError var), st)
    end.

(** [var == 'CFLAGS' and 'CCSHARED' in sysconfig.get_config_vars()]: the
    text to append, if any. *)
Definition ccshared_suffix (var : string) : string :=
  if String.eqb var "CFLAGS" then
    match sysconfig h !! "CCSHARED" with
    | Some ccshared => " " +:+ ccshared
    | None => ""
    end
  else "".

(** The loop before [yield]; returns [tmp_vars]. *)
Fixpoint compiler_envvars_enter (vars tmp_vars : list string) : M (list string) :=
  match vars with
  | [] => ret tmp_vars
  | var :: vars' =>
      let* st := get_state in
      match environ st !! var with
      | Some cur =>
          let value := cur +:+ ccshared_suffix var in
          let* _ := (if String.eqb var "CFLAGS" && bool_decide (is_Some (sysconfig h !! "CCSHARED"))
                     then setenv var value else ret tt) in
          let* _ := print ("# pysam: (env) " +:+ var +:+ "=" +:+ value) in
          compiler_envvars_enter vars' tmp_vars
      | None =>
          match sysconfig h !! var with
          | Some v =>
              let value := v +:+ ccshared_suffix var in
              let* _ := print ("# pysam: (sysconfig) " +:+ var +:+ "=" +:+ value) in
              let* _ := setenv var value in
              compiler_envvars_enter vars' (tmp_vars ++ [var])
          | None => compiler_envvars_enter vars' tmp_vars
          end
      end
  end.

Definition set_compiler_envvars {A} (body : M A) : M A :=
  let* tmp_vars := compiler_envvars_enter ["CC"; "CFLAGS"; "LDFLAGS"] [] in
  try_finally body (for_each tmp_vars delenv).

Definition format_macro_option (name : string) (value : option string) : string :=
  match value with
  | Some v => "-D" +:+ name +:+ "=" +:+ v
  | None => "-D" +:+ name
  end.

(** *** configure_library *)

(** [for option in options: if run_configure(option): return option] *)
Fixpoint try_options (options : list string) : M (option string) :=
  match options with
  | [] => ret None
  | option :: options' =>
      let* ok := run_configure option in
      if ok then ret (Some option) else try_options options'
  end.

(** The option that is tried first: on Read the Docs the caller's option is
    replaced. *)
Definition effective_env_options (st : State) (env_options : option string) : option string :=
  if bool_decide (environ st !! "READTHEDOCS" = Some "True")
  then Some "--disable-bz2" else env_options.

(** The body of the [with] statement of [configure_library]. *)
Definition configure_attempts (env_options : option string) (options : list string)
    : M (option string) :=
  let* first :=
    match env_options with
    | Some o => let* ok := run_configure o in ret (if ok then Some o else None)
    | None => ret None
    end in
  match first with
  | Some o => ret (Some o)
  | None => try_options options
  end.

Definition configure_library (library_dir : string) (env_options : option string)
    (options : list string) : M (option string) :=
  let configure_script := Py.os_path_join library_dir "configure" in
  let* st := get_state in
  let env_options := effective_env_options st env_options in
  if negb (path_exists st configure_script)
  then raise (ValueError ("configure script '" +:+ configure_script +:+ "' does not exist"))
  else changedir library_dir (set_compiler_envvars (configure_attempts env_options options)).

(** *** cy_build_ext *)

(** The state of the [build_ext] command that the overridden methods use. *)
Record cy_build_ext : Type := mk_cy_build_ext {
  self_compiler : CCompiler;
  build_lib : string;
  build_temp : string;
  inplace : bool;
  force : bool;
  ext_modules : list Extension
}.

Definition set_self_compiler (cc : CCompiler) (self : cy_build_ext) : cy_build_ext :=
  mk_cy_build_ext cc (build_lib self) (build_temp self) (inplace self) (force self)
                  (ext_modules self).

(** [symbols.setdefault(sym, []).append(label)] for each [sym] of a module. *)
Definition record_symbols (label : string) (symbols : Dict.t (list string))
    (syms : list string) : Dict.t (list string) :=
  foldl (fun d sym => Dict.set d sym (default [] (Dict.get d sym) ++ [label])) symbols syms.

Fixpoint collect_symbols (exts : list Extension) (symbols : Dict.t (list string))
    : M (Dict.t (list string)) :=
  match exts with
  | [] => ret symbols
  | ext :: exts' =>
      let* syms := run_nm_defined_symbols (get_ext_fullpath h (ext_name ext)) in
      collect_symbols exts'
        (record_symbols (Py.lstrip_chars "pysam." (ext_name ext)) symbols (elements syms))
  end.

Definition conflict_message (sym : string) (objs : list string) : string :=
  "conflicting symbol (" +:+ Py.join " " objs +:+ "): " +:+ sym.

Fixpoint report_conflicts (items : list (string * list string)) (errors : nat) : M nat :=
  match items with
  | [] => ret errors
  | (sym, objs) :: items' =>
      if Nat.ltb 1 (length objs)
      then let* _ := log ERROR (conflict_message sym objs) in report_conflicts items' (S errors)
      else report_conflicts items' errors
  end.

Definition check_ext_symbol_conflicts (self : cy_build_ext) : M unit :=
  let* symbols := collect_symbols (ext_modules self) [] in
  let* errors := report_conflicts symbols 0%nat in
  if Nat.ltb 0 errors then raise (LinkError "symbols defined in multiple extensions")
  else ret tt.

(** [self.compiler.compile(sources, output_dir=..., extra_preargs=...)] *)
Definition compile (self : cy_build_ext) (sources : list string) (output_dir : string)
    (extra_preargs : option (list string)) : M unit :=
  fun st =>
    let '(r, fs) := cc_compile h st (self_compiler self) sources output_dir extra_preargs in
    (r, emit (EvCompile (self_compiler self) sources output_dir extra_preargs r) (set_files fs st)).

(** The name of the compiler in the log lines of the probe. *)
Definition compiler_label (cc : CCompiler) : result string :=
  match cc_compiler cc with
  | None => Ok "C compiler"
  | Some PyNone => Ok "None"
  | Some (PyStr s) => Ok s
  | Some (PyList (x :: _)) => Ok x
  | Some (PyList []) => Raise IndexError
  end.

Definition c99_candidates : list (option (list string)) :=
  [None; Some ["-std=c99"]; Some ["-std=gnu99"]].

Definition flags_text (flags : option (list string)) : string :=
  match flags with
  | Some (f :: fl) => Py.join " " (f :: fl)
  | _ => "none needed"
  end.

(** The loop of [c99_compile_args] over the flags still to try. *)
Fixpoint c99_probe (self : cy_build_ext) (label : string)
    (candidates : list (option (list string))) : M (option (list string)) :=
  match candidates with
  | [] =>
      let* _ := log ERROR (label +:+ " cannot compile C99 source code") in
      ret None
  | flags :: rest =>
      try_except
        (let* _ := compile self ["pysam/conftest_cstd.c"] (build_temp self) flags in
         let* _ := log INFO (label +:+ " option to enable C99 features: " +:+ flags_text flags) in
         ret flags)
        (fun e =>
           match e with
           | CompileError =>
               Some (let* _ := log INFO "(ignoring errors from test probes)" in
                     c99_probe self label rest)
           | _ => None
           end)
  end.

Definition c99_compile_args (self : cy_build_ext) : M (option (list string)) :=
  match compiler_label (self_compiler self) with
  | Raise e => raise e
  | Ok label =>
      let* _ := log INFO ("checking for " +:+ label +:+ " option to enable C99 features...") in
      c99_probe self label c99_candidates
  end.

(** The entry of [executables] for one attribute, if the loop makes one. *)
Definition executable_with_flags (command : option PyCmd) (c99_flags : list string)
    : option PyCmd :=
  match command with
  | Some (PyList (x :: l)) => Some (PyList ((x :: l) ++ c99_flags))
  | Some (PyStr (String a s)) => Some (PyStr (String a s +:+ " " +:+ Py.join " " c99_flags))
  | _ => None
  end.

(** [set_executable(key, value)] of distutils: a command given as a string
    is stored as the list of its words. *)
Definition set_executable (value : PyCmd) : PyCmd :=
  match value with
  | PyStr s => PyList (split_quoted h s)
  | _ => value
  end.

(** [self.compiler.set_executables] with the [executables] dictionary: the
    attributes it names are set, each by [set_executable]. *)
Definition set_executables (cc : CCompiler) (new_compiler new_compiler_so : option PyCmd)
    : CCompiler :=
  mkCCompiler
    (match new_compiler with Some v => Some (set_executable v) | None => cc_compiler cc end)
    (match new_compiler_so with Some v => Some (set_executable v) | None => cc_compiler_so cc end).

(** The compiler after [if c99_flags: ...]. *)
Definition adopt_c99_flags (cc : CCompiler) (c99_flags : option (list string)) : CCompiler :=
  match c99_flags with
  | Some (f :: fl) =>
      set_executables cc (executable_with_flags (cc_compiler cc) (f :: fl))
                         (executable_with_flags (cc_compiler_so cc) (f :: fl))
  | _ => cc
  end.

(** [os.path.basename] *)
Fixpoint take_to_slash (r : string) : string :=
  match r with
  | EmptyString => EmptyString
  | String a r' => if Ascii.eqb a "/" then EmptyString else String a (take_to_slash r')
  end.
Definition basename (p : string) : string := String.rev (take_to_slash (String.rev p)).

(** [ext.library_dirs.append(x)]: the shared list object grows. *)
Definition library_dirs_append (ext : Extension) (x : string) : M unit :=
  modify (fun st =>
    set_heap (<[ext_library_dirs ext := library_dirs_of st ext ++ [x]]> (heap st)) st).

Definition set_extra_link_args (args : list string) (ext : Extension) : Extension :=
  mkExtension (ext_name ext) (ext_sources ext) (ext_include_dirs ext) (ext_define_macros ext)
    (ext_undef_macros ext) (ext_library_dirs ext) (ext_libraries ext) (ext_extra_objects ext)
    (ext_extra_compile_args ext) args (ext_language ext) (ext_prebuild_func ext).

(** The platform-specific link arguments of [build_extension]. *)
Definition platform_link_args (ext : Extension) : result (list string) :=
  if String.eqb (sys_platform h) "darwin" then
    match sysconfig h !! "EXT_SUFFIX" with
    | None => Raise TypeError
    | Some suffix =>
        let relative_module_path := Py.replace "." "/" (ext_name ext) +:+ suffix in
        let library_path := Py.os_path_join "@rpath" (basename relative_module_path) in
        Ok ["-dynamiclib"; "-rpath"; "@loader_path"; "-Wl,-headerpad_max_install_names";
            "-Wl,-install_name," +:+ library_path; "-Wl,-x"]
    end
  else Ok ["-Wl,-rpath,$ORIGIN"].

(** *** The pre-build hooks *)

Definition requires_vendored_build (HTSLIB_MODE : string) : bool :=
  String.eqb HTSLIB_MODE "shared" || String.eqb HTSLIB_MODE "separate".

Definition all_cppflags (ext : Extension) : string :=
  let args := Py.join " " (ext_extra_compile_args ext) in
  let defines := Py.join " "
    (map (fun pair => format_macro_option (fst pair) (snd pair)) (ext_define_macros ext)) in
  "ALL_CPPFLAGS=-I. " +:+ args +:+ " " +:+ defines +:+ " $(CPPFLAGS)".

Definition prebuild_libchtslib (HTSLIB_MODE : string) (ext : Extension) (force : bool) : M unit :=
  if negb (requires_vendored_build HTSLIB_MODE) then ret tt
  else
    let* _ := write_configvars_header "htslib/config_vars.h" ext "HTS" in
    let* st := get_state in
    if force || negb (path_exists st "htslib/libhts.a") then
      let* _ := log INFO "building 'libhts.a'" in
      changedir "htslib" (run_make [all_cppflags ext; "lib-static"])
    else log WARNING "skipping 'libhts.a' (already built)".

Definition prebuild_libcsamtools (ext : Extension) (force : bool) : M unit :=
  write_configvars_header "samtools/samtools_config_vars.h" ext "SAMTOOLS".

Definition run_hook (HTSLIB_MODE : string) (hook : Hook) (ext : Extension) (force : bool)
    : M unit :=
  match hook with
  | prebuild_libchtslib_hook => prebuild_libchtslib HTSLIB_MODE ext force
  | prebuild_libcsamtools_hook => prebuild_libcsamtools ext force
  end.

(** *** build_extension, build_extensions, run *)

(** [super().build_extension(ext)]: the compiler and linker of distutils. *)
Definition super_build (self : cy_build_ext) (ext : Extension) : M unit :=
  fun st =>
    let '(r, fs) := super_build_extension h st (self_compiler self) ext (library_dirs_of st ext) in
    (r, emit (EvBuildExtension (self_compiler self) ext (library_dirs_of st ext) r)
             (set_files fs st)).

Definition build_extension (HTSLIB_MODE : string) (self : cy_build_ext) (ext : Extension)
    : M unit :=
  let* _ := (if negb (inplace self)
             then library_dirs_append ext (Py.os_path_join (build_lib self) "pysam")
             else ret tt) in
  match platform_link_args ext with
  | Raise e => raise e
  | Ok args =>
      let ext := set_extra_link_args (ext_extra_link_args ext ++ args) ext in
      let* _ := match ext_prebuild_func ext with
                | Some hook => run_hook HTSLIB_MODE hook ext (force self)
                | None => ret tt
                end in
      super_build self ext
  end.

(** [super().build_extensions()] of distutils calls [build_extension] for
    each extension in order and stops at the first exception.  The command
    is returned with the compiler it ends with. *)
Definition build_extensions (HTSLIB_MODE : string) (self : cy_build_ext) : M cy_build_ext :=
  let* c99_flags := c99_compile_args self in
  let self := set_self_compiler (adopt_c99_flags (self_compiler self) c99_flags) self in
  let* _ := for_each (ext_modules self) (build_extension HTSLIB_MODE self) in
  ret self.

(** [super().run()] of distutils returns at once when there is no extension
    and calls [build_extensions] otherwise. *)
Definition super_run (HTSLIB_MODE : string) (self : cy_build_ext) : M cy_build_ext :=
  match ext_modules self with
  | [] => ret self
  | _ :: _ => build_extensions HTSLIB_MODE self
  end.

Definition strip_bundle : M unit :=
  if String.eqb (sys_platform h) "darwin" then
    let* st := get_state in
    match environ st !! "LDSHARED", sysconfig h !! "LDSHARED" with
    | Some ldshared, _ | None, Some ldshared =>
        setenv "LDSHARED" (Py.replace "-bundle" "" ldshared)
    | None, None => raise AttributeError
    end
  else ret tt.

Definition run (HTSLIB_MODE : string) (self : cy_build_ext) : M unit :=
  let* _ := strip_bundle in
  let* self := super_run HTSLIB_MODE self in
  try_except
    (if negb (String.eqb HTSLIB_MODE "separate")
     then check_ext_symbol_conflicts self
     else ret tt)
    (fun e =>
       match e with
       | OSError => Some (log WARNING "skipping symbol collision check (invoking nm failed: OSError)")
       | CalledProcessError => Some (log WARNING "skipping symbol collision check (invoking nm failed)")
       | _ => None
       end).

(** *** The module-level script: how to link against HTSlib *)

(** The three ways of linking (the branches of lines 478-508). *)
Inductive LinkMode : Type := EmbeddedShared | EmbeddedSeparate | External.

Global Instance LinkMode_eq_dec : EqDecision LinkMode.
Proof. solve_decision. Defined.

(** Truth value of [HTSLIB_LIBRARY_DIR]: set and not empty. *)
Definition truthy (v : option string) : bool :=
  match v with
  | Some (String _ _) => true
  | _ => false
  end.

(** The branch that [if HTSLIB_LIBRARY_DIR: ... elif ... else: raise] takes. *)
Definition link_mode (HTSLIB_MODE : string) (HTSLIB_LIBRARY_DIR : option string)
    : result LinkMode :=
  if truthy HTSLIB_LIBRARY_DIR then Ok External
  else if String.eqb HTSLIB_MODE "separate" then Ok EmbeddedSeparate
  else if String.eqb HTSLIB_MODE "shared" then Ok EmbeddedShared
  else Raise (ValueError ("unknown HTSLIB value '" +:+ HTSLIB_MODE +:+ "'")).

(** The module-level names that later code reads.  The two search-path lists
    hold the environment values as they are, [None] included. *)
Record Resolved : Type := mkResolved {
  HTSLIB_MODE : string;
  HTSLIB_LIBRARY_DIR : option string;
  HTSLIB_INCLUDE_DIR : option string;
  HTSLIB_CONFIGURE_OPTIONS : option string;
  HTSLIB_SOURCE : option string;
  package_list : list string;
  package_dirs : Dict.t string;
  config_headers : list string;
  htslib_configure_options : option string;
  external_htslib_libraries : list string;
  htslib_objects : list string;
  separate_htslib_objects : list string;
  htslib_library_dirs : list (option string);
  htslib_include_dirs : list (option string)
}.

(** [str(x)] of an optional string inside an f-string. *)
Definition fmt_opt (o : option string) : string := default "None" o.

Definition source_pattern (name : string) : string :=
  if HAVE_CYTHON h then "pysam/libc" +:+ name +:+ ".pyx" else "pysam/libc" +:+ name +:+ ".c".

Definition empty_config_h : string :=
  "/* empty config.h created by pysam */" +:+ newline +:+
  "/* conservative compilation options */" +:+ newline.

(** [[re.sub("^-l", "", x) for x in libs.split(" ") if x.strip()]] *)
Definition libs_of_make (libs : string) : list string :=
  map (Py.drop_prefix "-l")
      (filter (fun x => Py.strip x ≠ EmptyString) (Py.split_char " " libs)).

(** What the block under [if HTSLIB_MODE in ['shared', 'separate']] binds. *)
Record Builtin : Type := mkBuiltin {
  b_configure_options : option string;
  b_make_options : Dict.t string;
  b_external_libraries : list string
}.

(** Lines 444-476. *)
Definition configure_builtin (HTSLIB_CONFIGURE_OPTIONS : option string) : M Builtin :=
  let* htslib_configure_options :=
    configure_library "htslib" HTSLIB_CONFIGURE_OPTIONS
                      ["--enable-libcurl"; "--disable-libcurl"] in
  let* _ := print ("# pysam: htslib configure options: " +:+ fmt_opt htslib_configure_options) in
  let* _ := match htslib_configure_options with
            | None => write_file "htslib/config.h" empty_config_h
            | Some _ => ret tt
            end in
  let* htslib_make_options := changedir "htslib" run_make_print_config in
  let* _ := for_each htslib_make_options
              (fun kv => print ("# pysam: htslib_config " +:+ fst kv +:+ "=" +:+ snd kv)) in
  let external_htslib_libraries :=
    match Dict.get htslib_make_options "LIBS" with
    | Some libs => ["z"] ++ libs_of_make libs
    | None => ["z"]
    end in
  ret (mkBuiltin htslib_configure_options htslib_make_options external_htslib_libraries).

(** Lines 478-508: the artifact lists for the mode, over the names bound
    so far ([builtin] holds what lines 444-476 bound, if they ran). *)
Definition select_artifacts (st : State) (builtin : option Builtin) : result Resolved :=
  let HTSLIB_MODE := environ_get st "HTSLIB_MODE" "shared" in
  let HTSLIB_LIBRARY_DIR := environ st !! "HTSLIB_LIBRARY_DIR" in
  let HTSLIB_INCLUDE_DIR := environ st !! "HTSLIB_INCLUDE_DIR" in
  let HTSLIB_CONFIGURE_OPTIONS := environ st !! "HTSLIB_CONFIGURE_OPTIONS" in
  let package_list :=
    ["pysam"; "pysam.include"; "pysam.include.samtools"; "pysam.include.bcftools"] in
  let package_dirs :=
    [("pysam", "pysam"); ("pysam.include.samtools", "samtools");
     ("pysam.include.bcftools", "bcftools")] in
  let config_headers := ["samtools/config.h"; "bcftools/config.h"] in
  let vendored := requires_vendored_build HTSLIB_MODE in
  let package_list :=
    if vendored then package_list ++ ["pysam.include.htslib"; "pysam.include.htslib.htslib"]
    else package_list in
  let package_dirs :=
    if vendored then Dict.set package_dirs "pysam.include.htslib" "htslib" else package_dirs in
  let HTSLIB_SOURCE := if vendored then Some "builtin" else None in
  let config_headers :=
    if vendored then config_headers ++ ["htslib/config.h"] else config_headers in
  let htslib_configure_options := b ← builtin; b_configure_options b in
  let htslib_make_options := from_option b_make_options [] builtin in
  let external_htslib_libraries := from_option b_external_libraries [] builtin in
  let mk := mkResolved HTSLIB_MODE HTSLIB_LIBRARY_DIR HTSLIB_INCLUDE_DIR
              HTSLIB_CONFIGURE_OPTIONS HTSLIB_SOURCE package_list package_dirs
              config_headers htslib_configure_options in
  match link_mode HTSLIB_MODE HTSLIB_LIBRARY_DIR with
  | Ok External =>
      Ok (mk ["z"; "hts"] [] [] [HTSLIB_LIBRARY_DIR] [HTSLIB_INCLUDE_DIR])
  | Ok EmbeddedSeparate =>
      Ok (mk external_htslib_libraries ["htslib/libhts.a"] ["htslib/libhts.a"]
             [] [Some "htslib"])
  | Ok EmbeddedShared =>
      match Dict.get htslib_make_options "LIBHTS_OBJS" with
      | Some objs =>
          Ok (mk external_htslib_libraries
                 (map (Py.os_path_join "htslib") (Py.split_char " " objs)) []
                 [Some "."] [Some "htslib"])
      | None => Raise (KeyError "LIBHTS_OBJS")
      end
  | Raise e => Raise e
  end.

(** Lines 403-508 of the script. *)
Definition resolve_htslib : M Resolved :=
  let* st := get_state in
  let HTSLIB_MODE := environ_get st "HTSLIB_MODE" "shared" in
  let HTSLIB_CONFIGURE_OPTIONS := environ st !! "HTSLIB_CONFIGURE_OPTIONS" in
  let* _ := print (if HAVE_CYTHON h
                   then "# pysam: Cython " +:+ cython_version h +:+
                        " is available - using cythonize if necessary"
                   else "# pysam: no Cython available - using pre-compiled C") in
  let fn := source_pattern "htslib" in
  if negb (path_exists st fn) then
    raise (ValueError ("no Cython installed, but cannot find " +:+ fn +:+
                       ". Make sure that Cython is installed when building from the repository"))
  else
    let* _ := print ("# pysam: htslib mode is " +:+ HTSLIB_MODE) in
    let* _ := print ("# pysam: HTSLIB_CONFIGURE_OPTIONS=" +:+ fmt_opt HTSLIB_CONFIGURE_OPTIONS) in
    let* builtin :=
      (if requires_vendored_build HTSLIB_MODE
       then let* b := configure_builtin HTSLIB_CONFIGURE_OPTIONS in ret (Some b)
       else ret None) in
    match select_artifacts st builtin with
    | Ok r => ret r
    | Raise e => raise e
    end.

(** *** The module list, lines 545-685, and the [CyExtension] objects

    Lines 510-543 in between write pysam/config.py and the missing config
    headers; they bind no name that the code below reads. *)

(** One entry of [modules] before [common_options] is merged in. *)
Record ModuleDecl : Type := mkModuleDecl {
  m_name : string;
  m_prebuild_func : option Hook;
  m_sources : list string;
  m_extra_objects : list string;
  m_libraries : list string
}.

(** [[os.path.abspath(x) for x in l]]; [abspath(None)] raises [TypeError]. *)
Fixpoint abspath_all (d : string) (l : list (option string)) : result (list string) :=
  match l with
  | [] => Ok []
  | None :: _ => Raise TypeError
  | Some x :: l' =>
      match abspath_all d l' with
      | Ok r => Ok (abspath h d x :: r)
      | Raise e => Raise e
      end
  end.

Definition is_windows : bool := String.eqb (platform_system h) "Windows".
Definition include_os : list string := if is_windows then ["win32"] else [].
Definition os_c_files : list string := if is_windows then ["win32/getopt.c"] else [].
Definition extra_compile_args : list string :=
  if is_windows then []
  else ["-Wno-unused"; "-Wno-strict-prototypes"; "-Wno-sign-compare";
        "-Wno-error=declaration-after-statement"].

Definition define_macros (st : State) : list (string * option string) :=
  if String.eqb (environ_get st "CIBUILDWHEEL" "0") "1" then [("BUILDING_WHEEL", None)] else [].

(** [os.path.splitext(f"{stem}{suffix}")[0]] *)
Definition internal_library (stem : string) : string :=
  splitext_root h (stem +:+ fmt_opt (sysconfig h !! "EXT_SUFFIX")).

Definition internal_htslib_libraries : list string := [internal_library "chtslib"].
Definition internal_samtools_libraries : list string :=
  [internal_library "csamtools"; internal_library "cbcftools"].
Definition internal_pysamutil_libraries : list string := [internal_library "cutils"].

Definition libraries_for_pysam_module (r : Resolved) : list string :=
  external_htslib_libraries r ++ internal_htslib_libraries ++ internal_pysamutil_libraries.

(** A module that only differs from its siblings by its name. *)
Definition pysam_module (r : Resolved) (stem : string) : ModuleDecl :=
  mkModuleDecl ("pysam.libc" +:+ stem) None ([source_pattern stem] ++ os_c_files)
               (separate_htslib_objects r) (libraries_for_pysam_module r).

Definition modules (r : Resolved) : list ModuleDecl :=
  [ mkModuleDecl "pysam.libchtslib" (Some prebuild_libchtslib_hook)
      ([source_pattern "htslib"; "pysam/htslib_util.c"] ++ os_c_files)
      (htslib_objects r)
      (external_htslib_libraries r);
    mkModuleDecl "pysam.libcsamtools" (Some prebuild_libcsamtools_hook)
      ([source_pattern "samtools"] ++ glob h (Py.os_path_join "samtools" "*.pysam.c") ++
       [Py.os_path_join (Py.os_path_join "samtools" "lz4") "lz4.c"] ++ os_c_files)
      (separate_htslib_objects r)
      (external_htslib_libraries r ++ internal_htslib_libraries);
    mkModuleDecl "pysam.libcbcftools" None
      ([source_pattern "bcftools"] ++ glob h (Py.os_path_join "bcftools" "*.pysam.c") ++ os_c_files)
      (separate_htslib_objects r)
      (external_htslib_libraries r ++ internal_htslib_libraries);
    mkModuleDecl "pysam.libcutils" None
      ([source_pattern "utils"] ++ os_c_files)
      (separate_htslib_objects r)
      (external_htslib_libraries r ++ internal_htslib_libraries ++ internal_samtools_libraries);
    pysam_module r "alignmentfile";
    pysam_module r "samfile";
    pysam_module r "alignedsegment";
    pysam_module r "tabix";
    pysam_module r "faidx";
    pysam_module r "bcf";
    pysam_module r "bgzf";
    pysam_module r "tabixproxies";
    pysam_module r "vcf" ].

(** The [CyExtension] made from a module entry once [common_options] is
    merged in; [library_dirs] is the location of the one list of
    [common_options]. *)
Definition CyExtension (st : State) (library_dirs : nat) (include_dirs : list string)
    (m : ModuleDecl) : Extension :=
  mkExtension (m_name m) (m_sources m) include_dirs (define_macros st) [] library_dirs
              (m_libraries m) (m_extra_objects m) extra_compile_args [] (Some "c")
              (m_prebuild_func m).

(** [metadata['ext_modules']] *)
Definition build_ext_modules (r : Resolved) : M (list Extension) :=
  let* st := get_state in
  match abspath_all (cwd st) ([Some "pysam"] ++ htslib_library_dirs r) with
  | Raise e => raise e
  | Ok library_dirs =>
      match abspath_all (cwd st)
              ([Some "pysam"] ++ htslib_include_dirs r ++
               [Some "samtools"; Some "samtools/lz4"; Some "bcftools"; Some "."] ++
               map Some include_os) with
      | Raise e => raise e
      | Ok include_dirs =>
          let loc := fresh (dom (heap st)) in
          let* _ := modify (fun st => set_heap (<[loc := library_dirs]> (heap st)) st) in
          ret (map (CyExtension st loc include_dirs) (modules r))
      end
  end.

(** The script up to the module list, and the [build_ext] command on it.
    Lines 510-543 lie between the names bound up to line 508 and the module
    list: they write pysam/config.py and the config headers, bind no name
    that is used later and change neither directory nor environment; they
    are modelled apart, as [write_config_py] and
    [write_missing_config_headers]. *)
Definition setup_script : M (Resolved * list Extension) :=
  let* r := resolve_htslib in
  let* exts := build_ext_modules r in
  ret (r, exts).

Definition setup_build_ext (cmd : cy_build_ext) : M unit :=
  let* re := setup_script in
  run (HTSLIB_MODE (fst re))
      (mk_cy_build_ext (self_compiler cmd) (build_lib cmd) (build_temp cmd) (inplace cmd)
                       (force cmd) (snd re)).

End Setup.

(** ** The rest of the script

    What the claims above do not touch: the generated pysam/config.py and
    config headers (lines 510-543), the [clean_ext] command and the options
    that [cythonize_sdist] adds to sdist. *)

(** *** Lines 510-533: pysam/config.py *)

(** The longest prefix of characters that satisfy [p], and what follows it. *)
Fixpoint span (p : ascii -> bool) (s : string) : string * string :=
  match s with
  | EmptyString => (EmptyString, EmptyString)
  | String a s' =>
      if p a then (String a (fst (span p s')), snd (span p s')) else (EmptyString, s)
  end.

Definition nonspace (a : ascii) : bool := negb (Py.isspace a).

(** [re.match(r"#define (\S+)\s+(\S+)", line)] and its [groups()], [None]
    when the line does not match.  [\S] and [\s] are complementary
    character classes, so backtracking finds nothing that the longest runs
    do not: after the literal prefix, a run of non-space characters, a run
    of white space and another run of non-space characters, none empty.
    The lines are text; on a line of ASCII characters the text is the
    string of the model and [\s] is [Py.isspace].  Beyond ASCII the text
    depends on the encoding of the host, and [\s] takes in white space such
    as the no-break space: the model describes ASCII lines, and the
    properties of these definitions are stated for such lines. *)
Definition match_define (line : string) : option (string * string) :=
  if Py.is_prefix "#define " line then
    let rest := Py.drop_prefix "#define " line in
    let key := fst (span nonspace rest) in
    let rest := snd (span nonspace rest) in
    let blank := fst (span Py.isspace rest) in
    let rest := snd (span Py.isspace rest) in
    let value := fst (span nonspace rest) in
    match key, blank, value with
    | String _ _, String _ _, String _ _ => Some (key, value)
    | _, _, _ => None
    end
  else None.

(** The loop over the lines of htslib/config.h; a line that starts with
    [#define] and does not match raises [AttributeError] ([None] has no
    [groups]). *)
Fixpoint read_defines (config_values : Dict.t string) (lines : list string)
    : result (Dict.t string) :=
  match lines with
  | [] => Ok config_values
  | line :: lines' =>
      if Py.startswith line "#define" then
        match match_define line with
        | Some (key, value) => read_defines (Dict.set config_values key value) lines'
        | None => Raise AttributeError
        end
      else read_defines config_values lines'
  end.

Definition config_option_keys : list string :=
  ["ENABLE_GCS"; "ENABLE_PLUGINS"; "ENABLE_S3"; "HAVE_COMMONCRYPTO"; "HAVE_HMAC";
   "HAVE_LIBBZ2"; "HAVE_LIBCURL"; "HAVE_LIBDEFLATE"; "HAVE_LIBLZMA"; "HAVE_MMAP"].

(** [f"{config_values[key]}"] of the [defaultdict(int)]. *)
Definition config_value (config_values : Dict.t string) (key : string) : string :=
  default "0" (Dict.get config_values key).

(** [outf.write(chunk)] on a file that is open for writing. *)
Definition outf_write (p chunk : string) : M unit := modify (emit (EvWrite p chunk)).

(** Lines 511-533.  [config_h] is what opening htslib/config.h and reading
    its lines gives. *)
Definition write_config_py (HTSLIB_SOURCE : option string) (config_h : result (list string))
    : M unit :=
  let config_py := Py.os_path_join "pysam" "config.py" in
  let* _ := write_file config_py
              ("HTSLIB = " +:+ dquote +:+ fmt_opt HTSLIB_SOURCE +:+ dquote +:+ newline) in
  if bool_decide (HTSLIB_SOURCE = Some "builtin") then
    match config_h with
    | Raise e => raise e
    | Ok lines =>
        match read_defines [] lines with
        | Raise e => raise e
        | Ok config_values =>
            for_each config_option_keys (fun key =>
              let* _ := outf_write config_py
                          (key +:+ " = " +:+ config_value config_values key +:+ newline) in
              print ("# pysam: config_option: " +:+ key +:+ "=" +:+
                     config_value config_values key))
        end
    end
  else ret tt.

(** *** Lines 535-543: the config headers that are still missing *)

Definition write_missing_config_headers (config_headers : list string) : M unit :=
  for_each config_headers (fun fn =>
    let* st := get_state in
    if negb (path_exists st fn) then write_file fn empty_config_h else ret tt).

(** *** cythonize_sdist: the options added to sdist *)

(** An entry of [sdist.user_options]: long name, short name, help text. *)
Definition UserOption : Type := string * option string * string.

(** [any(opt[0] == name for opt in user_options)] *)
Definition has_option (name : string) (user_options : list UserOption) : bool :=
  existsb (fun opt => String.eqb (fst (fst opt)) name) user_options.

(** [sdist.user_options] after the class body of [cythonize_sdist]. *)
Definition cythonize_sdist_user_options (user_options : list UserOption) : list UserOption :=
  let user_options :=
    if negb (has_option "owner=" user_options)
    then user_options ++ [("owner=", Some "u", "Specify owner inside tar")]
    else user_options in
  if negb (has_option "group=" user_options)
  then user_options ++ [("group=", Some "g", "Specify group inside tar")]
  else user_options.

(** *** clean_ext *)

(** [os.remove(p)] *)
Definition remove (p : string) : M unit :=
  fun st =>
    if bool_decide (resolve (cwd st) p ∈ files st)
    then (Ok tt, set_files (files st ∖ {[resolve (cwd st) p]}) st)
    else (Raise OSError, st).

(** One of the three passes of [clean_ext.run]: a log line when anything
    was found, then the removals. *)
Definition clean_pass (found : list string) (message : string) : M unit :=
  let* _ := (match found with [] => ret tt | _ :: _ => log INFO message end) in
  for_each found remove.

(** [clean_ext.run] in its three parts; [glob_now st pattern] is what
    [glob.glob(pattern)] returns in the state [st]. *)

(** Lines 370-374. *)
Definition clean_cython_sources (glob_now : State -> string -> list string) : M unit :=
  let* st := get_state in
  let objs := glob_now st (Py.os_path_join "pysam" "libc*.c") in
  clean_pass objs ("removing 'pysam/libc*.c' (" +:+ pretty (length objs) +:+
                   " Cython objects)").

(** Lines 376-382. *)
Definition clean_config_headers (glob_now : State -> string -> list string) : M unit :=
  let* st := get_state in
  let headers := glob_now st (Py.os_path_join "htslib" "*config*.h") ++
                 glob_now st (Py.os_path_join "samtools" "*config*.h") ++
                 glob_now st (Py.os_path_join "bcftools" "*config*.h") in
  clean_pass headers ("removing '*/*config*.h' (" +:+ pretty (length headers) +:+
                      " generated headers)").

(** Lines 384-390. *)
Definition clean_objects (glob_now : State -> string -> list string) : M unit :=
  let* st := get_state in
  let objects :=
    glob_now st (Py.os_path_join "htslib" "*.[oa]") ++
    glob_now st (Py.os_path_join (Py.os_path_join "htslib" "cram") "*.o") ++
    glob_now st (Py.os_path_join
                   (Py.os_path_join (Py.os_path_join "htslib" "htscodecs") "htscodecs")
                   "*.o") in
  clean_pass objects ("removing 'htslib/**/*.o' and libhts.a (" +:+
                      pretty (length objects) +:+ " objects)").

Definition clean_ext_run (glob_now : State -> string -> list string) : M unit :=
  let* _ := clean_cython_sources glob_now in
  let* _ := clean_config_headers glob_now in
  clean_objects glob_now.

(** ** Concrete hosts and states on which the model is run *)

Module Fixture.

(** Replies of the external programs, looked up by command line; a command
    that is not listed gets the reply [other]. *)
Fixpoint reply_of (table : list (list string * option (Z * string)))
    (other : option (Z * string)) (argv : list string) : option (Z * string) :=
  match table with
  | [] => other
  | (argv', r) :: table' => if bool_decide (argv' = argv) then r else reply_of table' other argv
  end.

Definition sysconfig_vars : gmap string string :=
  {[ "CC" := "cc"; "CFLAGS" := "-O2"; "CCSHARED" := "-fPIC"; "LDFLAGS" := "-Wl,-O1";
     "LDSHARED" := "cc -bundle -undefined dynamic_lookup"; "EXT_SUFFIX" := ".so" ]}.

(** A host whose tools answer from a table and leave the files alone; the C
    compiler accepts exactly the probes listed in [probes_ok]. *)
Definition host (system platform : string) (table : list (list string * option (Z * string)))
    (other : option (Z * string)) (probes_ok : list (option (list string))) : Host :=
  mkHost system platform sysconfig_vars true "3.0.11"
         (fun _ => [])
         (fun d p => resolve d p)
         (fun p => p)
         (fun name => "build/" +:+ name +:+ ".so")
         Py.split_ws
         (fun st _ argv => (reply_of table other argv, files st))
         (fun st _ _ _ flags =>
            (if bool_decide (flags ∈ probes_ok) then Ok tt else Raise CompileError, files st))
         (fun st _ _ _ => (Ok tt, files st)).

Definition make_config : string :=
  "LIBHTS_OBJS = kfunc.o kstring.o" +:+ newline +:+ "LIBS = -lz -lcurl" +:+ newline.

(** Two modules that both define [foo]. *)
Definition nm_libchtslib : string :=
  "foo T 0000000000001139 000000000000000b" +:+ newline +:+
  "hts_open T 0000000000001150 0000000000000010" +:+ newline +:+
  "_edata D 0000000000004010" +:+ newline +:+
  "malloc U" +:+ newline.
Definition nm_libcsamtools : string :=
  "foo T 0000000000001139 000000000000000b" +:+ newline +:+
  "sam_view T 0000000000001150 0000000000000010" +:+ newline +:+
  "free U" +:+ newline +:+
  "weak_hook W 0000000000001160 0000000000000001" +:+ newline.

(** configure rejects [--enable-libcurl] and accepts three other options;
    [make print-config] and nm (on two modules) work. *)
Definition tools : list (list string * option (Z * string)) :=
  [ (["./configure --enable-libcurl"], Some (1%Z, EmptyString));
    (["./configure --disable-libcurl"], Some (0%Z, EmptyString));
    (["./configure --disable-bz2"], Some (0%Z, EmptyString));
    (["./configure --enable-plugins"], Some (0%Z, EmptyString));
    (["make"; "-s"; "print-config"], Some (0%Z, make_config));
    (["nm"; "-g"; "-P"; "build/pysam.libchtslib.so"], Some (0%Z, nm_libchtslib));
    (["nm"; "-g"; "-P"; "build/pysam.libcsamtools.so"], Some (0%Z, nm_libcsamtools)) ].

(** Hosts: any other program exits with status 0 and prints nothing. *)
Definition linux : Host := host "Linux" "linux" tools (Some (0%Z, EmptyString)) [None].
Definition darwin : Host := host "Darwin" "darwin" tools (Some (0%Z, EmptyString)) [None].
(** A host whose compiler fails every probe, and one whose compiler needs
    -std=c99. *)
Definition linux_no_c99 : Host := host "Linux" "linux" tools (Some (0%Z, EmptyString)) [].
Definition linux_c99 : Host :=
  host "Linux" "linux" tools (Some (0%Z, EmptyString)) [Some ["-std=c99"]].

(** A source checkout in /src, before and after libhts.a was built. *)
Definition checkout (env : gmap string string) : State :=
  mkState "/src" env
          {[ "/src/pysam/libchtslib.pyx"; "/src/htslib/configure" ]}
          {[ "/src"; "/src/htslib"; "/src/pysam"; "/src/samtools" ]}
          ∅ [].

Definition checkout_built (env : gmap string string) : State :=
  mkState "/src" env
          {[ "/src/pysam/libchtslib.pyx"; "/src/htslib/configure"; "/src/htslib/libhts.a" ]}
          {[ "/src"; "/src/htslib"; "/src/pysam"; "/src/samtools" ]}
          ∅ [].

Definition external_dirs : gmap string string :=
  {[ "HTSLIB_LIBRARY_DIR" := "/usr/lib"; "HTSLIB_INCLUDE_DIR" := "/usr/include" ]}.

Definition cc : CCompiler := mkCCompiler (Some (PyList ["cc"])) (Some (PyList ["cc"; "-fPIC"])).

(** A compiler whose commands were assigned as strings. *)
Definition cc_str : CCompiler := mkCCompiler (Some (PyStr "cc")) (Some (PyStr "cc -fPIC")).

Definition build_cmd (force : bool) (exts : list Extension) : cy_build_ext :=
  mk_cy_build_ext cc "build/lib" "build/temp" false force exts.

(** Two bare extensions with the names of the first two modules. *)
Definition bare (name : string) : Extension :=
  mkExtension name [] [] [] [] 0 [] [] [] [] (Some "c") None.
Definition libchtslib : Extension := bare "pysam.libchtslib".
Definition libcsamtools : Extension := bare "pysam.libcsamtools".

(** The symbol tables nm shows for them. *)
Definition symbols_of (ext : Extension) : gset string :=
  if String.eqb (ext_name ext) "pysam.libchtslib" then {[ "foo"; "hts_open" ]}
  else {[ "foo"; "sam_view" ]}.

End Fixture.

(** ** The vocabulary of the statements *)

(** *** Classifying events *)

Definition is_spawn (e : Event) : bool :=
  match e with EvSpawn _ _ _ => true | _ => false end.

Definition is_compile (e : Event) : bool :=
  match e with EvCompile _ _ _ _ _ => true | _ => false end.

Definition is_error_log (e : Event) : bool :=
  match e with EvLog ERROR _ => true | _ => false end.

Definition is_print (e : Event) : bool :=
  match e with EvPrint _ => true | _ => false end.

(** The working directory is an absolute path of an existing directory,
    as [os.getcwd()] gives it. *)
Definition wf_cwd (st : State) : Prop :=
  Py.startswith (cwd st) "/" = true ∧ cwd st ∈ dirs st.

(** The environment is the original one outside the temporary variables,
    which the original one does not have. *)
Definition overlay (env0 : gmap string string) (tmp : list string) (st : State) : Prop :=
  (forall k, k ∉ tmp -> environ st !! k = env0 !! k) /\
  (forall k, k ∈ tmp -> env0 !! k = None).

(** *** Frames and traces of monadic code *)

(** [m] leaves the observation [f] of the state as it is. *)
Definition preserves {X A} (f : State -> X) (m : M A) : Prop :=
  forall st r st', m st = (r, st') -> f st' = f st.

(** [m] only appends events, all of which satisfy [phi]. *)
Definition emits {A} (phi : Event -> Prop) (m : M A) : Prop :=
  forall st r st', m st = (r, st') ->
    exists evs, trace st' = trace st ++ evs /\ Forall phi evs.

(** Observations that files and trace do not influence. *)
Definition ignores_io {X} (f : State -> X) : Prop :=
  (forall st fs, f (set_files fs st) = f st) /\ (forall st e, f (emit e st) = f st).

(** Event predicates that hold of everything the script itself prints,
    logs, writes or spawns. *)
Definition io_only (phi : Event -> Prop) : Prop :=
  (forall m, phi (EvPrint m)) /\ (forall l m, phi (EvLog l m)) /\
  (forall p c, phi (EvWrite p c)) /\ (forall s a r, phi (EvSpawn s a r)).

(** [x] occurs in [s] as a substring. *)
Definition occurs_in (x s : string) : Prop := exists pre post, s = pre +:+ x +:+ post.

(** *** What the runs of the tools look like *)

Section Vocabulary.

Context (h : Host).

(** What one line of nm output contributes: the symbol [s], if any. *)
Definition contributes (line s : string) : Prop :=
  exists sym symtype rest,
    Py.split_ws line = sym :: symtype :: rest /\
    Py.str_in symtype "UFNWw" = false /\
    if IS_DARWIN h
    then s = (if Py.startswith sym "_" then Py.tail sym else sym)
    else s = sym /\ exists c sym', sym = String c sym' /\ Py.char_in c "_$.@" = false.

(** One attempt of the probe as it shows in the trace. *)
Definition probe_event (self : cy_build_ext) (t : option (list string) * result unit) : Event :=
  EvCompile (self_compiler self) ["pysam/conftest_cstd.c"] (build_temp self) (fst t) (snd t).

(** The attempts of a probe over the candidates still to try: in order,
    each failing with a compile error, up to the first that does not (or to
    the end of the list). *)
Inductive probe_run :
  list (option (list string)) -> list (option (list string) * result unit) -> Prop :=
| probe_exhausted : probe_run [] []
| probe_stop flags rest r :
    r <> Raise CompileError -> probe_run (flags :: rest) [(flags, r)]
| probe_next flags rest tried :
    probe_run rest tried -> probe_run (flags :: rest) ((flags, Raise CompileError) :: tried).

(** The flags the probe settles on, read off its attempts. *)
Definition adopted (tried : list (option (list string) * result unit)) : option (list string) :=
  match last tried with
  | Some (flags, Ok _) => flags
  | _ => None
  end.

(** What a command attribute of the compiler becomes when [flags] are
    adopted: a non-empty list gets them appended; a non-empty string gets
    them appended after a blank and is stored as the list of its words; an
    attribute that is missing, [None] or empty stays as it is. *)
Inductive extended_by (flags : list string) : option PyCmd -> option PyCmd -> Prop :=
| extended_list x l :
    extended_by flags (Some (PyList (x :: l))) (Some (PyList (x :: l ++ flags)))
| extended_str a s :
    extended_by flags (Some (PyStr (String a s)))
      (Some (PyList (split_quoted h (String a s +:+ " " +:+ Py.join " " flags))))
| extended_unset old :
    old ∈ [None; Some PyNone; Some (PyList []); Some (PyStr "")] ->
    extended_by flags old old.

(** Events of the build loop: no compile probe among them, and every module
    is built with the compiler [cc]. *)
Definition built_with (cc : CCompiler) (e : Event) : Prop :=
  is_compile e = false /\
  forall cc' ext dirs r, e = EvBuildExtension cc' ext dirs r -> cc' = cc.

(** One run of ./configure as it shows in the trace. *)
Definition configure_event (t : string * option (Z * string)) : Event :=
  EvSpawn true [Py.join " " ["./configure"; fst t]] (snd t).

(** configure was started and exited with status 0. *)
Definition accepted (reply : option (Z * string)) : bool :=
  match reply with
  | Some (retcode, _) => Z.eqb retcode 0
  | None => false
  end.

(** The runs of configure over the options still to try, and the option
    that is returned: the options in order, each rejected, up to the first
    that is accepted (or to the end of the list). *)
Inductive configure_run :
  list string -> list (string * option (Z * string)) -> option string -> Prop :=
| configure_none : configure_run [] [] None
| configure_accept o rest reply :
    accepted reply = true -> configure_run (o :: rest) [(o, reply)] (Some o)
| configure_retry o rest reply tried res :
    accepted reply = false -> configure_run rest tried res ->
    configure_run (o :: rest) ((o, reply) :: tried) res.

Definition make_static (st : State) (ext : Extension) (reply : option (Z * string)) : Event :=
  EvSpawn false [make_program st; all_cppflags ext; "lib-static"] reply.

Definition header_events (ext : Extension) (st : State) : list Event :=
  [EvLog INFO ("creating htslib/config_vars.h for '" +:+ ext_name ext +:+ "' extension");
   EvWrite "htslib/config_vars.h"
           (String.concat "" (map (define_line "HTS") (build_config_dict h st ext)))].

(** The name a module has in the conflict report. *)
Definition label (ext : Extension) : string := Py.lstrip_chars "pysam." (ext_name ext).

(** The modules, in order, whose symbol table has [sym]. *)
Definition owners (syms : Extension -> gset string) (exts : list Extension) (sym : string)
    : list string :=
  map label (filter (fun e => sym ∈ syms e) exts).

(** Two modules at different places of the list both define [sym]. *)
Definition defined_twice (syms : Extension -> gset string) (exts : list Extension)
    (sym : string) : Prop :=
  exists i j e1 e2, (i < j)%nat /\ exts !! i = Some e1 /\ exts !! j = Some e2 /\
                    sym ∈ syms e1 /\ sym ∈ syms e2.

(** nm works on every module and shows it to define the symbols [syms]. *)
Definition nm_reports (syms : Extension -> gset string) (exts : list Extension) : Prop :=
  forall st ext, ext ∈ exts ->
    exists out,
      fst (spawn h st false ["nm"; "-g"; "-P"; get_ext_fullpath h (ext_name ext)])
        = Some (0%Z, out) /\
      Py.is_ascii out = true /\ nm_defined_symbols h out = Ok (syms ext).

Definition conflicting (item : string * list string) : bool :=
  Nat.ltb 1 (length (snd item)).

Definition conflict_event (item : string * list string) : Event :=
  EvLog ERROR (conflict_message (fst item) (snd item)).

Definition link_error : exn := LinkError "symbols defined in multiple extensions".

End Vocabulary.


(** *** Vocabulary of the further properties *)


Definition no_space (s : string) : bool :=
  forallb (fun a => negb (Py.isspace a)) (list_ascii_of_string s).

Definition all_space (s : string) : bool := forallb Py.isspace (list_ascii_of_string s).

(** The text holds ASCII characters only. *)
Definition is_ascii (s : string) : bool :=
  forallb (fun a => (N_of_ascii a <? 128)%N) (list_ascii_of_string s).

(** [s] is empty or begins with a character for which [p] fails. *)
Definition stops (p : ascii -> bool) (s : string) : Prop :=
  match s with EmptyString => True | String a _ => p a = false end.

Definition config_step (make_print_config : Dict.t string) (line : string) : Dict.t string :=
  if Py.str_in "=" line then
    match Py.split_char "=" line with
    | [k; v] => Dict.set make_print_config (Py.strip k) (Py.strip v)
    | _ => make_print_config
    end
  else make_print_config.

(** The value the last [#define] of [key] among [lines] gives it. *)
Definition defined_value (lines : list string) (key : string) : option string :=
  last (omap (fun line =>
                match match_define line with
                | Some (k, v) => if String.eqb k key then Some v else None
                | None => None
                end) lines).

(** The state in which config.py has been opened and its first line written. *)
Definition config_py_opened (HTSLIB_SOURCE : option string) (st : State) : State :=
  emit (EvWrite "pysam/config.py"
          ("HTSLIB = " +:+ dquote +:+ fmt_opt HTSLIB_SOURCE +:+ dquote +:+ newline))
       (set_files ({[resolve (cwd st) "pysam/config.py"]} ∪ files st) st).

Section ScopeDefs.
Context (h : Host).

(** The value of a compiler variable inside [with set_compiler_envvars()]. *)
Definition scoped_value (env : gmap string string) (var : string) : option string :=
  match env !! var with
  | Some cur => Some (cur +:+ ccshared_suffix h var)
  | None => (fun v => v +:+ ccshared_suffix h var) <$> sysconfig h !! var
  end.

End ScopeDefs.


(** [m] takes every state to a state related to it by [R]. *)
Definition relates {A} (R : State -> State -> Prop) (m : M A) : Prop :=
  forall st r st', m st = (r, st') -> R st st'.

(** From a well-formed working directory the run comes back to it; the
    directories of the model are the same, so that the next scope can come
    back as well. *)
Definition same_cwd (st st' : State) : Prop :=
  wf_cwd st -> cwd st' = cwd st /\ dirs st' = dirs st.

(** The environment only differs at CFLAGS and, on macOS, at LDSHARED. *)
Definition same_environ (h : Host) (st st' : State) : Prop :=
  forall k, k <> "CFLAGS" -> (k = "LDSHARED" -> sys_platform h <> "darwin") ->
            environ st' !! k = environ st !! k.


Definition is_build (e : Event) : bool :=
  match e with EvBuildExtension _ _ _ _ => true | _ => false end.

Section BuildDefs.
Context (h : Host).

(** The extension as [build_extension] hands it to distutils. *)
Definition with_link_args (ext : Extension) : Extension :=
  set_extra_link_args
    (ext_extra_link_args ext ++
     match platform_link_args h ext with Ok args => args | Raise _ => [] end) ext.

(** What [build_extension] has appended to the shared search path after
    [n] extensions. *)
Definition appended (self : cy_build_ext) (n : nat) : list string :=
  replicate (if inplace self then 0 else n) (Py.os_path_join (build_lib self) "pysam").

End BuildDefs.

(** The calls of [glob.glob] in a run of [clean_ext.run] that starts in the
    state [st], each with the state in which it is made: the first in [st],
    the next three after the removals of the first part, the last three
    after those of the second part, as far as the run gets. *)
Definition glob_calls (glob_now : State -> string -> list string) (st : State)
    : list (State * string) :=
  (st, "pysam/libc*.c") ::
  match clean_cython_sources glob_now st with
  | (Ok _, st1) =>
      [(st1, "htslib/*config*.h"); (st1, "samtools/*config*.h");
       (st1, "bcftools/*config*.h")] ++
      match clean_config_headers glob_now st1 with
      | (Ok _, st2) =>
          [(st2, "htslib/*.[oa]"); (st2, "htslib/cram/*.o");
           (st2, "htslib/htscodecs/htscodecs/*.o")]
      | (Raise _, _) => []
      end
  | (Raise _, _) => []
  end.

(** [p] is a file that one of these calls reported. *)
Definition reported (glob_now : State -> string -> list string) (st : State) (p : string)
    : Prop :=
  exists st0 pattern q,
    (st0, pattern) ∈ glob_calls glob_now st /\ q ∈ glob_now st0 pattern /\
    p = resolve (cwd st) q.

(** *** Further inputs on which the model is run *)

(** What the script binds in shared mode, for the instances below. *)
Definition resolved_shared : Resolved :=
  mkResolved "shared" None None None (Some "builtin")
    ["pysam"; "pysam.include"; "pysam.include.samtools"; "pysam.include.bcftools";
     "pysam.include.htslib"; "pysam.include.htslib.htslib"]
    [("pysam", "pysam"); ("pysam.include.samtools", "samtools");
     ("pysam.include.bcftools", "bcftools"); ("pysam.include.htslib", "htslib")]
    ["samtools/config.h"; "bcftools/config.h"; "htslib/config.h"]
    (Some "--disable-libcurl") ["z"; "z"; "curl"] ["htslib/kfunc.o"; "htslib/kstring.o"] []
    [Some "."] [Some "htslib"].

(** htslib/config.h as configure leaves it, and the globs of a built tree. *)
Definition config_h_lines : list string :=
  ["/* config.h.  Generated from config.h.in by configure.  */" +:+ newline;
   "#define HAVE_LIBBZ2 1" +:+ newline;
   "#define HAVE_LIBCURL 0" +:+ newline;
   "#define HAVE_LIBCURL 1" +:+ newline].

Definition glob_built (st : State) (pattern : string) : list string :=
  if String.eqb pattern "htslib/*.[oa]" && bool_decide ("/src/htslib/libhts.a" ∈ files st)
  then ["htslib/libhts.a"] else [].

(** A host whose compiler cannot be started. *)
Definition no_compiler : Host :=
  mkHost "Linux" "linux" Fixture.sysconfig_vars true "3.0.11" (fun _ => [])
         (fun d p => resolve d p) (fun p => p) (fun name => "build/" +:+ name +:+ ".so")
         Py.split_ws
         (fun st _ _ => (Some (0%Z, EmptyString), files st))
         (fun st _ _ _ _ => (Raise OSError, files st))
         (fun st _ _ _ => (Ok tt, files st)).


(** * Proofs *)

(** ** The string operations on the inputs of setup.py *)

Example split_char_ex : Py.split_char " " "a.o  b.o" = ["a.o"; ""; "b.o"].
Proof. reflexivity. Qed.

Example split_ws_ex : Py.split_ws "  foo T  0 1 " = ["foo"; "T"; "0"; "1"].
Proof. reflexivity. Qed.

Example splitlines_ex :
  Py.splitlines (String "a" (String "013" (String "010" (String "010" (String "b" newline)))))
  = ["a"; ""; "b"].
Proof. reflexivity. Qed.

Example lstrip_chars_ex :
  Py.lstrip_chars "pysam." "pysam.libchtslib" = "libchtslib" /\
  Py.lstrip_chars "pysam." "pysam.samfile" = "file".
Proof. split; reflexivity. Qed.

Example replace_ex :
  Py.replace "-bundle" "" "cc -bundle -undefined -bundle" = "cc  -undefined " /\
  Py.replace "." "/" "pysam.libchtslib" = "pysam/libchtslib".
Proof. split; reflexivity. Qed.

Example str_in_ex : Py.str_in "FN" "UFNWw" = true /\ Py.str_in "T" "UFNWw" = false.
Proof. split; reflexivity. Qed.

Example os_path_join_ex :
  Py.os_path_join "htslib" "kfunc.o" = "htslib/kfunc.o" /\
  Py.os_path_join "htslib" "" = "htslib/" /\
  Py.os_path_join "htslib" "/opt/x.o" = "/opt/x.o".
Proof. split_and!; reflexivity. Qed.

Example dirname_basename_ex :
  dirname "/src/htslib/config.h" = "/src/htslib" /\ dirname "/config.h" = "/" /\
  dirname "config.h" = "" /\ basename "pysam/libchtslib.so" = "libchtslib.so".
Proof. split_and!; reflexivity. Qed.

Example parse_print_config_ex :
  parse_print_config Fixture.make_config =
    [("LIBHTS_OBJS", "kfunc.o kstring.o"); ("LIBS", "-lz -lcurl")] /\
  libs_of_make "-lz  -lcurl" = ["z"; "curl"].
Proof. split; vm_compute; reflexivity. Qed.

(** ** Reasoning about the monad *)

Section Monad.

Context {A B : Type}.

Lemma bind_ok (m : M A) (k : A -> M B) st b st' :
  bind m k st = (Ok b, st') ->
  exists a st1, m st = (Ok a, st1) /\ k a st1 = (Ok b, st').
Proof.
  unfold bind. destruct (m st) as [[a|e] st1]; intros H; [eauto | discriminate].
Qed.

Lemma bind_run (m : M A) (k : A -> M B) st a st1 :
  m st = (Ok a, st1) -> bind m k st = k a st1.
Proof. unfold bind. intros ->. reflexivity. Qed.

Lemma bind_raise (m : M A) (k : A -> M B) st e st1 :
  m st = (Raise e, st1) -> bind m k st = (Raise e, st1).
Proof. unfold bind. intros ->. reflexivity. Qed.

End Monad.

Create HintDb frame discriminated.

Section Frame.

Context {X : Type} (f : State -> X).

Lemma preserves_ret {A} (a : A) : preserves f (ret a).
Proof. intros st r st' [= <- <-]. reflexivity. Qed.

Lemma preserves_raise {A} e : preserves f (raise (A := A) e).
Proof. intros st r st' [= <- <-]. reflexivity. Qed.

Lemma preserves_bind {A B} (m : M A) (k : A -> M B) :
  preserves f m -> (forall a, preserves f (k a)) -> preserves f (bind m k).
Proof.
  intros Hm Hk st r st'. unfold bind.
  destruct (m st) as [[a|e] st1] eqn:E; intros H.
  - rewrite (Hk _ _ _ _ H). eapply Hm, E.
  - injection H as <- <-. eapply Hm, E.
Qed.

Lemma preserves_try_finally {A} (body : M A) (fin : M unit) :
  preserves f body -> preserves f fin -> preserves f (try_finally body fin).
Proof.
  intros Hb Hf st r st'. unfold try_finally.
  destruct (body st) as [rb st1] eqn:E1. destruct (fin st1) as [[[]|e] st2] eqn:E2;
    intros [= <- <-]; rewrite (Hf _ _ _ E2); eapply Hb, E1.
Qed.

Lemma preserves_try_except {A} (body : M A) handler :
  preserves f body -> (forall e k, handler e = Some k -> preserves f k) ->
  preserves f (try_except body handler).
Proof.
  intros Hb Hh st r st'. unfold try_except.
  destruct (body st) as [[a|e] st1] eqn:E1.
  - intros [= <- <-]. eapply Hb, E1.
  - destruct (handler e) as [k|] eqn:Ek.
    + intros H. rewrite (Hh _ _ Ek _ _ _ H). eapply Hb, E1.
    + intros [= <- <-]. eapply Hb, E1.
Qed.

Lemma preserves_for_each {A} (l : list A) (body : A -> M unit) :
  (forall x, preserves f (body x)) -> preserves f (for_each l body).
Proof.
  intros Hb. induction l as [|x l IH]; simpl.
  - apply preserves_ret.
  - apply preserves_bind; auto.
Qed.

Lemma preserves_get_state : preserves f get_state.
Proof. intros st r st' [= <- <-]. reflexivity. Qed.

Lemma preserves_getcwd : preserves f getcwd.
Proof. intros st r st' [= <- <-]. reflexivity. Qed.

Lemma preserves_modify (g : State -> State) :
  (forall st, f (g st) = f st) -> preserves f (modify g).
Proof. intros Hg st r st' [= <- <-]. apply Hg. Qed.

End Frame.

Section Emits.

Context (phi : Event -> Prop).

Lemma emits_ret {A} (a : A) : emits phi (ret a).
Proof. intros st r st' [= <- <-]. exists []. rewrite app_nil_r. auto. Qed.

Lemma emits_raise {A} e : emits phi (raise (A := A) e).
Proof. intros st r st' [= <- <-]. exists []. rewrite app_nil_r. auto. Qed.

Lemma emits_bind {A B} (m : M A) (k : A -> M B) :
  emits phi m -> (forall a, emits phi (k a)) -> emits phi (bind m k).
Proof.
  intros Hm Hk st r st'. unfold bind.
  destruct (m st) as [[a|e] st1] eqn:E; intros H.
  - destruct (Hm _ _ _ E) as (evs1 & T1 & F1).
    destruct (Hk _ _ _ _ H) as (evs2 & T2 & F2).
    exists (evs1 ++ evs2). rewrite T2, T1, app_assoc. split; [done | by apply Forall_app].
  - injection H as <- <-. eapply Hm, E.
Qed.

Lemma emits_try_finally {A} (body : M A) (fin : M unit) :
  emits phi body -> emits phi fin -> emits phi (try_finally body fin).
Proof.
  intros Hb Hf st r st'. unfold try_finally.
  destruct (body st) as [rb st1] eqn:E1.
  destruct (Hb _ _ _ E1) as (evs1 & T1 & F1).
  destruct (fin st1) as [[[]|e] st2] eqn:E2;
    destruct (Hf _ _ _ E2) as (evs2 & T2 & F2); intros [= <- <-];
    exists (evs1 ++ evs2); rewrite T2, T1, app_assoc; (split; [done | by apply Forall_app]).
Qed.

Lemma emits_try_except {A} (body : M A) handler :
  emits phi body -> (forall e k, handler e = Some k -> emits phi k) ->
  emits phi (try_except body handler).
Proof.
  intros Hb Hh st r st'. unfold try_except.
  destruct (body st) as [[a|e] st1] eqn:E1.
  - intros [= <- <-]. eapply Hb, E1.
  - destruct (Hb _ _ _ E1) as (evs1 & T1 & F1).
    destruct (handler e) as [k|] eqn:Ek.
    + intros H. destruct (Hh _ _ Ek _ _ _ H) as (evs2 & T2 & F2).
      exists (evs1 ++ evs2). rewrite T2, T1, app_assoc. split; [done | by apply Forall_app].
    + intros [= <- <-]. eauto.
Qed.

Lemma emits_for_each {A} (l : list A) (body : A -> M unit) :
  (forall x, emits phi (body x)) -> emits phi (for_each l body).
Proof.
  intros Hb. induction l as [|x l IH]; simpl.
  - apply emits_ret.
  - apply emits_bind; auto.
Qed.

Lemma emits_silent {A} (m : M A) : preserves trace m -> emits phi m.
Proof.
  intros Hm st r st' E. exists []. rewrite app_nil_r, (Hm _ _ _ E). auto.
Qed.

Lemma emits_emit (e : Event) : phi e -> emits phi (modify (emit e)).
Proof. intros He st r st' [= <- <-]. exists [e]. simpl. auto. Qed.

End Emits.

Lemma emits_mono {A} (phi psi : Event -> Prop) (m : M A) :
  (forall e, phi e -> psi e) -> emits phi m -> emits psi m.
Proof.
  intros Himp Hm st r st' E. destruct (Hm _ _ _ E) as (evs & T & F).
  exists evs. split; [done|]. eapply Forall_impl; eauto.
Qed.

(** ** Frame and trace facts of the primitives and of the functions *)

Lemma cwd_ignores_io : ignores_io cwd.
Proof. split; reflexivity. Qed.
Lemma environ_ignores_io : ignores_io environ.
Proof. split; reflexivity. Qed.
Lemma dirs_ignores_io : ignores_io dirs.
Proof. split; reflexivity. Qed.
Lemma heap_ignores_io : ignores_io heap.
Proof. split; reflexivity. Qed.

Lemma not_compile_io_only : io_only (fun e => is_compile e = false).
Proof. repeat split. Qed.

Lemma any_event_io_only : io_only (fun _ => True).
Proof. repeat split. Qed.

(** Split a goal about a piece of monadic code along its structure. *)
Ltac frame_step :=
  match goal with
  | |- preserves _ (ret _) => apply preserves_ret
  | |- preserves _ (raise _) => apply preserves_raise
  | |- preserves _ (bind _ _) => apply preserves_bind
  | |- preserves _ (try_finally _ _) => apply preserves_try_finally
  | |- preserves _ (try_except _ _) => apply preserves_try_except
  | |- preserves _ (for_each _ _) => apply preserves_for_each
  | |- preserves _ (if ?b then _ else _) => destruct b
  | |- preserves _ (match ?x with _ => _ end) => destruct x
  | |- emits _ (ret _) => apply emits_ret
  | |- emits _ (raise _) => apply emits_raise
  | |- emits _ (bind _ _) => apply emits_bind
  | |- emits _ (try_finally _ _) => apply emits_try_finally
  | |- emits _ (try_except _ _) => apply emits_try_except
  | |- emits _ (for_each _ _) => apply emits_for_each
  | |- emits _ (if ?b then _ else _) => destruct b
  | |- emits _ (match ?x with _ => _ end) => destruct x
  | |- forall _, _ => intro
  | H : Some _ = Some _ |- _ => injection H as <-
  | H : None = Some _ |- _ => discriminate H
  | H : (match ?e with _ => _ end) = Some _ |- _ => destruct e
  end.

Ltac frame := repeat frame_step; eauto with frame.

Section Primitives.

Context (h : Host).

Section Observation.

Context {X : Type} (f : State -> X) (Hf : ignores_io f).

Lemma preserves_print msg : preserves f (print msg).
Proof using Hf. apply preserves_modify. intros. apply Hf. Qed.

Lemma preserves_log l msg : preserves f (log l msg).
Proof using Hf. apply preserves_modify. intros. apply Hf. Qed.

Lemma preserves_write_file p c : preserves f (write_file p c).
Proof using Hf.
  intros st r st'. unfold write_file. case_bool_decide; intros [= <- <-]; [|done].
  destruct Hf as [H1 H2]. by rewrite H2, H1.
Qed.

Lemma preserves_subprocess sh argv : preserves f (subprocess h sh argv).
Proof using Hf.
  intros st r st'. unfold subprocess. destruct (spawn h st sh argv) as [rep fs].
  intros [= <- <-]. destruct Hf as [H1 H2]. by rewrite H2, H1.
Qed.

Lemma preserves_compile self srcs out pre : preserves f (compile h self srcs out pre).
Proof using Hf.
  intros st r st'. unfold compile. destruct (cc_compile _ _ _ _ _ _) as [rep fs].
  intros [= <- <-]. destruct Hf as [H1 H2]. by rewrite H2, H1.
Qed.

Lemma preserves_super_build self ext : preserves f (super_build h self ext).
Proof using Hf.
  intros st r st'. unfold super_build. destruct (super_build_extension _ _ _ _ _) as [rep fs].
  intros [= <- <-]. destruct Hf as [H1 H2]. by rewrite H2, H1.
Qed.

End Observation.

Lemma preserves_chdir {X} (f : State -> X) p :
  (forall st d, f (set_cwd d st) = f st) -> preserves f (chdir p).
Proof.
  intros Hf st r st'. unfold chdir. case_bool_decide; intros [= <- <-]; [apply Hf | done].
Qed.

Lemma preserves_setenv {X} (f : State -> X) var v :
  (forall st e, f (set_environ e st) = f st) -> preserves f (setenv var v).
Proof. intros Hf. apply preserves_modify. intros. apply Hf. Qed.

Lemma preserves_delenv {X} (f : State -> X) var :
  (forall st e, f (set_environ e st) = f st) -> preserves f (delenv var).
Proof.
  intros Hf st r st'. unfold delenv. destruct (environ st !! var); intros [= <- <-]; [apply Hf | done].
Qed.

Lemma preserves_library_dirs_append {X} (f : State -> X) ext x :
  (forall st hp, f (set_heap hp st) = f st) -> preserves f (library_dirs_append ext x).
Proof. intros Hf. apply preserves_modify. intros. apply Hf. Qed.

Section Events.

Context (phi : Event -> Prop).

Lemma emits_print msg : phi (EvPrint msg) -> emits phi (print msg).
Proof. apply emits_emit. Qed.

Lemma emits_log l msg : phi (EvLog l msg) -> emits phi (log l msg).
Proof. apply emits_emit. Qed.

Lemma emits_write_file p c : phi (EvWrite p c) -> emits phi (write_file p c).
Proof.
  intros He st r st'. unfold write_file. case_bool_decide; intros [= <- <-].
  - exists [EvWrite p c]. simpl. auto.
  - exists []. rewrite app_nil_r. auto.
Qed.

Lemma emits_subprocess sh argv :
  (forall r, phi (EvSpawn sh argv r)) -> emits phi (subprocess h sh argv).
Proof.
  intros He st r st'. unfold subprocess. destruct (spawn h st sh argv) as [rep fs].
  intros [= <- <-]. exists [EvSpawn sh argv rep]. simpl. auto.
Qed.

Lemma emits_compile self srcs out pre :
  (forall r, phi (EvCompile (self_compiler self) srcs out pre r)) ->
  emits phi (compile h self srcs out pre).
Proof.
  intros He st r st'. unfold compile. destruct (cc_compile _ _ _ _ _ _) as [rep fs].
  intros [= <- <-]. eexists [_]. simpl. auto.
Qed.

Lemma emits_super_build self ext :
  (forall dirs r, phi (EvBuildExtension (self_compiler self) ext dirs r)) ->
  emits phi (super_build h self ext).
Proof.
  intros He st r st'. unfold super_build. destruct (super_build_extension _ _ _ _ _) as [rep fs].
  intros [= <- <-]. eexists [_]. simpl. auto.
Qed.

Lemma emits_get_state : emits phi get_state.
Proof. apply emits_silent, preserves_get_state. Qed.

Lemma emits_getcwd : emits phi getcwd.
Proof. apply emits_silent, preserves_getcwd. Qed.

Lemma emits_chdir p : emits phi (chdir p).
Proof. apply emits_silent, preserves_chdir. reflexivity. Qed.

Lemma emits_setenv var v : emits phi (setenv var v).
Proof. apply emits_silent, preserves_setenv. reflexivity. Qed.

Lemma emits_delenv var : emits phi (delenv var).
Proof. apply emits_silent, preserves_delenv. reflexivity. Qed.

Lemma emits_library_dirs_append ext x : emits phi (library_dirs_append ext x).
Proof. apply emits_silent, preserves_library_dirs_append. reflexivity. Qed.

End Events.

End Primitives.

#[export] Hint Resolve cwd_ignores_io environ_ignores_io dirs_ignores_io heap_ignores_io
  not_compile_io_only any_event_io_only : frame.
#[export] Hint Resolve preserves_get_state preserves_getcwd preserves_print preserves_log
  preserves_write_file preserves_subprocess preserves_compile preserves_super_build : frame.
#[export] Hint Resolve emits_get_state emits_getcwd emits_chdir emits_setenv emits_delenv
  emits_library_dirs_append : frame.
#[export] Hint Extern 1 (preserves _ (chdir _)) => apply preserves_chdir; reflexivity : frame.
#[export] Hint Extern 1 (preserves _ (setenv _ _)) => apply preserves_setenv; reflexivity : frame.
#[export] Hint Extern 1 (preserves _ (delenv _)) => apply preserves_delenv; reflexivity : frame.
#[export] Hint Extern 1 (preserves _ (library_dirs_append _ _)) =>
  apply preserves_library_dirs_append; reflexivity : frame.
#[export] Hint Extern 1 (emits _ (print _)) => apply emits_print : frame.
#[export] Hint Extern 1 (emits _ (log _ _)) => apply emits_log : frame.
#[export] Hint Extern 1 (emits _ (write_file _ _)) => apply emits_write_file : frame.
#[export] Hint Extern 1 (emits _ (subprocess _ _ _)) => apply emits_subprocess; intros : frame.
#[export] Hint Extern 1 (emits _ (compile _ _ _ _ _)) => apply emits_compile; intros : frame.
#[export] Hint Extern 1 (emits _ (super_build _ _ _)) => apply emits_super_build; intros : frame.

Section Functions.

Context (h : Host).

Section Observation.

Context {X : Type} (f : State -> X) (Hf : ignores_io f).

Lemma preserves_run_configure o : preserves f (run_configure h o).
Proof using Hf. unfold run_configure, subprocess_call_shell. frame. Qed.
#[local] Hint Resolve preserves_run_configure : frame.

Lemma preserves_try_options os : preserves f (try_options h os).
Proof using Hf.
  induction os as [|o os IH]; simpl; frame; try apply preserves_run_configure.
Qed.
#[local] Hint Resolve preserves_try_options : frame.

Lemma preserves_check_call argv : preserves f (subprocess_check_call h argv).
Proof using Hf. unfold subprocess_check_call. frame. Qed.
#[local] Hint Resolve preserves_check_call : frame.

Lemma preserves_check_output argv : preserves f (subprocess_check_output h argv).
Proof using Hf. unfold subprocess_check_output. frame. Qed.
#[local] Hint Resolve preserves_check_output : frame.

Lemma preserves_run_make targets : preserves f (run_make h targets).
Proof using Hf. unfold run_make. frame; try apply preserves_check_call. Qed.
#[local] Hint Resolve preserves_run_make : frame.

Lemma preserves_run_make_print_config : preserves f (run_make_print_config h).
Proof using Hf. unfold run_make_print_config. frame; try apply preserves_check_output. Qed.
#[local] Hint Resolve preserves_run_make_print_config : frame.

Lemma preserves_run_nm objfile : preserves f (run_nm_defined_symbols h objfile).
Proof using Hf. unfold run_nm_defined_symbols. frame; try apply preserves_check_output. Qed.
#[local] Hint Resolve preserves_run_nm : frame.

Lemma preserves_write_configvars_header filename ext prefix :
  preserves f (write_configvars_header h filename ext prefix).
Proof using Hf. unfold write_configvars_header. frame. Qed.
#[local] Hint Resolve preserves_write_configvars_header : frame.

End Observation.

Lemma preserves_changedir {X A} (f : State -> X) path (body : M A) :
  (forall st d, f (set_cwd d st) = f st) -> preserves f body ->
  preserves f (changedir path body).
Proof. intros Hf Hb. unfold changedir. frame; apply preserves_chdir, Hf. Qed.
#[local] Hint Resolve preserves_changedir : frame.

Section Events.

Context (phi : Event -> Prop) (Hphi : io_only phi).

Lemma emits_run_configure o : emits phi (run_configure h o).
Proof using Hphi.
  pose proof Hphi as (Hp & Hl & Hw & Hs). unfold run_configure, subprocess_call_shell. frame.
Qed.
#[local] Hint Resolve emits_run_configure : frame.

Lemma emits_try_options os : emits phi (try_options h os).
Proof using Hphi.
  pose proof Hphi as (Hp & Hl & Hw & Hs).
  induction os as [|o os IH]; simpl; frame; try apply emits_run_configure.
Qed.
#[local] Hint Resolve emits_try_options : frame.

Lemma emits_check_call argv : emits phi (subprocess_check_call h argv).
Proof using Hphi.
  pose proof Hphi as (Hp & Hl & Hw & Hs). unfold subprocess_check_call. frame.
Qed.
#[local] Hint Resolve emits_check_call : frame.

Lemma emits_check_output argv : emits phi (subprocess_check_output h argv).
Proof using Hphi.
  pose proof Hphi as (Hp & Hl & Hw & Hs). unfold subprocess_check_output. frame.
Qed.
#[local] Hint Resolve emits_check_output : frame.

Lemma emits_run_make targets : emits phi (run_make h targets).
Proof using Hphi.
  pose proof Hphi as (Hp & Hl & Hw & Hs). unfold run_make. frame; try apply emits_check_call. Qed.
#[local] Hint Resolve emits_run_make : frame.

Lemma emits_run_make_print_config : emits phi (run_make_print_config h).
Proof using Hphi.
  pose proof Hphi as (Hp & Hl & Hw & Hs). unfold run_make_print_config. frame; try apply emits_check_output. Qed.
#[local] Hint Resolve emits_run_make_print_config : frame.

Lemma emits_run_nm objfile : emits phi (run_nm_defined_symbols h objfile).
Proof using Hphi.
  pose proof Hphi as (Hp & Hl & Hw & Hs). unfold run_nm_defined_symbols. frame; try apply emits_check_output. Qed.
#[local] Hint Resolve emits_run_nm : frame.

Lemma emits_write_configvars_header filename ext prefix :
  emits phi (write_configvars_header h filename ext prefix).
Proof using Hphi.
  pose proof Hphi as (Hp & Hl & Hw & Hs). unfold write_configvars_header. frame.
Qed.
#[local] Hint Resolve emits_write_configvars_header : frame.

Lemma emits_changedir {A} path (body : M A) :
  emits phi body -> emits phi (changedir path body).
Proof. intros Hb. unfold changedir. frame. Qed.
#[local] Hint Resolve emits_changedir : frame.

Lemma emits_compiler_envvars_enter vars tmp :
  emits phi (compiler_envvars_enter h vars tmp).
Proof using Hphi.
  pose proof Hphi as (Hp & Hl & Hw & Hs).
  revert tmp. induction vars as [|var vars IH]; intros tmp; simpl; frame.
Qed.
#[local] Hint Resolve emits_compiler_envvars_enter : frame.

Lemma emits_set_compiler_envvars {A} (body : M A) :
  emits phi body -> emits phi (set_compiler_envvars h body).
Proof using Hphi.
  pose proof Hphi as (Hp & Hl & Hw & Hs).
  intros Hb. unfold set_compiler_envvars. frame; try apply emits_compiler_envvars_enter.
Qed.
#[local] Hint Resolve emits_set_compiler_envvars : frame.

Lemma emits_configure_attempts env_options options :
  emits phi (configure_attempts h env_options options).
Proof using Hphi.
  pose proof Hphi as (Hp & Hl & Hw & Hs). unfold configure_attempts. frame.
Qed.
#[local] Hint Resolve emits_configure_attempts : frame.

Lemma emits_configure_library dir env_options options :
  emits phi (configure_library h dir env_options options).
Proof using Hphi.
  pose proof Hphi as (Hp & Hl & Hw & Hs). unfold configure_library. frame.
Qed.
#[local] Hint Resolve emits_configure_library : frame.

Lemma emits_prebuild_libchtslib mode ext force :
  emits phi (prebuild_libchtslib h mode ext force).
Proof using Hphi.
  pose proof Hphi as (Hp & Hl & Hw & Hs). unfold prebuild_libchtslib. frame;
    try first [apply emits_write_configvars_header | apply emits_changedir, emits_run_make].
Qed.
#[local] Hint Resolve emits_prebuild_libchtslib : frame.

Lemma emits_run_hook mode hook ext force : emits phi (run_hook h mode hook ext force).
Proof using Hphi.
  pose proof Hphi as (Hp & Hl & Hw & Hs).
  destruct hook; simpl.
  - apply emits_prebuild_libchtslib.
  - apply emits_write_configvars_header.
Qed.
#[local] Hint Resolve emits_run_hook : frame.

Lemma emits_configure_builtin opts : emits phi (configure_builtin h opts).
Proof using Hphi.
  pose proof Hphi as (Hp & Hl & Hw & Hs). unfold configure_builtin. frame;
    try first [apply emits_configure_library | apply emits_changedir, emits_run_make_print_config].
Qed.
#[local] Hint Resolve emits_configure_builtin : frame.

End Events.

End Functions.

#[export] Hint Resolve
  preserves_run_configure preserves_try_options preserves_check_call
  preserves_check_output preserves_run_make preserves_run_make_print_config
  preserves_run_nm preserves_write_configvars_header preserves_changedir
  emits_run_configure emits_try_options emits_check_call emits_check_output emits_run_make
  emits_run_make_print_config emits_run_nm emits_write_configvars_header emits_changedir
  emits_compiler_envvars_enter emits_set_compiler_envvars emits_configure_attempts
  emits_configure_library emits_prebuild_libchtslib emits_run_hook emits_configure_builtin
  : frame.

(** ** Scoped working directory and environment (C8) *)

Section Scopes.

Context (h : Host).

Lemma resolve_absolute d p : Py.startswith p "/" = true -> resolve d p = p.
Proof. unfold resolve. intros ->. reflexivity. Qed.

Lemma startswith_slash d :
  Py.startswith d "/" = true -> exists d', d = String "/" d'.
Proof.
  unfold Py.startswith. destruct d as [|a d]; [discriminate|].
  cbn [Py.is_prefix]. rewrite andb_true_r. intros ->%Ascii.eqb_eq. eauto.
Qed.

Lemma resolve_startswith d p :
  Py.startswith d "/" = true -> Py.startswith (resolve d p) "/" = true.
Proof.
  unfold resolve. destruct (Py.startswith p "/") eqn:E; [done|].
  intros [d' ->]%startswith_slash. reflexivity.
Qed.

(** The working directory in force before [with changedir(path)] is in
    force again after it, whether the body returns or raises, and so is it
    when [path] cannot be entered. *)
Lemma changedir_restores_cwd {A} path (body : M A) st r st' :
  wf_cwd st -> preserves dirs body ->
  changedir path body st = (r, st') ->
  cwd st' = cwd st /\ dirs st' = dirs st.
Proof.
  intros [Habs Hdir] Hb. unfold changedir, bind, getcwd, chdir, try_finally.
  case_bool_decide as Hin; [|by intros [= <- <-]].
  destruct (body (set_cwd (resolve (cwd st) path) st)) as [rb st1] eqn:Eb.
  pose proof (Hb _ _ _ Eb) as Hd. simpl in Hd.
  rewrite (resolve_absolute _ _ Habs), Hd.
  rewrite bool_decide_true by done.
  intros [= <- <-]. done.
Qed.

Lemma changedir_wf {A} path (body : M A) st r st' :
  wf_cwd st -> preserves dirs body ->
  changedir path body st = (r, st') -> wf_cwd st'.
Proof.
  intros Hwf Hb E. destruct (changedir_restores_cwd _ _ _ _ _ Hwf Hb E) as [Hc Hd].
  destruct Hwf. split; congruence.
Qed.

(** When the body of [changedir] is entered it runs in [path]. *)
Lemma changedir_run {A} path (body : M A) st :
  wf_cwd st -> preserves dirs body -> resolve (cwd st) path ∈ dirs st ->
  exists st1,
    body (set_cwd (resolve (cwd st) path) st) = (fst (changedir path body st), st1) /\
    snd (changedir path body st) = set_cwd (cwd st) st1.
Proof.
  intros [Habs Hdir] Hb Hin. unfold changedir, bind, getcwd, chdir, try_finally.
  rewrite bool_decide_true by done.
  destruct (body (set_cwd (resolve (cwd st) path) st)) as [rb st1] eqn:Eb.
  pose proof (Hb _ _ _ Eb) as Hd. simpl in Hd.
  rewrite (resolve_absolute _ _ Habs), Hd, bool_decide_true by done.
  exists st1. done.
Qed.

(** Deleting the temporary variables succeeds when they are all set. *)
Lemma for_each_delenv_ok tmp st :
  NoDup tmp -> (forall v, v ∈ tmp -> is_Some (environ st !! v)) ->
  exists st', for_each tmp delenv st = (Ok tt, st') /\
    environ st' = foldr delete (environ st) (reverse tmp) /\
    cwd st' = cwd st /\ dirs st' = dirs st /\ files st' = files st /\
    heap st' = heap st /\ trace st' = trace st.
Proof.
  revert st. induction tmp as [|v tmp IH]; intros st Hnd Hin; simpl.
  - exists st. done.
  - apply NoDup_cons in Hnd as [Hv Hnd].
    destruct (Hin v) as [x Hx]; [by left|].
    unfold bind, delenv at 1. rewrite Hx.
    destruct (IH (set_environ (delete v (environ st)) st) Hnd) as (st' & E & He & Hrest).
    { intros w Hw. simpl. rewrite lookup_delete_ne; [apply Hin; by right|].
      intros ->. done. }
    exists st'. rewrite E. split; [done|]. split; [|done].
    rewrite He. simpl. rewrite reverse_cons, foldr_app. done.
Qed.

(** What the loop before [yield] leaves: the variables it created. *)
Lemma compiler_envvars_enter_spec vars tmp st :
  NoDup (tmp ++ vars) -> (forall v, v ∈ tmp -> is_Some (environ st !! v)) ->
  exists tmp' st' prints,
    compiler_envvars_enter h vars tmp st = (Ok tmp', st') /\
    NoDup tmp' /\ (forall v, v ∈ tmp' -> is_Some (environ st' !! v)) /\
    trace st' = trace st ++ prints /\ Forall (fun e => is_print e = true) prints /\
    cwd st' = cwd st /\ dirs st' = dirs st /\ files st' = files st.
Proof.
  revert tmp st. induction vars as [|var vars IH]; intros tmp st Hnd Hin.
  - exists tmp, st, []. simpl. rewrite !app_nil_r in *. done.
  - assert (Hnd' : NoDup ((tmp ++ [var]) ++ vars)) by by rewrite <- app_assoc.
    assert (Hnd'' : NoDup (tmp ++ vars)).
    { apply NoDup_app in Hnd as (H1 & H2 & H3). apply NoDup_cons in H3 as [_ H3].
      apply NoDup_app. split_and!; [done| |done].
      intros x Hx Hx'. apply (H2 x Hx). by right. }
    assert (Hstep : forall tmp0 st0 e,
      NoDup (tmp0 ++ vars) -> (forall v, v ∈ tmp0 -> is_Some (environ st0 !! v)) ->
      cwd st0 = cwd st -> dirs st0 = dirs st -> files st0 = files st ->
      trace st0 = trace st ++ [e] -> is_print e = true ->
      exists tmp' st' prints,
        compiler_envvars_enter h vars tmp0 st0 = (Ok tmp', st') /\
        NoDup tmp' /\ (forall v, v ∈ tmp' -> is_Some (environ st' !! v)) /\
        trace st' = trace st ++ prints /\ Forall (fun e => is_print e = true) prints /\
        cwd st' = cwd st /\ dirs st' = dirs st /\ files st' = files st).
    { intros tmp0 st0 e N0 I0 C0 D0 F0 T0 P0.
      destruct (IH tmp0 st0 N0 I0) as (tmp' & st' & prints & E & H1 & H2 & H3 & H4 & H5 & H6 & H7).
      exists tmp', st', (e :: prints). rewrite E, H3, T0, <- app_assoc, H5, H6, H7.
      split_and!; try done. by constructor. }
    simpl. unfold bind at 1. unfold get_state at 1.
    destruct (environ st !! var) as [cur|] eqn:Ecur.
    + destruct (String.eqb var "CFLAGS" && bool_decide (is_Some (sysconfig h !! "CCSHARED"))).
      * cbv [bind setenv modify print]. eapply Hstep; try done.
        intros v Hv. simpl. destruct (decide (var = v)) as [->|Hne].
        -- rewrite lookup_insert_eq. eauto.
        -- rewrite lookup_insert_ne by done. auto.
      * cbv [bind ret modify print]. eapply Hstep; try done.
    + destruct (sysconfig h !! var) as [v0|] eqn:Esc.
      * cbv [bind setenv modify print]. eapply Hstep; try done.
        intros v Hv. simpl. destruct (decide (var = v)) as [->|Hne].
        -- rewrite lookup_insert_eq. eauto.
        -- rewrite lookup_insert_ne by done. apply Hin.
           apply elem_of_app in Hv as [Hv|Hv]; [done|].
           apply list_elem_of_singleton in Hv. congruence.
      * apply (IH tmp); done.
Qed.

(** [with set_compiler_envvars(): body] returns what the body returns when
    the body leaves the environment alone. *)
Lemma set_compiler_envvars_run {A} (body : M A) st :
  preserves environ body ->
  exists st0 st1 st2 prints,
    trace st0 = trace st ++ prints /\ Forall (fun e => is_print e = true) prints /\
    cwd st0 = cwd st /\ dirs st0 = dirs st /\ files st0 = files st /\
    body st0 = (fst (set_compiler_envvars h body st), st1) /\
    st2 = snd (set_compiler_envvars h body st) /\
    cwd st2 = cwd st1 /\ dirs st2 = dirs st1 /\ files st2 = files st1 /\
    heap st2 = heap st1 /\ trace st2 = trace st1.
Proof.
  intros Hb. unfold set_compiler_envvars, bind.
  destruct (compiler_envvars_enter_spec ["CC"; "CFLAGS"; "LDFLAGS"] [] st)
    as (tmp & st0 & prints & E & Hnd & Hin & Ht & Hp & Hc & Hd & Hf).
  { apply (bool_decide_unpack _). vm_compute. reflexivity. }
  { intros v Hv. inversion Hv. }
  rewrite E. unfold try_finally.
  destruct (body st0) as [rb st1] eqn:Eb.
  destruct (for_each_delenv_ok tmp st1 Hnd) as (st2 & E2 & He & H2).
  { intros v Hv. rewrite (Hb _ _ _ Eb). auto. }
  rewrite E2. exists st0, st1, st2, prints. cbn [fst snd].
  destruct H2 as (? & ? & ? & ? & ?). split_and!; done.
Qed.

Lemma compiler_envvars_enter_overlay env0 vars : forall tmp st tmp' st',
  env0 !! "CFLAGS" = None \/ sysconfig h !! "CCSHARED" = None ->
  NoDup (tmp ++ vars) -> overlay env0 tmp st ->
  compiler_envvars_enter h vars tmp st = (Ok tmp', st') ->
  overlay env0 tmp' st'.
Proof.
  induction vars as [|var vars IH]; intros tmp st tmp' st' Hleak Hnd Hov.
  - by intros [= <- <-].
  - assert (Hvar : var ∉ tmp).
    { apply NoDup_app in Hnd as (_ & H2 & _). intros Hin. apply (H2 var Hin). by left. }
    assert (Hnd' : NoDup ((tmp ++ [var]) ++ vars)) by by rewrite <- app_assoc.
    assert (Hnd'' : NoDup (tmp ++ vars)).
    { apply NoDup_app in Hnd as (H1 & H2 & H3). apply NoDup_cons in H3 as [_ H3].
      apply NoDup_app. split_and!; [done| |done].
      intros x Hx Hx'. apply (H2 x Hx). by right. }
    destruct Hov as [Hout Hin].
    cbn [compiler_envvars_enter]. unfold bind at 1, get_state at 1.
    destruct (environ st !! var) as [cur|] eqn:Ecur.
    + destruct (String.eqb var "CFLAGS" && bool_decide (is_Some (sysconfig h !! "CCSHARED")))
        eqn:Ec.
      * exfalso. apply andb_true_iff in Ec as [->%String.eqb_eq Hcc].
        apply bool_decide_eq_true in Hcc as [x Hx].
        rewrite Hout in Ecur by done. destruct Hleak; congruence.
      * cbv [bind ret print modify]. apply IH; try done.
    + destruct (sysconfig h !! var) as [v0|] eqn:Esc.
      * cbv [bind setenv print modify]. apply IH; try done. split.
        -- intros k Hk. cbn [environ emit set_environ].
           rewrite lookup_insert_ne; [apply Hout|]; intros ?; apply Hk, elem_of_app.
           ++ by left.
           ++ right. apply list_elem_of_singleton. done.
        -- intros k [Hk|Hk%list_elem_of_singleton]%elem_of_app; [by apply Hin|].
           subst k. by rewrite <- Hout.
      * apply IH; done.
Qed.

Lemma lookup_foldr_delete (m : gmap string string) (l : list string) k :
  foldr delete m l !! k = if bool_decide (k ∈ l) then None else m !! k.
Proof.
  induction l as [|x l IH]; cbn [foldr].
  - by rewrite bool_decide_false by inversion 1.
  - destruct (decide (x = k)) as [->|Hne].
    + rewrite lookup_delete_eq, bool_decide_true by left. done.
    + rewrite lookup_delete_ne, IH by done.
      apply (f_equal (fun b : bool => if b then None else m !! k)).
      apply bool_decide_ext. rewrite elem_of_cons.
      split; [by right | intros [->|?]; done].
Qed.

(** Apart from that one case the scope does restore the environment: when
    CFLAGS is not in the environment (or sysconfig has no CCSHARED), the
    environment after [with set_compiler_envvars()] is the one before. *)
Lemma set_compiler_envvars_restores {A} (body : M A) st :
  environ st !! "CFLAGS" = None \/ sysconfig h !! "CCSHARED" = None ->
  preserves environ body ->
  environ (snd (set_compiler_envvars h body st)) = environ st.
Proof.
  intros Hleak Hb. unfold set_compiler_envvars, bind.
  assert (Hnd0 : NoDup ([] ++ ["CC"; "CFLAGS"; "LDFLAGS"] : list string))
    by (apply (bool_decide_unpack _); vm_compute; reflexivity).
  destruct (compiler_envvars_enter_spec ["CC"; "CFLAGS"; "LDFLAGS"] [] st Hnd0)
    as (tmp & st0 & prints & E & Hnd & Hin & _); [intros v Hv; inversion Hv|].
  assert (Hov : overlay (environ st) tmp st0).
  { eapply compiler_envvars_enter_overlay; [exact Hleak|exact Hnd0| |exact E].
    split; [done|]. intros k Hk. inversion Hk. }
  rewrite E. unfold try_finally.
  destruct (body st0) as [rb st1] eqn:Eb.
  destruct (for_each_delenv_ok tmp st1 Hnd) as (st2 & E2 & He & _).
  { intros v Hv. rewrite (Hb _ _ _ Eb). auto. }
  rewrite E2. cbn [snd]. rewrite He, (Hb _ _ _ Eb).
  apply map_eq. intros k. rewrite lookup_foldr_delete.
  destruct Hov as [Hout Hinn].
  rewrite (bool_decide_ext (k ∈ reverse tmp) (k ∈ tmp)) by apply elem_of_reverse.
  case_bool_decide as Hk; [by rewrite Hinn | by apply Hout].
Qed.

End Scopes.

(** C8, the defect: [set_compiler_envvars] appends CCSHARED to a CFLAGS
    that is already in the environment and never takes it off again, so the
    environment after a configure step differs from the one before it (the
    working directory is restored). *)
Theorem set_compiler_envvars_leaks_CFLAGS :
  let st := Fixture.checkout {[ "CFLAGS" := "-g" ]} in
  let out := configure_library Fixture.linux "htslib" None
               ["--enable-libcurl"; "--disable-libcurl"] st in
  fst out = Ok (Some "--disable-libcurl") /\
  cwd (snd out) = cwd st /\
  environ st !! "CFLAGS" = Some "-g" /\
  environ (snd out) !! "CFLAGS" = Some "-g -fPIC".
Proof. vm_compute. repeat split. Qed.

(** ** The merged compiler configuration (C4) *)

Lemma string_app_assoc (a b c : string) : (a +:+ b) +:+ c = a +:+ b +:+ c.
Proof.
  induction a as [|x a IH]; [reflexivity|].
  change (String x ((a +:+ b) +:+ c) = String x (a +:+ b +:+ c)). by rewrite IH.
Qed.

Lemma string_app_nil_r (a : string) : a +:+ "" = a.
Proof.
  induction a as [|x a IH]; [reflexivity|].
  change (String x (a +:+ "") = String x a). by rewrite IH.
Qed.

Lemma join_cons sep x l :
  Py.join sep (x :: l) = match l with [] => x | _ :: _ => x +:+ sep +:+ Py.join sep l end.
Proof. destruct l; reflexivity. Qed.

(** Every operand of a join occurs in the joined string. *)
Lemma join_occurs sep l x : x ∈ l -> occurs_in x (Py.join sep l).
Proof.
  induction l as [|y l IH]; intros Hx; [inversion Hx|].
  rewrite join_cons. apply elem_of_cons in Hx as [->|Hx].
  - destruct l.
    + exists "", "". change (y = y +:+ ""). by rewrite string_app_nil_r.
    + exists "", (sep +:+ Py.join sep (s :: l)). reflexivity.
  - destruct l as [|z l]; [inversion Hx|].
    destruct (IH Hx) as (pre & post & ->).
    exists (y +:+ sep +:+ pre), post. by rewrite !string_app_assoc.
Qed.

Section Config.

Context (h : Host).

Lemma occurs_in_refl x : occurs_in x x.
Proof. exists "", "". change (x = x +:+ ""). by rewrite string_app_nil_r. Qed.

Lemma occurs_in_trans x y z : occurs_in x y -> occurs_in y z -> occurs_in x z.
Proof.
  intros (p1 & q1 & ->) (p2 & q2 & ->). exists (p2 +:+ p1), (q1 +:+ q2).
  by rewrite !string_app_assoc.
Qed.

Lemma occurs_in_quote w : occurs_in w (quote w).
Proof.
  unfold quote. destruct (Py.str_in " " w); [|apply occurs_in_refl].
  exists "'", "'". reflexivity.
Qed.

(** An option made from a value of the list occurs in the joined string. *)
Lemma optionise_occurs option v l pre post :
  v ∈ l -> occurs_in (option +:+ v) (Py.join " " (pre ++ optionise option l ++ post)).
Proof.
  intros Hv. apply occurs_in_trans with (quote (option +:+ v)); [apply occurs_in_quote|].
  apply join_occurs. apply elem_of_app. right. apply elem_of_app. left.
  unfold optionise. apply list_elem_of_fmap. by exists v.
Qed.

(** C4: in the dictionary [build_config_dict] returns, the value of each
    flag variable is the join of a base that does not depend on the
    extension followed by the extension's own flags: -I, -D and -U options
    from its include directories and macros in CPPFLAGS, its
    [extra_compile_args] in CFLAGS, -L options from its library directories
    and its [extra_link_args] in LDFLAGS (an option that holds a blank is
    put in single quotes).  A value the environment gives for CPPFLAGS,
    CFLAGS or LDFLAGS is in that base, after the platform default of the
    same variable, and so occurs in the final value together with every
    flag of the extension; for CC the environment value is the one
    chosen. *)
Theorem build_config_dict_merge (st : State) :
  exists base_cppflags base_cflags base_ldflags : list string,
    (forall ext,
       let quoted (w : string) := if Py.str_in " " w then "'" +:+ w +:+ "'" else w in
       Dict.get (build_config_dict h st ext) "CPPFLAGS" =
         Some (Py.join " "
                 (base_cppflags ++
                  map (fun d => quoted ("-I" +:+ d)) (ext_include_dirs ext) ++
                  map (fun m => quoted ("-D" +:+ match snd m with
                                                  | None => fst m
                                                  | Some v => fst m +:+ "=" +:+ v
                                                  end)) (ext_define_macros ext) ++
                  map (fun u => quoted ("-U" +:+ u)) (ext_undef_macros ext))) /\
       Dict.get (build_config_dict h st ext) "CFLAGS" =
         Some (Py.join " " (base_cflags ++ ext_extra_compile_args ext)) /\
       Dict.get (build_config_dict h st ext) "LDFLAGS" =
         Some (Py.join " "
                 (base_ldflags ++
                  map (fun d => quoted ("-L" +:+ d)) (library_dirs_of st ext) ++
                  ext_extra_link_args ext))) /\
    (forall v, environ st !! "CPPFLAGS" = Some v -> base_cppflags = [v]) /\
    (forall v, environ st !! "CFLAGS" = Some v ->
       exists rest, base_cflags = sc h "CFLAGS" ++ v :: rest) /\
    (forall v, environ st !! "LDFLAGS" = Some v ->
       exists rest, base_ldflags = sc h "LDFLAGS" ++ v :: rest) /\
    (forall ext var v, var ∈ ["CPPFLAGS"; "CFLAGS"; "LDFLAGS"] ->
       environ st !! var = Some v ->
       exists merged, Dict.get (build_config_dict h st ext) var = Some merged /\
                      occurs_in v merged) /\
    (forall ext flag merged, flag ∈ ext_extra_compile_args ext ->
       Dict.get (build_config_dict h st ext) "CFLAGS" = Some merged -> occurs_in flag merged) /\
    (forall ext flag merged, flag ∈ ext_extra_link_args ext ->
       Dict.get (build_config_dict h st ext) "LDFLAGS" = Some merged -> occurs_in flag merged) /\
    (forall ext merged,
       Dict.get (build_config_dict h st ext) "CPPFLAGS" = Some merged ->
       (forall d, d ∈ ext_include_dirs ext -> occurs_in ("-I" +:+ d) merged) /\
       (forall name, (name, None) ∈ ext_define_macros ext ->
          occurs_in ("-D" +:+ name) merged) /\
       (forall name value, (name, Some value) ∈ ext_define_macros ext ->
          occurs_in ("-D" +:+ name +:+ "=" +:+ value) merged) /\
       (forall u, u ∈ ext_undef_macros ext -> occurs_in ("-U" +:+ u) merged)) /\
    (forall ext d merged, d ∈ library_dirs_of st ext ->
       Dict.get (build_config_dict h st ext) "LDFLAGS" = Some merged ->
       occurs_in ("-L" +:+ d) merged) /\
    (forall ext v, environ st !! "CC" = Some v ->
       Dict.get (build_config_dict h st ext) "CC" = Some v).
Proof.
  exists (env st "CPPFLAGS"), (sc h "CFLAGS" ++ env st "CFLAGS" ++ sc h "CCSHARED"),
         (sc h "LDFLAGS" ++ env st "LDFLAGS" ++ env st "CFLAGS").
  split_and!.
  - intros ext quoted.
    split_and!; cbn [build_config_dict Dict.get String.eqb Ascii.eqb Bool.eqb];
      unfold cppflags_parts, cflags_parts, ldflags_parts, optionise, kvtuples;
      rewrite ?map_map, <- ?app_assoc; reflexivity.
  - intros v Hv. unfold env. by rewrite Hv.
  - intros v Hv. unfold env at 1. rewrite Hv. eauto.
  - intros v Hv. unfold env at 1. rewrite Hv. eauto.
  - intros ext var v Hvar Hv.
    assert (Hin : v ∈ env st var) by (unfold env; rewrite Hv; by left).
    repeat (apply elem_of_cons in Hvar as [->|Hvar]); [| | |inversion Hvar];
      eexists; (split; [reflexivity|]); apply join_occurs;
      unfold cppflags_parts, cflags_parts, ldflags_parts; set_solver.
  - intros ext flag merged Hflag [= <-]. apply join_occurs.
    unfold cflags_parts. set_solver.
  - intros ext flag merged Hflag [= <-]. apply join_occurs.
    unfold ldflags_parts. set_solver.
  - intros ext merged [= <-]. unfold cppflags_parts. split_and!.
    + intros d Hd. by apply (optionise_occurs "-I" d _ (env st "CPPFLAGS")).
    + intros name Hn.
      rewrite (app_assoc (env st "CPPFLAGS")).
      apply (optionise_occurs "-D" name (kvtuples (ext_define_macros ext))).
      unfold kvtuples. apply list_elem_of_fmap. by exists (name, None).
    + intros name value Hn.
      rewrite (app_assoc (env st "CPPFLAGS")).
      apply (optionise_occurs "-D" (name +:+ "=" +:+ value) (kvtuples (ext_define_macros ext))).
      unfold kvtuples. apply list_elem_of_fmap. by exists (name, Some value).
    + intros u Hu.
      rewrite (app_assoc (env st "CPPFLAGS")), (app_assoc (_ ++ _)).
      rewrite <- (app_nil_r (optionise "-U" _)).
      by apply (optionise_occurs "-U" u).
  - intros ext d merged Hd [= <-]. unfold ldflags_parts.
    rewrite (app_assoc (sc h "LDFLAGS")), (app_assoc (_ ++ _)).
    by apply (optionise_occurs "-L" d).
  - intros ext v Hv. cbn [build_config_dict Dict.get String.eqb Ascii.eqb Bool.eqb].
    unfold cc_candidates, env. by rewrite Hv.
Qed.

End Config.

(** ** The symbols of a module (C7) *)

Section Symbols.

Context (h : Host).

Lemma nm_line_spec symbols line symbols' :
  nm_line h symbols line = Ok symbols' ->
  forall s, s ∈ symbols' <-> s ∈ symbols \/ contributes h line s.
Proof.
  unfold nm_line, contributes.
  destruct (Py.split_ws line) as [|sym [|symtype rest]] eqn:E; try discriminate.
  destruct (Py.str_in symtype "UFNWw") eqn:Ety; cbn [negb].
  - intros [= <-] s. split; [auto|]. intros [?|(? & ? & ? & [= <- <- <-] & ? & _)]; [done|congruence].
  - destruct (IS_DARWIN h).
    + intros [= <-] s. rewrite elem_of_union, elem_of_singleton. split.
      * intros [->|?]; [right|by left]. eauto 10.
      * intros [?|(? & ? & ? & [= <- <- <-] & _ & ->)]; auto.
    + destruct sym as [|c sym']; [discriminate|].
      destruct (Py.char_in c "_$.@") eqn:Ec; cbn [negb]; intros [= <-] s.
      * split; [auto|].
        intros [?|(? & ? & ? & [= <- <- <-] & _ & -> & c' & s' & [= <- <-] & Hc)]; [done|congruence].
      * rewrite elem_of_union, elem_of_singleton. split.
        -- intros [->|?]; [right|by left]. eauto 12.
        -- intros [?|(? & ? & ? & [= <- <- <-] & _ & -> & _)]; auto.
Qed.

Lemma nm_lines_spec lines : forall symbols symbols',
  nm_lines h symbols lines = Ok symbols' ->
  forall s, s ∈ symbols' <-> s ∈ symbols \/ exists line, line ∈ lines /\ contributes h line s.
Proof.
  induction lines as [|line lines IH]; intros symbols symbols'; simpl.
  - intros [= <-] s. split; [auto|]. intros [?|(l & Hl & _)]; [done|inversion Hl].
  - destruct (nm_line h symbols line) as [symbols1|e] eqn:E1; [|discriminate].
    intros H s. rewrite (IH _ _ H), (nm_line_spec _ _ _ E1). split.
    + intros [[?|?]|(l & Hl & Hc)]; [by left| |]; right.
      * exists line. split; [by left|done].
      * exists l. split; [by right|done].
    + intros [?|(l & Hl & Hc)]; [by left; left|].
      apply elem_of_cons in Hl as [->|Hl]; [by left; right|].
      right. eauto.
Qed.

(** C7 as the code has it: the extracted set holds exactly the symbols of
    lines whose type is none of U F N W w, with one leading underscore
    taken off on macOS, and elsewhere only when the name does not begin with
    one of _ $ . @; the name of Cython's metaclass helper is never in it.
    (The prefix filter is the [else] branch: on macOS it is not applied.) *)
Theorem nm_defined_symbols_spec (stdout : string) (symbols : gset string) :
  nm_defined_symbols h stdout = Ok symbols ->
  forall s, s ∈ symbols <->
    s <> "__pyx_CommonTypesMetaclass_get_module" /\
    exists line, line ∈ Py.splitlines stdout /\ contributes h line s.
Proof.
  unfold nm_defined_symbols.
  destruct (nm_lines h ∅ (Py.splitlines stdout)) as [syms|e] eqn:E; [|discriminate].
  intros [= <-] s. rewrite elem_of_difference, elem_of_singleton, (nm_lines_spec _ _ _ E).
  split.
  - intros [[H|H] Hne]; [set_solver|done].
  - intros [Hne H]. split; [by right|done].
Qed.

End Symbols.

(** ** The pre-build hook of the foundational module (C9) *)

Section Prebuild.

Context (h : Host).

Lemma dirname_go_app a b d :
  dirname_go b = Some d -> dirname_go (a +:+ b) = Some (a +:+ d).
Proof.
  intros Hb. induction a as [|x a IH]; [exact Hb|].
  change (dirname_go (String x (a +:+ b)) = Some (String x (a +:+ d))).
  cbn [dirname_go]. by rewrite IH.
Qed.

Lemma dirname_in_htslib d file :
  dirname_go ("/htslib/" +:+ file) = Some "/htslib" ->
  dirname (resolve d ("htslib/" +:+ file)) = resolve d "htslib".
Proof.
  intros H. unfold resolve.
  change (Py.startswith ("htslib/" +:+ file) "/") with false.
  change (Py.startswith "htslib" "/") with false. cbn match.
  change (d +:+ "/" +:+ "htslib/" +:+ file) with (d +:+ "/htslib/" +:+ file).
  unfold dirname. rewrite (dirname_go_app _ _ _ H).
  destruct d; reflexivity.
Qed.

Lemma run_make_eval targets st :
  run_make h targets st =
    (match fst (spawn h st false (make_program st :: targets)) with
     | Some (code, _) => if Z.eqb code 0 then Ok tt else Raise CalledProcessError
     | None => Raise OSError
     end,
     emit (EvSpawn false (make_program st :: targets)
                   (fst (spawn h st false (make_program st :: targets))))
          (set_files (snd (spawn h st false (make_program st :: targets))) st)).
Proof.
  unfold run_make, subprocess_check_call, subprocess, bind, get_state.
  change ([make_program st] ++ targets) with (make_program st :: targets).
  destruct (spawn h st false (make_program st :: targets)) as [[[code out]|] fs]; simpl;
    [destruct (Z.eqb code 0)|]; reflexivity.
Qed.

(** C9 as the code has it: the hook runs [make ... lib-static] with the
    augmented ALL_CPPFLAGS exactly when HTSLIB_MODE is 'shared' or
    'separate' and the build is forced or htslib/libhts.a does not exist;
    when the archive exists and the build is not forced the hook returns
    normally after a warning, having run no program.  (The test is on the
    requested HTSLIB_MODE, whatever directories were supplied.) *)
Theorem prebuild_libchtslib_spec (mode : string) (ext : Extension) (force : bool) (st : State) :
  wf_cwd st -> resolve (cwd st) "htslib" ∈ dirs st ->
  exists res st' evs,
    prebuild_libchtslib h mode ext force st = (res, st') /\
    trace st' = trace st ++ evs /\ cwd st' = cwd st /\
    ((exists reply, make_static st ext reply ∈ evs) <->
       requires_vendored_build mode = true /\
       (force = true \/ path_exists st "htslib/libhts.a" = false)) /\
    Forall (fun e => is_spawn e = true -> exists reply, e = make_static st ext reply) evs /\
    (requires_vendored_build mode = true -> force = false ->
     path_exists st "htslib/libhts.a" = true ->
       res = Ok tt /\
       evs = header_events h ext st ++ [EvLog WARNING "skipping 'libhts.a' (already built)"]).
Proof.
  intros Hwf Hdir. unfold prebuild_libchtslib.
  destruct (requires_vendored_build mode) eqn:Hmode; cbn [negb]; cycle 1.
  { exists (Ok tt), st, []. rewrite app_nil_r. split_and!; try done.
    split; [intros [r Hr]; inversion Hr | intros [? _]; done]. }
  unfold write_configvars_header, bind at 1 2 3, get_state at 1, log at 1, modify at 1.
  cbn [String.eqb Ascii.eqb Bool.eqb negb]. unfold write_file.
  cbn [cwd dirs files emit].
  assert (Hdn : dirname (resolve (cwd st) "htslib/config_vars.h") = resolve (cwd st) "htslib")
    by exact (dirname_in_htslib (cwd st) "config_vars.h" eq_refl).
  rewrite Hdn, bool_decide_true by done.
  unfold bind at 1, get_state at 1.
  set (st1 := emit _ (set_files _ (emit _ st))).
  assert (Hex : path_exists st1 "htslib/libhts.a" = path_exists st "htslib/libhts.a").
  { unfold path_exists, st1. cbn [cwd files dirs emit set_files]. f_equal.
    apply bool_decide_ext. rewrite elem_of_union, elem_of_singleton.
    split; [intros [Heq|?]; [|done] | by right].
    unfold resolve in Heq. cbn in Heq.
    apply (inj (String.app (cwd st))) in Heq. discriminate. }
  rewrite Hex.
  assert (Hwf1 : wf_cwd st1) by exact Hwf.
  destruct (force || negb (path_exists st "htslib/libhts.a")) eqn:Hb.
  - unfold bind at 1, log at 1, modify at 1.
    set (st2 := emit _ st1).
    destruct (changedir_run "htslib" (run_make h [all_cppflags ext; "lib-static"]) st2)
      as (st3 & Hrun & Hsnd); [exact Hwf | apply preserves_run_make; auto with frame | exact Hdir |].
    rewrite run_make_eval in Hrun. injection Hrun as Hres Hst3.
    destruct (changedir "htslib" (run_make h [all_cppflags ext; "lib-static"]) st2)
      as [res st'] eqn:Ecd. cbn [fst snd] in *. subst st'.
    eexists res, _, _. split; [reflexivity|]. rewrite <- Hst3. cbn [trace set_cwd emit set_files].
    unfold st2, st1. cbn [trace emit set_files]. rewrite <- !app_assoc. cbn [app].
    split; [reflexivity|]. split; [reflexivity|].
    change (make_program (set_cwd _ _)) with (make_program st).
    split_and!.
    + split; [intros _|intros _].
      * split; [done|]. apply orb_true_iff in Hb as [->|Hb]; [by left|right].
        by apply negb_true_iff.
      * eexists. unfold make_static.
        do 3 apply list_elem_of_further. apply list_elem_of_here.
    + repeat (constructor; [first [discriminate | intros _; eexists; reflexivity]|]). constructor.
    + intros _ -> Hp. rewrite Hp in Hb. discriminate.
  - unfold log, modify. eexists (Ok tt), _, _. split; [reflexivity|].
    unfold st1. cbn [trace emit set_files cwd]. rewrite <- !app_assoc. cbn [app].
    split; [reflexivity|]. split; [reflexivity|].
    apply orb_false_iff in Hb as [-> Hb]. apply negb_false_iff in Hb.
    split_and!.
    + split; [intros [r Hr]|intros [_ [?|?]]; congruence].
      unfold make_static in Hr.
      repeat (apply elem_of_cons in Hr as [Hr|Hr]; [discriminate Hr|]). inversion Hr.
    + repeat (constructor; [discriminate|]). constructor.
    + intros _ _ _. done.
Qed.

End Prebuild.

(** ** The C99 probe and the build loop (C5, C10) *)

Section Probe.

Context (h : Host).

Lemma compile_eval self srcs out pre st :
  compile h self srcs out pre st =
    (fst (cc_compile h st (self_compiler self) srcs out pre),
     emit (EvCompile (self_compiler self) srcs out pre
                     (fst (cc_compile h st (self_compiler self) srcs out pre)))
          (set_files (snd (cc_compile h st (self_compiler self) srcs out pre)) st)).
Proof. unfold compile. destruct (cc_compile _ _ _ _ _ _). reflexivity. Qed.

Lemma adopted_cons_failed flags tried :
  adopted ((flags, Raise CompileError) :: tried) = adopted tried.
Proof. unfold adopted. destruct tried as [|t tried]; [done|]. by rewrite last_cons_cons. Qed.

Lemma c99_probe_spec self label candidates : forall st,
  exists res st' evs tried,
    c99_probe h self label candidates st = (res, st') /\
    trace st' = trace st ++ evs /\
    List.filter is_compile evs = map (probe_event self) tried /\
    probe_run candidates tried /\
    (forall flags, res = Ok flags -> flags = adopted tried) /\
    (adopted tried = None -> forall f, (f, Ok tt) ∈ tried -> f = None) /\
    ((forall t, t ∈ tried -> snd t = Raise CompileError) ->
       res = Ok None /\
       last evs = Some (EvLog ERROR (label +:+ " cannot compile C99 source code"))).
Proof.
  induction candidates as [|flags rest IH]; intros st.
  - eexists (Ok None), _, [_], []. cbn [c99_probe]. unfold bind, log, modify, ret.
    split; [reflexivity|]. cbn [trace emit]. split; [reflexivity|].
    split; [reflexivity|]. split; [constructor|]. split_and!.
    + by intros ? [= <-].
    + intros _ f Hf. inversion Hf.
    + done.
  - cbn [c99_probe]. unfold try_except, bind at 1. rewrite compile_eval.
    set (r := fst (cc_compile h st (self_compiler self) ["pysam/conftest_cstd.c"]
                              (build_temp self) flags)).
    set (st1 := emit _ (set_files _ st)).
    destruct r as [[]|e] eqn:Er.
    + unfold bind, log, modify, ret.
      eexists (Ok flags), _, [_; _], [(flags, Ok tt)].
      split; [reflexivity|]. cbn [trace emit]. unfold st1. cbn [trace emit set_files].
      rewrite <- app_assoc. split; [reflexivity|]. split; [reflexivity|].
      split; [by constructor|]. split_and!.
      * by intros ? [= <-].
      * unfold adopted. simpl. intros -> f Hf. apply list_elem_of_singleton in Hf.
        congruence.
      * intros Hall. specialize (Hall _ (list_elem_of_here _ _)). discriminate.
    + destruct (decide (e = CompileError)) as [->|Hne].
      * unfold bind at 1, log at 1, modify at 1.
        destruct (IH (emit (EvLog INFO "(ignoring errors from test probes)") st1))
          as (res & st' & evs & tried & E & T & F & P & A & N & L).
        rewrite E. eexists res, st', (_ :: _ :: evs), ((flags, Raise CompileError) :: tried).
        split; [reflexivity|]. rewrite T. unfold st1. cbn [trace emit set_files].
        rewrite <- !app_assoc. split; [reflexivity|]. cbn [List.filter is_compile map].
        rewrite F. split; [reflexivity|]. split; [by constructor|].
        rewrite adopted_cons_failed. split_and!.
        -- exact A.
        -- intros Hn f Hf. apply elem_of_cons in Hf as [[=]|Hf]. eauto.
        -- intros Hall. destruct L as [-> L].
           { intros t Ht. apply Hall. by right. }
           split; [done|]. rewrite !last_cons. by rewrite L.
      * assert (He : match e with CompileError => Some (let* _ := log INFO "(ignoring errors from test probes)" in c99_probe h self label rest) | _ => None end = None)
          by (destruct e; congruence).
        rewrite He. eexists (Raise e), _, [_], [(flags, Raise e)].
        split; [reflexivity|]. unfold st1. cbn [trace emit set_files].
        split; [reflexivity|]. split; [reflexivity|]. split; [constructor; congruence|].
        split_and!.
        -- intros ? [=].
        -- intros _ f Hf. apply list_elem_of_singleton in Hf. congruence.
        -- intros Hall. specialize (Hall _ (list_elem_of_here _ _)). simpl in Hall. congruence.
Qed.

Lemma built_with_io_only cc : io_only (built_with cc).
Proof. repeat split; intros; discriminate. Qed.

Lemma emits_build_extension mode self ext :
  emits (built_with (self_compiler self)) (build_extension h mode self ext).
Proof.
  pose proof (built_with_io_only (self_compiler self)) as Hio.
  unfold build_extension. frame.
  apply emits_super_build. intros dirs r.
  split; [done|]. by intros ???? [= <- _ _ _].
Qed.

Lemma set_self_compiler_id self : set_self_compiler (self_compiler self) self = self.
Proof. by destruct self. Qed.

Lemma self_compiler_set cc self : self_compiler (set_self_compiler cc self) = cc.
Proof. by destruct self. Qed.

Lemma executable_extended (f : string) (fl : list string) (old : option PyCmd) :
  extended_by h (f :: fl) old
    (match executable_with_flags old (f :: fl) with
     | Some v => Some (set_executable h v)
     | None => old
     end).
Proof.
  destruct old as [[|[|a s]|[|x l]]|]; cbn [executable_with_flags set_executable];
    first [apply extended_str | apply extended_list | apply extended_unset];
    repeat first [apply list_elem_of_here | apply list_elem_of_further].
Qed.

(** The compiler after the probe, read off the attempts of the probe. *)
Lemma adopt_c99_flags_spec (cc : CCompiler) tried :
  probe_run [None; Some ["-std=c99"]; Some ["-std=gnu99"]] tried ->
  match adopted tried with
  | Some flags =>
      (flags = ["-std=c99"] \/ flags = ["-std=gnu99"]) /\
      extended_by h flags (cc_compiler cc)
                  (cc_compiler (adopt_c99_flags h cc (adopted tried))) /\
      extended_by h flags (cc_compiler_so cc)
                  (cc_compiler_so (adopt_c99_flags h cc (adopted tried)))
  | None => adopt_c99_flags h cc (adopted tried) = cc
  end.
Proof.
  intros P.
  repeat match goal with
         | H : probe_run (_ :: _) _ |- _ => inversion H; clear H; subst
         | H : probe_run [] _ |- _ => inversion H; clear H; subst
         end;
    unfold adopted; cbn [last];
    repeat match goal with r : result unit |- _ => destruct r as [[]|?] end;
    try reflexivity;
    (split; [by (left + right)|]);
    cbn [adopt_c99_flags set_executables cc_compiler cc_compiler_so];
    split; apply executable_extended.
Qed.

(** C5: [build_extensions] first runs the probe - a trivial compile with no
    extra flags, then with -std=c99, then with -std=gnu99, each tried only
    after the one before failed with a compile error, stopping at the first
    that does not - and only then builds the modules: the build loop holds
    no further probe, and every module is built with one and the same
    compiler [cc], which the command keeps.  When the probe settled on
    flags, [cc] is the compiler of the command with these flags appended to
    its [compiler] and [compiler_so] commands; when it settled on none, [cc]
    is the compiler of the command as it was. *)
Theorem build_extensions_probes_once (mode : string) (self : cy_build_ext) (st : State)
    (label : string) :
  compiler_label (self_compiler self) = Ok label ->
  exists res st' probes builds tried cc,
    build_extensions h mode self st = (res, st') /\
    trace st' = trace st ++ probes ++ builds /\
    List.filter is_compile probes = map (probe_event self) tried /\
    probe_run [None; Some ["-std=c99"]; Some ["-std=gnu99"]] tried /\
    Forall (built_with cc) builds /\
    (forall self', res = Ok self' -> self_compiler self' = cc) /\
    match adopted tried with
    | Some flags =>
        (flags = ["-std=c99"] \/ flags = ["-std=gnu99"]) /\
        extended_by h flags (cc_compiler (self_compiler self)) (cc_compiler cc) /\
        extended_by h flags (cc_compiler_so (self_compiler self)) (cc_compiler_so cc)
    | None => cc = self_compiler self
    end.
Proof.
  intros Hlabel. unfold build_extensions, c99_compile_args. rewrite Hlabel.
  unfold bind at 1 2, log at 1, modify at 1.
  destruct (c99_probe_spec self label c99_candidates
              (emit (EvLog INFO ("checking for " +:+ label +:+
                                 " option to enable C99 features...")) st))
    as (res & st1 & evs & tried & E & T & F & P & A & _ & _).
  rewrite E.
  pose proof (adopt_c99_flags_spec (self_compiler self) tried P) as Hcc.
  set (cc := adopt_c99_flags h (self_compiler self) (adopted tried)) in *.
  destruct res as [flags|e].
  - rewrite (A flags eq_refl). fold cc.
    set (self' := set_self_compiler cc self).
    destruct (for_each (ext_modules self') (build_extension h mode self') st1)
      as [r st2] eqn:Eloop.
    assert (Hem : emits (built_with (self_compiler self'))
                        (for_each (ext_modules self') (build_extension h mode self')))
      by (apply emits_for_each; intros; apply emits_build_extension).
    destruct (Hem _ _ _ Eloop) as (builds & T2 & F2).
    unfold bind. rewrite Eloop.
    eexists (match r with Ok _ => Ok self' | Raise e => Raise e end), st2, (_ :: evs),
            builds, tried, cc.
    split; [by destruct r|]. rewrite T2, T. cbn [trace emit].
    rewrite <- !app_assoc. split; [reflexivity|]. split; [exact F|]. split; [exact P|].
    split; [unfold self' in F2; by rewrite self_compiler_set in F2|].
    split; [|by destruct (adopted tried)].
    intros self'' Hr. destruct r; [|discriminate]. injection Hr as <-.
    apply self_compiler_set.
  - eexists (Raise e), st1, (_ :: evs), [], tried, cc.
    split; [reflexivity|]. rewrite T, app_nil_r. cbn [trace emit]. rewrite <- app_assoc.
    split; [reflexivity|]. split; [exact F|]. split; [exact P|].
    split; [constructor|]. split; [discriminate|]. by destruct (adopted tried).
Qed.

(** C10: when all three compile attempts of the probe fail, the probe logs
    an error and returns no flags without raising; [build_extensions] then
    leaves the compiler as it was and goes on to build every module. *)
Theorem build_extensions_probe_failed (mode : string) (self : cy_build_ext) (st : State)
    (label : string) :
  compiler_label (self_compiler self) = Ok label ->
  (forall st' flags,
     fst (cc_compile h st' (self_compiler self) ["pysam/conftest_cstd.c"]
                     (build_temp self) flags) = Raise CompileError) ->
  exists st1 evs,
    c99_compile_args h self st = (Ok None, st1) /\
    trace st1 = trace st ++ evs /\
    List.filter is_compile evs =
      map (fun flags => probe_event self (flags, Raise CompileError)) c99_candidates /\
    last evs = Some (EvLog ERROR (label +:+ " cannot compile C99 source code")) /\
    build_extensions h mode self st =
      (let* _ := for_each (ext_modules self) (build_extension h mode self) in ret self) st1.
Proof.
  intros Hlabel Hfail.
  assert (Hargs : exists st1 evs,
    c99_compile_args h self st = (Ok None, st1) /\
    trace st1 = trace st ++ evs /\
    List.filter is_compile evs =
      map (fun flags => probe_event self (flags, Raise CompileError)) c99_candidates /\
    last evs = Some (EvLog ERROR (label +:+ " cannot compile C99 source code"))).
  { unfold c99_compile_args. rewrite Hlabel. unfold c99_candidates.
    cbn [c99_probe]. unfold try_except, bind, log, modify, ret.
    repeat (rewrite compile_eval, Hfail; cbn [emit set_files trace]).
    eexists _, (_ :: _ :: _ :: _ :: _ :: _ :: _ :: [_]).
    split; [reflexivity|]. cbn [trace emit set_files]. rewrite <- !app_assoc. cbn [app].
    split; [reflexivity|]. split; [reflexivity|]. reflexivity. }
  destruct Hargs as (st1 & evs & E & T & F & L). exists st1, evs.
  split_and!; try done.
  unfold build_extensions. unfold bind at 1. rewrite E.
  cbn [adopt_c99_flags]. by rewrite set_self_compiler_id.
Qed.

End Probe.

(** ** Configuring the vendored library (C3) *)

Section Configure.

Context (h : Host).

Lemma run_configure_eval o st :
  run_configure h o st =
    (Ok (accepted (fst (spawn h st true [Py.join " " ["./configure"; o]]))),
     emit (configure_event (o, fst (spawn h st true [Py.join " " ["./configure"; o]])))
          (set_files (snd (spawn h st true [Py.join " " ["./configure"; o]])) st)).
Proof.
  unfold run_configure, try_except, subprocess_call_shell, subprocess, bind, ret,
    configure_event, accepted.
  destruct (spawn h st true [Py.join " " ["./configure"; o]]) as [[[code out]|] fs];
    cbn [fst snd]; [destruct (Z.eqb code 0)|]; reflexivity.
Qed.

Lemma try_options_spec options : forall st,
  exists res st' tried,
    try_options h options st = (Ok res, st') /\
    trace st' = trace st ++ map configure_event tried /\
    configure_run options tried res /\
    cwd st' = cwd st /\ environ st' = environ st /\ dirs st' = dirs st.
Proof.
  induction options as [|o options IH]; intros st.
  - exists None, st, []. simpl. rewrite app_nil_r. split_and!; try done. constructor.
  - cbn [try_options]. unfold bind. rewrite run_configure_eval.
    set (reply := fst (spawn h st true [Py.join " " ["./configure"; o]])).
    set (st1 := emit _ (set_files _ st)).
    destruct (accepted reply) eqn:Hacc.
    + exists (Some o), st1, [(o, reply)]. split_and!; try done. by constructor.
    + destruct (IH st1) as (res & st' & tried & E & T & R & C & En & D).
      exists res, st', ((o, reply) :: tried). rewrite E, T. unfold st1.
      cbn [trace emit set_files map]. rewrite <- app_assoc.
      split_and!; try done. by constructor.
Qed.

Lemma configure_attempts_spec env_options options st :
  exists res st' tried,
    configure_attempts h env_options options st = (Ok res, st') /\
    trace st' = trace st ++ map configure_event tried /\
    configure_run (option_list env_options ++ options) tried res /\
    cwd st' = cwd st /\ environ st' = environ st /\ dirs st' = dirs st.
Proof.
  unfold configure_attempts. destruct env_options as [o|]; cbn [option_list app].
  - unfold bind at 1 2. rewrite run_configure_eval.
    set (reply := fst (spawn h st true [Py.join " " ["./configure"; o]])).
    set (st1 := emit _ (set_files _ st)).
    destruct (accepted reply) eqn:Hacc; unfold ret.
    + exists (Some o), st1, [(o, reply)]. split_and!; try done. by constructor.
    + destruct (try_options_spec options st1) as (res & st' & tried & E & T & R & C & En & D).
      exists res, st', ((o, reply) :: tried). rewrite E, T. unfold st1.
      cbn [trace emit set_files map]. rewrite <- app_assoc.
      split_and!; try done. by constructor.
  - unfold bind, ret. apply try_options_spec.
Qed.

Lemma preserves_configure_attempts {X} (f : State -> X) env_options options :
  ignores_io f -> preserves f (configure_attempts h env_options options).
Proof. intros Hf. unfold configure_attempts. frame. Qed.

(** What [configure_library] does when the configure script is there. *)
Lemma configure_library_spec library_dir env_options options st :
  wf_cwd st ->
  path_exists st (Py.os_path_join library_dir "configure") = true ->
  resolve (cwd st) library_dir ∈ dirs st ->
  exists res st' prints tried,
    configure_library h library_dir env_options options st = (Ok res, st') /\
    trace st' = trace st ++ prints ++ map configure_event tried /\
    Forall (fun e => is_print e = true) prints /\
    configure_run (option_list (effective_env_options st env_options) ++ options) tried res /\
    cwd st' = cwd st /\ dirs st' = dirs st.
Proof.
  intros Hwf Hscript Hdir. unfold configure_library, bind at 1, get_state at 1.
  rewrite Hscript. cbn [negb].
  set (body := configure_attempts h _ options).
  assert (Hpd : preserves dirs (set_compiler_envvars h body)).
  { unfold set_compiler_envvars.
    assert (He : forall vars tmp, preserves dirs (compiler_envvars_enter h vars tmp)).
    { induction vars as [|v vars IHv]; intros tmp; simpl; frame. }
    frame. apply preserves_configure_attempts; auto with frame. }
  destruct (changedir_run library_dir (set_compiler_envvars h body) st Hwf Hpd Hdir)
    as (st3 & Hrun & Hsnd).
  destruct (set_compiler_envvars_run h body (set_cwd (resolve (cwd st) library_dir) st))
    as (st0 & st1 & st2 & prints & T0 & P0 & C0 & D0 & F0 & Hbody & Hst2 & C2 & D2 & F2 & H2 & T2).
  { apply preserves_configure_attempts; auto with frame. }
  destruct (configure_attempts_spec (effective_env_options st env_options) options st0)
    as (res & st1' & tried & E & T & R & C & En & D).
  fold body in E. rewrite E in Hbody. injection Hbody as Hres <-.
  rewrite Hrun in Hres, Hst2. cbn [fst snd] in Hres, Hst2. subst st3.
  exists res, (set_cwd (cwd st) st2), prints, tried.
  split.
  { rewrite (surjective_pairing (changedir library_dir (set_compiler_envvars h body) st)).
    by rewrite <- Hres, Hsnd. }
  cbn [trace cwd dirs set_cwd].
  rewrite T2, T, T0. cbn [trace set_cwd]. rewrite <- app_assoc.
  split_and!; try done. by rewrite D2, D, D0.
Qed.

(** C3 as the code has it: with the configure script in place the option
    tried first is the caller's - or --disable-bz2 instead of it when
    READTHEDOCS is True -, then --enable-libcurl and --disable-libcurl in
    this order; the first option configure accepts is returned, and none
    when every run fails, without an exception; in that case the next thing
    the script does after reporting it is to write the two-comment
    htslib/config.h. *)
Theorem configure_builtin_fallback (user_option : option string) (st : State) :
  wf_cwd st ->
  path_exists st "htslib/configure" = true ->
  resolve (cwd st) "htslib" ∈ dirs st ->
  exists res st1 prints tried,
    configure_library h "htslib" user_option ["--enable-libcurl"; "--disable-libcurl"] st
      = (Ok res, st1) /\
    trace st1 = trace st ++ prints ++ map configure_event tried /\
    Forall (fun e => is_print e = true) prints /\
    configure_run (option_list (effective_env_options st user_option) ++
                   ["--enable-libcurl"; "--disable-libcurl"]) tried res /\
    cwd st1 = cwd st /\
    (res = None ->
     forall r st', configure_builtin h user_option st = (r, st') ->
       exists evs, trace st' = trace st1 ++
         EvPrint "# pysam: htslib configure options: None" ::
         EvWrite "htslib/config.h" empty_config_h :: evs).
Proof.
  intros Hwf Hscript Hdir.
  destruct (configure_library_spec "htslib" user_option
              ["--enable-libcurl"; "--disable-libcurl"] st Hwf Hscript Hdir)
    as (res & st1 & prints & tried & E & T & P & R & C & D).
  exists res, st1, prints, tried. split_and!; try done.
  intros -> r st'. unfold configure_builtin. unfold bind at 1. rewrite E.
  unfold bind at 1, print at 1, modify at 1. cbn [fmt_opt default].
  unfold bind at 1, write_file at 1. cbn [cwd dirs emit].
  assert (Hdn : dirname (resolve (cwd st1) "htslib/config.h") = resolve (cwd st1) "htslib")
    by exact (dirname_in_htslib (cwd st1) "config.h" eq_refl).
  rewrite Hdn, C, D, bool_decide_true by done.
  set (st2 := emit (EvWrite _ _) _).
  intros Hrest.
  assert (Hem : forall k : M Builtin, emits (fun _ => True) k ->
            k st2 = (r, st') -> exists evs, trace st' = trace st2 ++ evs).
  { intros k Hk Ek. destruct (Hk _ _ _ Ek) as (evs & Tk & _). eauto. }
  edestruct Hem as (evs & Tevs); [|exact Hrest|].
  { pose proof any_event_io_only as Hio. frame. }
  exists evs. rewrite Tevs. unfold st2. cbn [trace emit set_files].
  by rewrite <- !app_assoc.
Qed.

End Configure.

(** ** Choosing the link mode and the artifacts (C1, C2) *)

Section Resolver.

Context (h : Host).

Lemma changedir_ok_inv {A} path (body : M A) st a st' :
  changedir path body st = (Ok a, st') ->
  resolve (cwd st) path ∈ dirs st /\
  exists st1, body (set_cwd (resolve (cwd st) path) st) = (Ok a, st1) /\
              trace st' = trace st1.
Proof.
  unfold changedir, bind, getcwd, chdir, try_finally.
  case_bool_decide as Hin; [|discriminate].
  destruct (body _) as [rb st1]. case_bool_decide; [|discriminate].
  intros [= -> <-]. eauto.
Qed.

Lemma run_make_print_config_ok st opts st' :
  run_make_print_config h st = (Ok opts, st') ->
  exists stdout,
    trace st' = trace st ++
      [EvSpawn false [make_program st; "-s"; "print-config"] (Some (0%Z, stdout))] /\
    opts = parse_print_config stdout.
Proof.
  unfold run_make_print_config, subprocess_check_output, subprocess, bind, get_state.
  destruct (spawn h st false _) as [[[code out]|] fs]; [|discriminate].
  cbn [fst snd]. destruct (Z.eqb code 0) eqn:Hc; [|discriminate]. cbn [negb].
  destruct (Py.is_ascii out); [|discriminate]. cbn [negb]. unfold ret.
  intros [= <- <-]. apply Z.eqb_eq in Hc as ->. eauto.
Qed.

Lemma configure_run_nonempty o options tried res :
  configure_run (o :: options) tried res -> exists t tried', tried = t :: tried'.
Proof. inversion 1; eauto. Qed.

(** The print-config run that a completed vendored configuration holds. *)
Lemma configure_builtin_make_options user_option st b st' :
  configure_builtin h user_option st = (Ok b, st') ->
  exists make stdout,
    EvSpawn false [make; "-s"; "print-config"] (Some (0%Z, stdout)) ∈ trace st' /\
    b_make_options b = parse_print_config stdout.
Proof.
  unfold configure_builtin. intros H.
  apply bind_ok in H as (o & s1 & _ & H).
  apply bind_ok in H as ([] & s2 & _ & H).
  apply bind_ok in H as ([] & s3 & _ & H).
  apply bind_ok in H as (opts & s4 & Hcd & H).
  apply bind_ok in H as ([] & s5 & Hpr & H). injection H as <- <-.
  apply changedir_ok_inv in Hcd as (_ & s3' & Hmk & T4).
  apply run_make_print_config_ok in Hmk as (stdout & T3 & ->).
  assert (Hem : emits (fun _ => True)
            (for_each (parse_print_config stdout)
               (fun kv => print ("# pysam: htslib_config " +:+ fst kv +:+ "=" +:+ snd kv))))
    by frame.
  destruct (Hem _ _ _ Hpr) as (evs & T5 & _).
  eexists _, stdout. split; [|reflexivity].
  rewrite T5, T4, T3. apply elem_of_app. left. apply elem_of_app. right.
  apply list_elem_of_here.
Qed.

(** A completed vendored configuration ran configure at least once. *)
Lemma configure_builtin_ran_configure user_option st b st' :
  wf_cwd st ->
  configure_builtin h user_option st = (Ok b, st') ->
  exists evs t, trace st' = trace st ++ evs /\ configure_event t ∈ evs.
Proof.
  intros Hwf H. unfold configure_builtin in H.
  apply bind_ok in H as (o & s1 & Hcl & H).
  assert (Hrest : exists evs, trace st' = trace s1 ++ evs).
  { pose proof any_event_io_only as Hio.
    assert (Hem : forall k : M Builtin, emits (fun _ => True) k ->
              k s1 = (Ok b, st') -> exists evs, trace st' = trace s1 ++ evs).
    { intros k Hk Ek. destruct (Hk _ _ _ Ek) as (evs & Tk & _). eauto. }
    eapply Hem; [|exact H]. frame. }
  destruct Hrest as (evs & Tevs).
  assert (Hscript : path_exists st (Py.os_path_join "htslib" "configure") = true).
  { unfold configure_library, bind at 1, get_state at 1 in Hcl.
    destruct (path_exists st _); [done|discriminate]. }
  assert (Hdir : resolve (cwd st) "htslib" ∈ dirs st).
  { unfold configure_library, bind at 1, get_state at 1 in Hcl.
    rewrite Hscript in Hcl. cbn [negb] in Hcl.
    by apply changedir_ok_inv in Hcl as [? _]. }
  destruct (configure_library_spec h "htslib" user_option
              ["--enable-libcurl"; "--disable-libcurl"] st Hwf Hscript Hdir)
    as (res & s1' & prints & tried & E & T & P & R & _).
  rewrite Hcl in E. injection E as <- <-.
  assert (Hne : exists t tried', tried = t :: tried').
  { destruct (effective_env_options st user_option); cbn [option_list app] in R;
      eapply configure_run_nonempty; exact R. }
  destruct Hne as (t & tried' & ->).
  exists ((prints ++ map configure_event (t :: tried')) ++ evs), t.
  rewrite Tevs, T, <- !app_assoc. split; [done|]. cbn [map].
  apply elem_of_app. right. apply elem_of_app. left. apply list_elem_of_here.
Qed.

(** What a completed [resolve_htslib] went through. *)
Lemma resolve_htslib_inv st r st' :
  resolve_htslib h st = (Ok r, st') ->
  exists builtin st0,
    select_artifacts st builtin = Ok r /\
    trace st0 = trace st ++
      [EvPrint (if HAVE_CYTHON h
                then "# pysam: Cython " +:+ cython_version h +:+
                     " is available - using cythonize if necessary"
                else "# pysam: no Cython available - using pre-compiled C");
       EvPrint ("# pysam: htslib mode is " +:+ environ_get st "HTSLIB_MODE" "shared");
       EvPrint ("# pysam: HTSLIB_CONFIGURE_OPTIONS=" +:+
                fmt_opt (environ st !! "HTSLIB_CONFIGURE_OPTIONS"))] /\
    cwd st0 = cwd st /\ dirs st0 = dirs st /\
    if requires_vendored_build (environ_get st "HTSLIB_MODE" "shared")
    then exists b, builtin = Some b /\
           configure_builtin h (environ st !! "HTSLIB_CONFIGURE_OPTIONS") st0 = (Ok b, st')
    else builtin = None /\ st' = st0.
Proof.
  unfold resolve_htslib, bind at 1 2, get_state at 1, print at 1, modify at 1.
  destruct (path_exists st (source_pattern h "htslib")); [|discriminate]. cbn [negb].
  unfold bind at 1 2, print at 1 2, modify at 1 2.
  set (st0 := emit _ (emit _ (emit _ st))). intros H.
  apply bind_ok in H as (builtin & s1 & Hb & H).
  exists builtin, st0.
  destruct (select_artifacts st builtin) as [r'|e] eqn:Esel; [|discriminate].
  injection H as <- <-.
  split; [done|]. split; [by unfold st0; cbn [trace emit]; rewrite <- !app_assoc|].
  split; [done|]. split; [done|].
  destruct (requires_vendored_build _).
  - apply bind_ok in Hb as (b & s2 & Hcb & [= <- <-]). eauto.
  - by injection Hb as <- <-.
Qed.

Lemma select_artifacts_mode st builtin r :
  select_artifacts st builtin = Ok r ->
  HTSLIB_MODE r = environ_get st "HTSLIB_MODE" "shared" /\
  HTSLIB_LIBRARY_DIR r = environ st !! "HTSLIB_LIBRARY_DIR" /\
  HTSLIB_INCLUDE_DIR r = environ st !! "HTSLIB_INCLUDE_DIR".
Proof.
  unfold select_artifacts. destruct (link_mode _ _) as [[]|]; [| | |discriminate].
  - destruct (Dict.get _ _); [|discriminate]. by intros [= <-].
  - by intros [= <-].
  - by intros [= <-].
Qed.

(** The artifact lists of each mode. *)
Lemma select_artifacts_lists st builtin r :
  select_artifacts st builtin = Ok r ->
  match link_mode (HTSLIB_MODE r) (HTSLIB_LIBRARY_DIR r) with
  | Ok External =>
      htslib_objects r = [] /\ separate_htslib_objects r = [] /\
      htslib_library_dirs r = [environ st !! "HTSLIB_LIBRARY_DIR"] /\
      htslib_include_dirs r = [environ st !! "HTSLIB_INCLUDE_DIR"]
  | Ok EmbeddedSeparate =>
      htslib_objects r = ["htslib/libhts.a"] /\
      separate_htslib_objects r = ["htslib/libhts.a"]
  | Ok EmbeddedShared =>
      separate_htslib_objects r = [] /\
      exists objs,
        Dict.get (from_option b_make_options [] builtin) "LIBHTS_OBJS" = Some objs /\
        htslib_objects r = map (Py.os_path_join "htslib") (Py.split_char " " objs)
  | Raise _ => False
  end.
Proof.
  intros H. destruct (select_artifacts_mode _ _ _ H) as (-> & -> & _).
  unfold select_artifacts in H. destruct (link_mode _ _) as [[]|]; [| | |discriminate].
  - destruct (Dict.get _ _) as [objs|] eqn:Eo; [|discriminate]. injection H as <-.
    cbn. eauto.
  - by injection H as <-.
  - by injection H as <-.
Qed.

(** The first module is the foundational one; it carries [htslib_objects],
    the twelve others [separate_htslib_objects]. *)
Lemma modules_extra_objects r :
  exists foundational rest,
    modules h r = foundational :: rest /\
    m_name foundational = "pysam.libchtslib" /\
    m_extra_objects foundational = htslib_objects r /\
    Forall (fun m => m_extra_objects m = separate_htslib_objects r) rest /\
    length rest = 12%nat.
Proof.
  eexists _, _. split; [reflexivity|]. split; [reflexivity|]. split; [reflexivity|].
  split; [|reflexivity]. repeat constructor.
Qed.

Lemma abspath_all_ok d l r : abspath_all h d l = Ok r -> Forall is_Some l.
Proof.
  revert r. induction l as [|[x|] l IH]; intros r; simpl; [constructor| |discriminate].
  destruct (abspath_all h d l) eqn:E; [|discriminate]. intros _.
  constructor; [eauto|]. eapply IH. reflexivity.
Qed.

Lemma build_ext_modules_inv r st exts st' :
  build_ext_modules h r st = (Ok exts, st') ->
  trace st' = trace st /\
  Forall is_Some (htslib_include_dirs r) /\
  exists loc include_dirs, exts = map (CyExtension h st loc include_dirs) (modules h r).
Proof.
  unfold build_ext_modules, bind at 1, get_state at 1.
  destruct (abspath_all h (cwd st) ([Some "pysam"] ++ htslib_library_dirs r)) as [ld|];
    [|discriminate].
  destruct (abspath_all h (cwd st) _) as [incl|] eqn:Ei; [|discriminate].
  unfold bind, modify, ret. intros [= <- <-]. split; [done|]. split; [|eauto].
  apply abspath_all_ok in Ei. apply Forall_app in Ei as [_ Ei].
  by apply Forall_app in Ei as [Ei _].
Qed.

Lemma setup_script_inv st r exts st' :
  setup_script h st = (Ok (r, exts), st') ->
  exists st1, resolve_htslib h st = (Ok r, st1) /\ build_ext_modules h r st1 = (Ok exts, st').
Proof.
  unfold setup_script. intros H.
  apply bind_ok in H as (r' & st1 & Hr & H).
  apply bind_ok in H as (exts' & st2 & Hm & [= <- <- <-]). eauto.
Qed.

(** C2: the mode is fixed by the environment the script starts in, and the
    extra objects of the modules follow it: the archive htslib/libhts.a on
    every module when the vendored library is linked separately; on the
    foundational module the object files that [make print-config] lists
    (each joined to the htslib directory), and nothing on the others, when
    it is shared; nothing on any module when the library is external. *)
Theorem artifacts_match_link_mode (st : State) (r : Resolved) (exts : list Extension)
    (st' : State) :
  setup_script h st = (Ok (r, exts), st') ->
  HTSLIB_MODE r = environ_get st "HTSLIB_MODE" "shared" /\
  HTSLIB_LIBRARY_DIR r = environ st !! "HTSLIB_LIBRARY_DIR" /\
  exists foundational rest,
    exts = foundational :: rest /\ ext_name foundational = "pysam.libchtslib" /\
    length rest = 12%nat /\
    match link_mode (HTSLIB_MODE r) (HTSLIB_LIBRARY_DIR r) with
    | Ok EmbeddedSeparate =>
        Forall (fun e => ext_extra_objects e = ["htslib/libhts.a"]) exts
    | Ok EmbeddedShared =>
        (exists make stdout objs,
           EvSpawn false [make; "-s"; "print-config"] (Some (0%Z, stdout)) ∈ trace st' /\
           Dict.get (parse_print_config stdout) "LIBHTS_OBJS" = Some objs /\
           ext_extra_objects foundational =
             map (Py.os_path_join "htslib") (Py.split_char " " objs)) /\
        Forall (fun e => ext_extra_objects e = []) rest
    | Ok External => Forall (fun e => ext_extra_objects e = []) exts
    | Raise _ => False
    end.
Proof.
  intros H. apply setup_script_inv in H as (st1 & Hr & Hm).
  apply build_ext_modules_inv in Hm as (Tm & _ & loc & incl & ->).
  apply resolve_htslib_inv in Hr as (builtin & st0 & Hsel & _ & _ & _ & Hb).
  destruct (select_artifacts_mode _ _ _ Hsel) as (Hmode & Hlib & _).
  pose proof (select_artifacts_lists _ _ _ Hsel) as Hl.
  destruct (modules_extra_objects r) as (m0 & ms & Em & Hname & Hobj & Hrest & Hlen).
  split; [done|]. split; [done|].
  rewrite Em. cbn [map]. eexists _, _. split; [reflexivity|]. split; [exact Hname|].
  split; [by rewrite length_map|].
  assert (Hmap : forall objs, separate_htslib_objects r = objs ->
            Forall (fun e => ext_extra_objects e = objs)
                   (map (CyExtension h st1 loc incl) ms)).
  { intros objs Ho. apply Forall_map. eapply Forall_impl; [exact Hrest|].
    intros m Hm. cbn. by rewrite Hm. }
  destruct (link_mode (HTSLIB_MODE r) (HTSLIB_LIBRARY_DIR r)) as [[]|e] eqn:El; [| | |done].
  - destruct Hl as (Hsep & objs & Hget & Hho). split; [|by apply Hmap].
    assert (Hv : requires_vendored_build (environ_get st "HTSLIB_MODE" "shared") = true).
    { rewrite <- Hmode. unfold link_mode in El. unfold requires_vendored_build.
      destruct (truthy _); [discriminate|].
      destruct (String.eqb (HTSLIB_MODE r) "separate"); [discriminate|].
      destruct (String.eqb (HTSLIB_MODE r) "shared"); [done|discriminate]. }
    rewrite Hv in Hb. destruct Hb as (b & -> & Hcb).
    destruct (configure_builtin_make_options _ _ _ _ Hcb) as (make & stdout & Hin & Hopts).
    exists make, stdout, objs. rewrite Tm. split; [done|].
    cbn [from_option] in Hget. rewrite Hopts in Hget. split; [done|].
    cbn [CyExtension ext_extra_objects]. by rewrite Hobj.
  - destruct Hl as (Ho & Hsep). constructor; [by cbn; rewrite Hobj|by apply Hmap].
  - destruct Hl as (Ho & Hsep & _). constructor; [by cbn; rewrite Hobj|by apply Hmap].
Qed.

(** C1 as the code has it: the external branch is taken exactly when
    HTSLIB_LIBRARY_DIR is set and not empty; a run that gets as far as the
    module list then had HTSLIB_INCLUDE_DIR set too, and the two search-path
    lists hold exactly these two values.  Whether configure runs does not
    depend on the directories: the script runs it when HTSLIB_MODE is
    'shared' (the default) or 'separate', and runs no program at all - nor
    does the pre-build hook later - for any other HTSLIB_MODE. *)
Theorem external_mode_selection (st : State) (r : Resolved) (exts : list Extension)
    (st' : State) :
  wf_cwd st ->
  setup_script h st = (Ok (r, exts), st') ->
  let libdir := environ st !! "HTSLIB_LIBRARY_DIR" in
  let incdir := environ st !! "HTSLIB_INCLUDE_DIR" in
  (link_mode (HTSLIB_MODE r) (HTSLIB_LIBRARY_DIR r) = Ok External <-> truthy libdir = true) /\
  (truthy libdir = true ->
     is_Some incdir /\ htslib_library_dirs r = [libdir] /\ htslib_include_dirs r = [incdir]) /\
  exists evs, trace st' = trace st ++ evs /\
    if requires_vendored_build (HTSLIB_MODE r)
    then exists t, configure_event t ∈ evs
    else Forall (fun e => is_spawn e = false) evs /\
         forall ext force st2,
           prebuild_libchtslib h (HTSLIB_MODE r) ext force st2 = (Ok tt, st2).
Proof.
  intros Hwf H libdir incdir. apply setup_script_inv in H as (st1 & Hr & Hm).
  apply build_ext_modules_inv in Hm as (Tm & Hinc & _).
  apply resolve_htslib_inv in Hr as (builtin & st0 & Hsel & T0 & C0 & D0 & Hb).
  destruct (select_artifacts_mode _ _ _ Hsel) as (Hmode & Hlib & Hincl).
  pose proof (select_artifacts_lists _ _ _ Hsel) as Hl.
  assert (Hiff : link_mode (HTSLIB_MODE r) (HTSLIB_LIBRARY_DIR r) = Ok External <->
                 truthy libdir = true).
  { rewrite Hlib. fold libdir. unfold link_mode. destruct (truthy libdir); [done|].
    split; [|done].
    destruct (String.eqb _ "separate"); [done|]. by destruct (String.eqb _ "shared"). }
  split; [exact Hiff|]. split.
  - intros Ht. apply Hiff in Ht. rewrite Ht in Hl. destruct Hl as (_ & _ & Hld & Hid).
    split_and!; try done. rewrite Hid in Hinc. by inversion Hinc.
  - rewrite Hmode. destruct (requires_vendored_build _) eqn:Hv.
    + destruct Hb as (b & -> & Hcb).
      destruct (configure_builtin_ran_configure
                  (environ st !! "HTSLIB_CONFIGURE_OPTIONS") st0 b st1) as (evs & t & Te & Hin);
        [by destruct Hwf; split; congruence | exact Hcb |].
      eexists. rewrite Tm, Te, T0, <- app_assoc. split; [reflexivity|].
      exists t. apply elem_of_app. by right.
    + destruct Hb as (-> & ->). eexists. rewrite Tm, T0. split; [reflexivity|].
      split; [repeat constructor|].
      intros ext force st2. unfold prebuild_libchtslib. by rewrite Hv.
Qed.

End Resolver.

(** ** The symbol conflict check (C6) *)

Section DictFacts.

Context {V : Type}.

Lemma dict_get_set_eq (d : Dict.t V) k v : Dict.get (Dict.set d k v) k = Some v.
Proof.
  induction d as [|[k' v'] d IH]; simpl.
  - by rewrite String.eqb_refl.
  - destruct (String.eqb k' k) eqn:E; simpl; by rewrite E.
Qed.

Lemma dict_get_set_ne (d : Dict.t V) k k' v :
  k <> k' -> Dict.get (Dict.set d k v) k' = Dict.get d k'.
Proof.
  intros Hne. induction d as [|[k0 v0] d IH]; simpl.
  - by apply String.eqb_neq in Hne as ->.
  - destruct (String.eqb k0 k) eqn:E; simpl.
    + apply String.eqb_eq in E as ->. by apply String.eqb_neq in Hne as ->.
    + by rewrite IH.
Qed.

Lemma dict_keys_set (d : Dict.t V) k v :
  Dict.keys (Dict.set d k v) =
    if bool_decide (k ∈ Dict.keys d) then Dict.keys d else Dict.keys d ++ [k].
Proof.
  unfold Dict.keys. induction d as [|[k0 v0] d IH]; simpl; [done|].
  destruct (String.eqb k0 k) eqn:E; simpl.
  - apply String.eqb_eq in E as ->. rewrite bool_decide_true by left. done.
  - rewrite IH. apply String.eqb_neq in E.
    destruct (bool_decide (k ∈ map fst d)) eqn:Eb.
    + apply bool_decide_eq_true in Eb. rewrite bool_decide_true by by right. done.
    + apply bool_decide_eq_false in Eb. rewrite bool_decide_false; [done|].
      intros [?|?]%elem_of_cons; congruence.
Qed.

Lemma dict_keys_set_nodup (d : Dict.t V) k v :
  NoDup (Dict.keys d) -> NoDup (Dict.keys (Dict.set d k v)).
Proof.
  intros Hnd. rewrite dict_keys_set. case_bool_decide as Hin; [done|].
  apply NoDup_app. split_and!; [done| |apply NoDup_singleton].
  intros x Hx ->%list_elem_of_singleton. done.
Qed.

Lemma dict_get_elem_of (d : Dict.t V) k v :
  NoDup (Dict.keys d) -> (k, v) ∈ d <-> Dict.get d k = Some v.
Proof.
  unfold Dict.keys. induction d as [|[k0 v0] d IH]; simpl; intros Hnd.
  - split; [inversion 1|discriminate].
  - apply NoDup_cons in Hnd as [Hk0 Hnd]. rewrite elem_of_cons.
    destruct (String.eqb k0 k) eqn:E.
    + apply String.eqb_eq in E as ->. split.
      * intros [[= ->]|Hin]; [done|]. exfalso. apply Hk0.
        apply list_elem_of_fmap. by exists (k, v).
      * intros [= ->]. by left.
    + apply String.eqb_neq in E. rewrite <- (IH Hnd). split.
      * intros [[= -> ->]|?]; [done|done].
      * by right.
Qed.

(** The only entry of a dictionary that satisfies a test. *)
Lemma dict_filter_unique (P : string * V -> bool) (d : Dict.t V) k v :
  NoDup (Dict.keys d) -> (k, v) ∈ d -> P (k, v) = true ->
  (forall x, x ∈ d -> P x = true -> fst x = k) ->
  List.filter P d = [(k, v)].
Proof.
  unfold Dict.keys. induction d as [|[k0 v0] d IH]; simpl; intros Hnd Hin HP Hall.
  - inversion Hin.
  - apply NoDup_cons in Hnd as [Hk0 Hnd].
    assert (Hnone : forall d', (forall x, x ∈ d' -> P x = true -> fst x = k) ->
              k ∉ map fst d' -> List.filter P d' = []).
    { induction d' as [|y d' IH']; simpl; intros Hy Hk; [done|].
      destruct (P y) eqn:Ey.
      - exfalso. apply Hk. rewrite <- (Hy y); [by left|by left|done].
      - apply IH'; [intros x Hx Px; apply Hy; [by right|done] |].
        intros ?. apply Hk. by right. }
    apply elem_of_cons in Hin as [[= <- <-]|Hin].
    + rewrite HP. f_equal. apply Hnone; [|done]. intros x Hx. apply Hall. by right.
    + destruct (P (k0, v0)) eqn:E0.
      * exfalso. apply Hk0.
        assert (k0 = k) as -> by (apply (Hall (k0, v0)); [by left|done]).
        apply list_elem_of_fmap. by exists (k, v).
      * apply IH; try done. intros x Hx. apply Hall. by right.
Qed.

End DictFacts.

Section Conflicts.

Context (h : Host).

Lemma record_symbols_get lbl syms : forall d k,
  NoDup syms ->
  Dict.get (record_symbols lbl d syms) k =
    if bool_decide (k ∈ syms) then Some (default [] (Dict.get d k) ++ [lbl]) else Dict.get d k.
Proof.
  unfold record_symbols. induction syms as [|s syms IH]; intros d k Hnd; cbn [foldl].
  - by rewrite bool_decide_false by inversion 1.
  - apply NoDup_cons in Hnd as [Hs Hnd]. rewrite IH by done.
    destruct (decide (k = s)) as [->|Hne].
    + rewrite (bool_decide_false (s ∈ syms)) by done.
      rewrite bool_decide_true by left. apply dict_get_set_eq.
    + rewrite dict_get_set_ne by done.
      destruct (bool_decide (k ∈ syms)) eqn:Eb.
      * apply bool_decide_eq_true in Eb. by rewrite bool_decide_true by by right.
      * apply bool_decide_eq_false in Eb. rewrite bool_decide_false; [done|].
        intros [?|?]%elem_of_cons; congruence.
Qed.

Lemma record_symbols_nodup lbl syms : forall d,
  NoDup (Dict.keys d) -> NoDup (Dict.keys (record_symbols lbl d syms)).
Proof.
  unfold record_symbols. induction syms as [|s syms IH]; intros d Hnd; simpl; [done|].
  apply IH. by apply dict_keys_set_nodup.
Qed.

Lemma run_nm_eval syms exts ext st :
  nm_reports h syms exts -> ext ∈ exts ->
  exists st' reply,
    run_nm_defined_symbols h (get_ext_fullpath h (ext_name ext)) st = (Ok (syms ext), st') /\
    trace st' = trace st ++
      [EvSpawn false ["nm"; "-g"; "-P"; get_ext_fullpath h (ext_name ext)] reply].
Proof.
  intros Hnm Hin. destruct (Hnm st ext Hin) as (out & Hsp & Hascii & Hsyms).
  unfold run_nm_defined_symbols, subprocess_check_output, subprocess, bind.
  destruct (spawn h st false _) as [reply fs]. cbn [fst] in Hsp. subst reply.
  cbn [fst snd Z.eqb negb]. rewrite Hascii. cbn [negb]. unfold ret at 1.
  rewrite Hsyms. unfold ret. eauto.
Qed.

Lemma owners_cons syms e exts sym :
  owners syms (e :: exts) sym =
    if bool_decide (sym ∈ syms e) then label e :: owners syms exts sym
    else owners syms exts sym.
Proof.
  unfold owners. rewrite filter_cons. case_decide.
  - by rewrite bool_decide_true.
  - by rewrite bool_decide_false.
Qed.

(** After the first loop every symbol is mapped to its owners, in order. *)
Lemma collect_symbols_spec syms all exts : forall d st,
  nm_reports h syms all -> exts ⊆ all -> NoDup (Dict.keys d) ->
  exists d' st' evs,
    collect_symbols h exts d st = (Ok d', st') /\
    trace st' = trace st ++ evs /\ Forall (fun e => is_spawn e = true) evs /\
    NoDup (Dict.keys d') /\
    forall k, Dict.get d' k =
      match owners syms exts k with
      | [] => Dict.get d k
      | o :: os => Some (default [] (Dict.get d k) ++ o :: os)
      end.
Proof.
  induction exts as [|ext exts IH]; intros d st Hnm Hsub Hnd.
  - exists d, st, []. simpl. rewrite app_nil_r. split_and!; try done.
  - cbn [collect_symbols]. unfold bind.
    destruct (run_nm_eval syms all ext st Hnm) as (st1 & reply & E1 & T1);
      [apply Hsub; by left|].
    rewrite E1.
    set (d1 := record_symbols _ d _).
    destruct (IH d1 st1 Hnm) as (d' & st' & evs & E & T & F & Hnd' & Hget).
    { intros x Hx. apply Hsub. by right. }
    { by apply record_symbols_nodup. }
    eexists d', st', (_ :: evs). rewrite E, T, T1, <- app_assoc.
    split_and!; try done; [by constructor|].
    intros k. rewrite Hget, owners_cons. unfold d1.
    rewrite record_symbols_get by apply NoDup_elements.
    rewrite (bool_decide_ext (k ∈ elements (syms ext)) (k ∈ syms ext))
      by apply elem_of_elements.
    destruct (bool_decide (k ∈ syms ext)); [|done].
    destruct (owners syms exts k); cbn [default]; [done|].
    unfold id, label. by rewrite <- app_assoc.
Qed.

Lemma report_conflicts_spec items : forall errors st,
  exists st',
    report_conflicts items errors st =
      (Ok (errors + length (List.filter conflicting items))%nat, st') /\
    trace st' = trace st ++ map conflict_event (List.filter conflicting items).
Proof.
  induction items as [|[sym objs] items IH]; intros errors st.
  - exists st. simpl. rewrite app_nil_r, Nat.add_0_r. done.
  - cbn [report_conflicts List.filter].
    change (Nat.ltb 1 (length objs)) with (conflicting (sym, objs)).
    destruct (conflicting (sym, objs)).
    + unfold bind, log, modify.
      destruct (IH (S errors) (emit (EvLog ERROR (conflict_message sym objs)) st))
        as (st' & E & T).
      exists st'. rewrite E, T. cbn [trace emit length map]. rewrite <- app_assoc.
      split; [f_equal; f_equal; lia | done].
    + apply IH.
Qed.

Lemma filter_length_two {A} (P : A -> Prop) `{forall x, Decision (P x)} (l : list A) :
  (1 < length (filter P l))%nat <->
  exists i j x y, (i < j)%nat /\ l !! i = Some x /\ l !! j = Some y /\ P x /\ P y.
Proof.
  induction l as [|a l IH].
  - simpl. split; [lia|]. intros (i & j & x & y & _ & Hx & _). by destruct i.
  - rewrite filter_cons. split.
    + case_decide as Ha; cbn [length]; intros Hlen.
      * destruct (filter P l) as [|b l'] eqn:Ef; [simpl in Hlen; lia|].
        assert (Hb : b ∈ filter P l) by (rewrite Ef; left).
        apply list_elem_of_filter in Hb as [Pb Hb].
        apply list_elem_of_lookup in Hb as [j Hj].
        exists 0%nat, (S j), a, b. split_and!; try done. lia.
      * apply IH in Hlen as (i & j & x & y & Hij & Hx & Hy & Px & Py).
        exists (S i), (S j), x, y. split_and!; try done. lia.
    + intros (i & j & x & y & Hij & Hx & Hy & Px & Py).
      destruct i as [|i].
      * injection Hx as ->. rewrite decide_True by done. cbn [length].
        destruct j as [|j]; [lia|]. cbn in Hy.
        assert (Hin : y ∈ filter P l).
        { apply list_elem_of_filter. split; [done|]. apply list_elem_of_lookup. eauto. }
        destruct (filter P l); [inversion Hin|]. simpl. lia.
      * destruct j as [|j]; [lia|]. cbn in Hx, Hy.
        assert (Hl : (1 < length (filter P l))%nat).
        { apply IH. exists i, j, x, y. split_and!; try done. lia. }
        case_decide; cbn [length]; lia.
Qed.

Lemma owners_twice syms exts sym :
  (1 < length (owners syms exts sym))%nat <-> defined_twice syms exts sym.
Proof.
  unfold owners, defined_twice. rewrite length_map, filter_length_two. done.
Qed.

End Conflicts.

Section ConflictCheck.

Context (h : Host).

(** What [check_ext_symbol_conflicts] does when nm works. *)
Lemma check_ext_symbol_conflicts_spec syms self st :
  nm_reports h syms (ext_modules self) ->
  exists st' spawns conflicts,
    check_ext_symbol_conflicts h self st =
      (match conflicts with [] => Ok tt | _ :: _ => Raise link_error end, st') /\
    trace st' = trace st ++ spawns ++ map conflict_event conflicts /\
    Forall (fun e => is_spawn e = true) spawns /\
    (conflicts <> [] <-> exists sym, defined_twice syms (ext_modules self) sym) /\
    (forall e1 e2 foo, ext_modules self = [e1; e2] -> syms e1 ∩ syms e2 = {[foo]} ->
       conflicts = [(foo, [label e1; label e2])]).
Proof.
  intros Hnm. unfold check_ext_symbol_conflicts, bind.
  destruct (collect_symbols_spec h syms (ext_modules self) (ext_modules self) [] st Hnm)
    as (d & st1 & spawns & E & T & F & Hnd & Hget); [done|constructor|].
  rewrite E. destruct (report_conflicts_spec d 0%nat st1) as (st2 & E2 & T2). rewrite E2.
  cbn [Nat.add].
  assert (Hd : forall k os, (k, os) ∈ d <-> os = owners syms (ext_modules self) k /\ os <> []).
  { intros k os. rewrite (dict_get_elem_of d k os Hnd), Hget. cbn [Dict.get default].
    destruct (owners syms (ext_modules self) k); cbn [default app];
      [split; [discriminate | intros [-> ?]; done]|].
    split; [intros [= <-]; done | intros [-> _]; done]. }
  exists st2, spawns, (List.filter conflicting d).
  split.
  { destruct (List.filter conflicting d); reflexivity. }
  split; [by rewrite T2, T, <- app_assoc|]. split; [exact F|]. split.
  - split.
    + intros Hne. destruct (List.filter conflicting d) as [|[k os] l] eqn:Ef; [done|].
      assert (Hin : (k, os) ∈ List.filter conflicting d) by (rewrite Ef; left).
      apply list_elem_of_In, filter_In in Hin as [Hin Hc]. apply list_elem_of_In in Hin.
      apply Hd in Hin as [-> _]. exists k. apply owners_twice.
      unfold conflicting in Hc. cbn [snd] in Hc. by apply Nat.ltb_lt in Hc.
    + intros [sym Hs]. apply owners_twice in Hs.
      assert (Hin : (sym, owners syms (ext_modules self) sym) ∈ List.filter conflicting d).
      { apply list_elem_of_In, filter_In. split.
        - apply list_elem_of_In, Hd. split; [done|]. intros Hn. rewrite Hn in Hs.
          simpl in Hs. lia.
        - unfold conflicting. cbn [snd]. by apply Nat.ltb_lt. }
      intros Hn. rewrite Hn in Hin. inversion Hin.
  - intros e1 e2 foo Hexts Hfoo.
    assert (Hsub : forall k, (1 < length (owners syms [e1; e2] k))%nat -> k = foo).
    { intros k. rewrite !owners_cons. unfold owners. rewrite filter_nil. cbn [map].
      intros Hlen. assert (Hk : k ∈ syms e1 ∩ syms e2).
      { apply elem_of_intersection. repeat case_bool_decide; simpl in Hlen; try lia. done. }
      rewrite Hfoo in Hk. by apply elem_of_singleton in Hk. }
    assert (Hfoo12 : foo ∈ syms e1 /\ foo ∈ syms e2).
    { apply elem_of_intersection. rewrite Hfoo. by apply elem_of_singleton. }
    assert (Hown : owners syms [e1; e2] foo = [label e1; label e2]).
    { rewrite !owners_cons. unfold owners. rewrite filter_nil. cbn [map].
      destruct Hfoo12. by rewrite !bool_decide_true. }
    rewrite Hexts in Hd.
    apply dict_filter_unique; [done| | |].
    + apply Hd. rewrite Hown. done.
    + reflexivity.
    + intros [k os] Hin Hc. cbn [fst]. apply Hd in Hin as [-> _].
      apply Hsub. unfold conflicting in Hc. cbn [snd] in Hc. by apply Nat.ltb_lt in Hc.
Qed.

Lemma super_run_ext_modules mode self st self1 st1 :
  super_run h mode self st = (Ok self1, st1) -> ext_modules self1 = ext_modules self.
Proof.
  unfold super_run. destruct (ext_modules self) eqn:E; [by intros [= <- _]|].
  unfold build_extensions. intros H.
  apply bind_ok in H as (flags & s1 & _ & H).
  apply bind_ok in H as ([] & s2 & _ & [= <- <-]). done.
Qed.

(** C6 as the code has it: after a build that went through, with nm working
    on every module, and HTSLIB_MODE other than 'separate', [run] ends with
    the link error exactly when some symbol is defined by two modules of
    the list, and for two modules that share the one symbol foo the error
    log holds exactly one entry, naming both; with HTSLIB_MODE 'separate'
    nothing is checked and [run] returns normally.  (The test is on the
    requested HTSLIB_MODE, whatever directories were supplied.) *)
Theorem symbol_conflicts_fail_the_run (mode : string) (self self1 : cy_build_ext)
    (st st1 : State) (syms : Extension -> gset string) :
  (let* _ := strip_bundle h in super_run h mode self) st = (Ok self1, st1) ->
  nm_reports h syms (ext_modules self) ->
  exists res st' evs,
    run h mode self st = (res, st') /\ trace st' = trace st1 ++ evs /\
    if String.eqb mode "separate" then res = Ok tt /\ evs = []
    else
      (res = Raise link_error <-> exists sym, defined_twice syms (ext_modules self) sym) /\
      (res = Ok tt <-> ~ exists sym, defined_twice syms (ext_modules self) sym) /\
      (forall e1 e2 foo, ext_modules self = [e1; e2] -> syms e1 ∩ syms e2 = {[foo]} ->
         List.filter is_error_log evs =
           [EvLog ERROR (conflict_message foo [label e1; label e2])]).
Proof.
  intros Hbuild Hnm.
  apply bind_ok in Hbuild as ([] & s0 & Hstrip & Hsuper).
  pose proof (super_run_ext_modules _ _ _ _ _ Hsuper) as Hexts.
  unfold run. rewrite (bind_run _ _ _ _ _ Hstrip), (bind_run _ _ _ _ _ Hsuper).
  unfold try_except. destruct (String.eqb mode "separate"); cbn [negb].
  - exists (Ok tt), st1, []. by rewrite app_nil_r.
  - rewrite <- Hexts in Hnm.
    destruct (check_ext_symbol_conflicts_spec syms self1 st1 Hnm)
      as (st' & spawns & conflicts & E & T & F & Hiff & Htwo).
    rewrite Hexts in Hiff, Htwo. rewrite E.
    assert (Hfilter : List.filter is_error_log (spawns ++ map conflict_event conflicts)
                      = map conflict_event conflicts).
    { rewrite List.filter_app.
      assert (H1 : List.filter is_error_log spawns = []).
      { clear -F. induction F as [|e l He _ IH]; [done|]. simpl. rewrite IH.
        by destruct e as [| [] | | | |]. }
      assert (H2 : forall l, List.filter is_error_log (map conflict_event l)
                             = map conflict_event l).
      { induction l as [|x l IH]; [done|]. simpl. by rewrite IH. }
      by rewrite H1, H2. }
    destruct conflicts as [|c conflicts].
    + exists (Ok tt), st', (spawns ++ []). split; [done|]. split; [done|]. split_and!.
      * split; [discriminate|]. intros Hs. by apply Hiff in Hs.
      * split; [|done]. intros _ Hs. by apply Hiff in Hs.
      * intros e1 e2 foo H1 H2. discriminate (Htwo e1 e2 foo H1 H2).
    + exists (Raise link_error), st', (spawns ++ map conflict_event (c :: conflicts)).
      split; [done|]. split; [done|]. split_and!.
      * split; [intros _; by apply Hiff|done].
      * split; [discriminate|]. intros Hn. exfalso. apply Hn. by apply Hiff.
      * intros e1 e2 foo H1 H2. rewrite Hfilter, (Htwo e1 e2 foo H1 H2). reflexivity.
Qed.

End ConflictCheck.

(** * Further properties of the script *)

(** ** Strings *)

Lemma str_in_char c s : Py.str_in (String c "") s = Py.char_in c s.
Proof.
  induction s as [|a s IH]; [reflexivity|].
  cbn [Py.str_in Py.is_prefix Py.char_in]. rewrite IH.
  destruct (Ascii.eqb a c); reflexivity.
Qed.

Lemma split_char_no_sep c s : Py.char_in c s = false -> Py.split_char c s = [s].
Proof.
  induction s as [|a s IH]; [reflexivity|]. cbn [Py.char_in Py.split_char].
  destruct (Ascii.eqb a c); [discriminate|]. intros H. rewrite (IH H). reflexivity.
Qed.

Lemma split_char_pieces c s : Forall (fun w => Py.char_in c w = false) (Py.split_char c s).
Proof.
  induction s as [|a s IH]; [by repeat constructor|]. cbn [Py.split_char].
  destruct (Ascii.eqb a c) eqn:E; [by constructor|].
  destruct (Py.split_char c s) as [|w ws].
  - repeat constructor. cbn. by rewrite E.
  - inversion IH; subst. constructor; [|done]. cbn. by rewrite E.
Qed.

Lemma split_char_app_sep c x s :
  Py.char_in c x = false -> Py.split_char c (x +:+ String c s) = x :: Py.split_char c s.
Proof.
  induction x as [|a x IH]; cbn [Py.char_in].
  - intros _. change (Py.split_char c (String c s) = "" :: Py.split_char c s).
    cbn [Py.split_char]. by rewrite Ascii.eqb_refl.
  - destruct (Ascii.eqb a c) eqn:E; [discriminate|]. intros H.
    change (Py.split_char c (String a (x +:+ String c s)) = String a x :: Py.split_char c s).
    cbn [Py.split_char]. rewrite E, (IH H). reflexivity.
Qed.

Lemma list_of_rev_app s acc :
  list_ascii_of_string (String.rev_app s acc) =
    rev (list_ascii_of_string s) ++ list_ascii_of_string acc.
Proof.
  revert acc. induction s as [|a s IH]; intros acc; [reflexivity|].
  cbn [String.rev_app list_ascii_of_string]. rewrite IH. cbn [list_ascii_of_string rev].
  by rewrite <- app_assoc.
Qed.

Lemma list_of_rev s : list_ascii_of_string (String.rev s) = rev (list_ascii_of_string s).
Proof. unfold String.rev. rewrite list_of_rev_app. apply app_nil_r. Qed.

Lemma string_rev_involutive s : String.rev (String.rev s) = s.
Proof.
  rewrite <- (string_of_list_ascii_of_string (String.rev (String.rev s))).
  rewrite !list_of_rev, rev_involutive. apply string_of_list_ascii_of_string.
Qed.

Lemma char_in_list c s : Py.char_in c s = true <-> c ∈ list_ascii_of_string s.
Proof.
  induction s as [|a s IH]; cbn [Py.char_in list_ascii_of_string].
  - split; [discriminate|]. intros H. by apply elem_of_nil in H.
  - destruct (Ascii.eqb a c) eqn:E.
    + apply Ascii.eqb_eq in E as ->. split; [|done]. intros _. apply list_elem_of_here.
    + rewrite IH. split; [apply list_elem_of_further|].
      intros [->|?]%elem_of_cons; [|done]. by rewrite Ascii.eqb_refl in E.
Qed.

Lemma lstrip_suffix s :
  exists pre, list_ascii_of_string s = pre ++ list_ascii_of_string (Py.lstrip s).
Proof.
  induction s as [|a s [pre IH]]; [by exists []|]. cbn [Py.lstrip].
  destruct (Py.isspace a).
  - exists (a :: pre). cbn [list_ascii_of_string]. by rewrite IH.
  - by exists [].
Qed.

Lemma elem_of_rev {A} (x : A) l : x ∈ rev l <-> x ∈ l.
Proof. rewrite !list_elem_of_In. symmetry. apply in_rev. Qed.

Lemma strip_chars c s : c ∈ list_ascii_of_string (Py.strip s) -> c ∈ list_ascii_of_string s.
Proof.
  unfold Py.strip, Py.rstrip. rewrite list_of_rev, elem_of_rev. intros Hc.
  destruct (lstrip_suffix (String.rev (Py.lstrip s))) as [pre Hpre].
  assert (c ∈ list_ascii_of_string (String.rev (Py.lstrip s))) as Hc'.
  { rewrite Hpre. apply elem_of_app. by right. }
  rewrite list_of_rev, elem_of_rev in Hc'.
  destruct (lstrip_suffix s) as [pre' ->]. apply elem_of_app. by right.
Qed.

Lemma char_in_strip c s : Py.char_in c s = false -> Py.char_in c (Py.strip s) = false.
Proof.
  intros H. destruct (Py.char_in c (Py.strip s)) eqn:E; [|done].
  apply char_in_list, strip_chars, char_in_list in E. congruence.
Qed.

Lemma lstrip_no_space s : no_space s = true -> Py.lstrip s = s.
Proof.
  destruct s as [|a s]; [done|]. unfold no_space. cbn [list_ascii_of_string forallb Py.lstrip].
  destruct (Py.isspace a); [discriminate|done].
Qed.

Lemma no_space_rev s : no_space (String.rev s) = no_space s.
Proof.
  unfold no_space. rewrite list_of_rev.
  apply eq_true_iff_eq. rewrite !forallb_forall.
  split; intros H x Hx; apply H; [by apply in_rev in Hx | by apply in_rev].
Qed.

Lemma strip_no_space s : no_space s = true -> Py.strip s = s.
Proof.
  intros H. unfold Py.strip, Py.rstrip. rewrite (lstrip_no_space s H).
  rewrite lstrip_no_space; [apply string_rev_involutive|]. by rewrite no_space_rev.
Qed.

(** ** make print-config *)

Lemma parse_print_config_fold stdout :
  parse_print_config stdout = foldl config_step [] (Py.splitlines stdout).
Proof. reflexivity. Qed.

Lemma split_two_has_sep c line k v :
  Py.split_char c line = [k; v] -> Py.str_in (String c "") line = true.
Proof.
  intros H. rewrite str_in_char. destruct (Py.char_in c line) eqn:E; [done|].
  rewrite (split_char_no_sep _ _ E) in H. discriminate.
Qed.

Lemma config_step_two d line k v :
  Py.split_char "=" line = [k; v] ->
  config_step d line = Dict.set d (Py.strip k) (Py.strip v).
Proof.
  intros H. unfold config_step. rewrite (split_two_has_sep "=" line k v H), H. reflexivity.
Qed.

Lemma config_step_cases d line :
  config_step d line = d \/
  exists k v, Py.split_char "=" line = [k; v] /\
              config_step d line = Dict.set d (Py.strip k) (Py.strip v).
Proof.
  unfold config_step. destruct (Py.str_in "=" line); [|by left].
  destruct (Py.split_char "=" line) as [|k [|v [|]]]; eauto.
Qed.

Lemma config_fold_keeps key post : forall d,
  (forall l k' v', l ∈ post -> Py.split_char "=" l = [k'; v'] -> Py.strip k' <> key) ->
  Dict.get (foldl config_step d post) key = Dict.get d key.
Proof.
  induction post as [|l post IH]; intros d Hpost; [reflexivity|]. cbn [foldl].
  rewrite IH by (intros l' k' v' Hl'; apply Hpost; by apply list_elem_of_further).
  destruct (config_step_cases d l) as [->|(k' & v' & Hs & ->)]; [reflexivity|].
  apply dict_get_set_ne. apply (Hpost l k' v'); [apply list_elem_of_here|done].
Qed.

(** X2: in the output of [make print-config] a line with exactly one [=]
    gives the variable named before it the value after it, both stripped;
    of several lines for one variable the last one counts. *)
Theorem print_config_last_definition (stdout : string) (pre post : list string)
    (line k v : string) :
  Py.splitlines stdout = pre ++ line :: post ->
  Py.split_char "=" line = [k; v] ->
  (forall l k' v', l ∈ post -> Py.split_char "=" l = [k'; v'] -> Py.strip k' <> Py.strip k) ->
  Dict.get (parse_print_config stdout) (Py.strip k) = Some (Py.strip v).
Proof.
  intros Hlines Hline Hpost. rewrite parse_print_config_fold, Hlines, foldl_app. cbn [foldl].
  rewrite (config_fold_keeps _ _ _ Hpost), (config_step_two _ _ _ _ Hline).
  apply dict_get_set_eq.
Qed.

Lemma config_fold_provenance lines : forall d key value,
  Dict.get (foldl config_step d lines) key = Some value ->
  Dict.get d key = Some value \/
  exists line k v, line ∈ lines /\ Py.split_char "=" line = [k; v] /\
                   key = Py.strip k /\ value = Py.strip v.
Proof.
  induction lines as [|l lines IH]; intros d key value H; [by left|]. cbn [foldl] in H.
  destruct (IH _ _ _ H) as [Hd|(line & k & v & Hin & Hs & -> & ->)].
  - destruct (config_step_cases d l) as [E|(k & v & Hs & E)]; rewrite E in Hd; [by left|].
    destruct (decide (Py.strip k = key)) as [<-|Hne].
    + rewrite dict_get_set_eq in Hd. injection Hd as <-. right. exists l, k, v.
      split; [apply list_elem_of_here|done].
    + rewrite dict_get_set_ne in Hd by done. by left.
  - right. exists line, k, v. split; [by apply list_elem_of_further|done].
Qed.

(** X3: every variable that [run_make_print_config] reports comes from a line
    with exactly one [=]; neither its name nor its value holds a [=], so a
    line such as [CPPFLAGS = -DX=1] is dropped. *)
Theorem print_config_provenance (stdout key value : string) :
  Dict.get (parse_print_config stdout) key = Some value ->
  (exists line k v, line ∈ Py.splitlines stdout /\ Py.split_char "=" line = [k; v] /\
                    key = Py.strip k /\ value = Py.strip v) /\
  Py.str_in "=" key = false /\ Py.str_in "=" value = false.
Proof.
  intros H. rewrite parse_print_config_fold in H.
  destruct (config_fold_provenance _ _ _ _ H) as [Hd|(line & k & v & Hin & Hs & -> & ->)];
    [discriminate|].
  split; [by exists line, k, v|].
  pose proof (split_char_pieces "=" line) as Hp. rewrite Hs in Hp.
  inversion Hp as [|? ? Hk Hp']; subst. inversion Hp' as [|? ? Hv _]; subst.
  rewrite !str_in_char. split; by apply char_in_strip.
Qed.

(** ** LIBS *)

Lemma char_in_no_space s : no_space s = true -> Py.char_in " " s = false.
Proof.
  intros H. destruct (Py.char_in " " s) eqn:E; [|done].
  apply char_in_list, list_elem_of_In in E. unfold no_space in H.
  rewrite forallb_forall in H. specialize (H _ E). discriminate.
Qed.

Lemma no_space_app a b : no_space (a +:+ b) = no_space a && no_space b.
Proof.
  induction a as [|c a IH]; [reflexivity|].
  change (no_space (String c (a +:+ b)) = no_space (String c a) && no_space b).
  unfold no_space in *. cbn [list_ascii_of_string forallb]. rewrite IH. by rewrite andb_assoc.
Qed.

Lemma substring_all s : String.substring 0 (String.length s) s = s.
Proof. induction s as [|a s IH]; [reflexivity|]. cbn. by rewrite IH. Qed.

Lemma drop_prefix_l n : Py.drop_prefix "-l" ("-l" +:+ n) = n.
Proof.
  unfold Py.drop_prefix. change ("-l" +:+ n) with (String "-" (String "l" n)).
  cbn [Py.is_prefix Ascii.eqb Bool.eqb andb String.length]. cbn [Nat.sub].
  cbn [String.substring]. rewrite Nat.sub_0_r. apply substring_all.
Qed.

Lemma split_join_space l :
  l <> [] -> Forall (fun x => no_space x = true) l -> Py.split_char " " (Py.join " " l) = l.
Proof.
  induction l as [|x l IH]; [done|]. intros _ Hl. inversion Hl as [|? ? Hx Hl']; subst.
  rewrite join_cons. destruct l as [|y l].
  - apply split_char_no_sep, char_in_no_space, Hx.
  - change (x +:+ " " +:+ Py.join " " (y :: l)) with (x +:+ String " " (Py.join " " (y :: l))).
    rewrite split_char_app_sep by (by apply char_in_no_space). by rewrite IH.
Qed.

Lemma filter_all {A} (P : A -> Prop) `{forall x, Decision (P x)} (l : list A) :
  Forall P l -> filter P l = l.
Proof.
  induction 1 as [|x l Hx _ IH]; [reflexivity|]. rewrite filter_cons_True by done. by rewrite IH.
Qed.

(** X17: the libraries taken from LIBS of [make print-config]: from
    [-la -lb ...], names without white space, the script gets exactly the
    names. *)
Theorem libs_of_make_inverts_join (names : list string) :
  Forall (fun n => no_space n = true) names ->
  libs_of_make (Py.join " " (map (fun n => "-l" +:+ n) names)) = names.
Proof.
  intros Hn. unfold libs_of_make. destruct names as [|n names]; [reflexivity|].
  assert (Hl : Forall (fun x => no_space x = true) (map (fun n => "-l" +:+ n) (n :: names))).
  { apply Forall_fmap. eapply Forall_impl; [exact Hn|]. intros x Hx.
    change (no_space ("-l" +:+ x) = true). by rewrite no_space_app, Hx. }
  rewrite split_join_space by done.
  rewrite filter_all.
  - rewrite <- list_fmap_compose. rewrite <- (list_fmap_id (n :: names)) at 2.
    apply list_fmap_ext. intros ? x _. apply drop_prefix_l.
  - apply Forall_fmap. rewrite Forall_forall in Hn. apply Forall_forall. intros x Hx.
    change (Py.strip ("-l" +:+ x) <> "").
    rewrite strip_no_space; [discriminate|]. by rewrite no_space_app, (Hn x Hx).
Qed.

(** ** nm *)

Lemma split_ws_nonempty s : Forall (fun w => w <> "") (Py.split_ws s).
Proof.
  induction s as [|a s IH]; [constructor|]. cbn [Py.split_ws].
  destruct (Py.isspace a); [done|].
  destruct s as [|b s']; [by repeat constructor|].
  destruct (Py.isspace b); [by constructor|].
  destruct (Py.split_ws (String b s')) as [|w ws]; [by repeat constructor|].
  inversion IH; subst. by constructor.
Qed.

Section NmErrors.

Context (h : Host).

Lemma nm_line_raises symbols line e :
  nm_line h symbols line = Raise e <->
  (length (Py.split_ws line) < 2)%nat /\ e = ValueError "not enough values to unpack".
Proof.
  unfold nm_line. pose proof (split_ws_nonempty line) as Hne.
  destruct (Py.split_ws line) as [|sym [|symtype rest]]; cbn [length].
  - split; [intros [= <-]; split; [lia|done] | by intros [_ ->]].
  - split; [intros [= <-]; split; [lia|done] | by intros [_ ->]].
  - inversion Hne as [|? ? Hsym _]; subst.
    split; [|intros [? _]; lia].
    destruct (negb (Py.str_in symtype "UFNWw")); [|done].
    destruct (IS_DARWIN h); [done|].
    destruct sym as [|c sym]; [done|]. by destruct (negb (Py.char_in c "_$.@")).
Qed.

Lemma nm_lines_raises lines : forall symbols e,
  nm_lines h symbols lines = Raise e <->
  (exists line, line ∈ lines /\ (length (Py.split_ws line) < 2)%nat) /\
  e = ValueError "not enough values to unpack".
Proof.
  induction lines as [|line lines IH]; intros symbols e; cbn [nm_lines].
  - split; [done|]. intros [(l & Hl & _) _]. by apply elem_of_nil in Hl.
  - destruct (nm_line h symbols line) as [symbols'|e'] eqn:E.
    + rewrite IH. split; intros [(l & Hl & Hlen) ->]; (split; [|done]).
      * exists l. split; [by apply list_elem_of_further|done].
      * exists l. split; [|done]. apply elem_of_cons in Hl as [->|Hl]; [|done].
        assert (nm_line h symbols line = Raise (ValueError "not enough values to unpack")) as E'
          by (by apply nm_line_raises).
        congruence.
    + apply nm_line_raises in E as [Hlen ->]. split.
      * intros [= <-]. split; [|done]. exists line. split; [apply list_elem_of_here|done].
      * by intros [_ ->].
Qed.

(** X4: reading the output of nm fails exactly when one of its lines has fewer
    than two fields (an empty line, say), and then with [ValueError]; the
    indexing [sym[0]] never fails. *)
Theorem nm_defined_symbols_raises (stdout : string) :
  ((exists e, nm_defined_symbols h stdout = Raise e) <->
   exists line, line ∈ Py.splitlines stdout /\ (length (Py.split_ws line) < 2)%nat) /\
  (forall e, nm_defined_symbols h stdout = Raise e -> exists msg, e = ValueError msg).
Proof.
  unfold nm_defined_symbols.
  destruct (nm_lines h ∅ (Py.splitlines stdout)) as [symbols|e] eqn:E.
  - split; [|discriminate]. split; [by intros [? ?]|]. intros Hl. exfalso.
    assert (nm_lines h ∅ (Py.splitlines stdout) = Raise (ValueError "not enough values to unpack"))
      as E' by (by apply nm_lines_raises).
    congruence.
  - apply nm_lines_raises in E as [Hl ->]. split.
    + split; [done|]. intros _. eauto.
    + intros e [= <-]. eauto.
Qed.

End NmErrors.



Lemma list_of_app a b :
  list_ascii_of_string (a +:+ b) = list_ascii_of_string a ++ list_ascii_of_string b.
Proof.
  induction a as [|c a IH]; [reflexivity|].
  change (list_ascii_of_string (String c (a +:+ b)) = c :: (list_ascii_of_string a ++ list_ascii_of_string b)).
  cbn [list_ascii_of_string]. by rewrite IH.
Qed.

Lemma string_rev_app a b : String.rev (a +:+ b) = String.rev b +:+ String.rev a.
Proof.
  rewrite <- (string_of_list_ascii_of_string (String.rev (a +:+ b))).
  rewrite <- (string_of_list_ascii_of_string (String.rev b +:+ String.rev a)).
  f_equal. by rewrite list_of_app, !list_of_rev, list_of_app, rev_app_distr.
Qed.

Lemma char_in_app c a b : Py.char_in c (a +:+ b) = Py.char_in c a || Py.char_in c b.
Proof.
  induction a as [|x a IH]; [reflexivity|].
  change (Py.char_in c (String x (a +:+ b)) = Py.char_in c (String x a) || Py.char_in c b).
  cbn [Py.char_in]. destruct (Ascii.eqb x c); [reflexivity|exact IH].
Qed.

Lemma char_in_rev c s : Py.char_in c (String.rev s) = Py.char_in c s.
Proof.
  apply eq_true_iff_eq. rewrite !char_in_list, list_of_rev. apply elem_of_rev.
Qed.

Lemma take_to_slash_app y z :
  Py.char_in "/" y = false -> take_to_slash (y +:+ String "/" z) = y.
Proof.
  induction y as [|a y IH]; [reflexivity|]. cbn [Py.char_in].
  destruct (Ascii.eqb a "/") eqn:E; [discriminate|]. intros H.
  change (take_to_slash (String a (y +:+ String "/" z)) = String a y).
  cbn [take_to_slash]. by rewrite E, (IH H).
Qed.

Lemma basename_app x y : Py.char_in "/" y = false -> basename (x +:+ "/" +:+ y) = y.
Proof.
  intros Hy. unfold basename. rewrite !string_rev_app.
  change (String.rev "/") with "/". rewrite string_app_assoc.
  change ("/" +:+ String.rev x) with (String "/" (String.rev x)).
  rewrite take_to_slash_app by (by rewrite char_in_rev). apply string_rev_involutive.
Qed.

Lemma replace_dot_cons a s :
  Py.replace "." "/" (String a s) =
    String (if Ascii.eqb a "." then "/"%char else a) (Py.replace "." "/" s).
Proof.
  unfold Py.replace. cbn [Py.replace_go Py.is_prefix String.length Nat.sub].
  destruct (Ascii.eqb a ".") eqn:E; cbn [andb]; reflexivity.
Qed.

Lemma replace_dot_app a b :
  Py.replace "." "/" (a +:+ b) = Py.replace "." "/" a +:+ Py.replace "." "/" b.
Proof.
  induction a as [|c a IH]; [reflexivity|].
  change (String c a +:+ b) with (String c (a +:+ b)). rewrite !replace_dot_cons, IH. reflexivity.
Qed.

Lemma replace_dot_none s : Py.char_in "." s = false -> Py.replace "." "/" s = s.
Proof.
  induction s as [|a s IH]; [reflexivity|]. cbn [Py.char_in]. rewrite replace_dot_cons.
  destruct (Ascii.eqb a "."); [discriminate|]. intros H. by rewrite (IH H).
Qed.

Section Darwin.
Context (h : Host).

(** X12: on macOS a module [pkg.leaf] is linked with the install name
    [@rpath/leaf<EXT_SUFFIX>]. *)
Theorem darwin_install_name (ext : Extension) (pkg leaf suffix : string) :
  sys_platform h = "darwin" -> sysconfig h !! "EXT_SUFFIX" = Some suffix ->
  ext_name ext = pkg +:+ "." +:+ leaf ->
  Py.char_in "." leaf = false -> Py.char_in "/" leaf = false -> Py.char_in "/" suffix = false ->
  platform_link_args h ext =
    Ok ["-dynamiclib"; "-rpath"; "@loader_path"; "-Wl,-headerpad_max_install_names";
        "-Wl,-install_name,@rpath/" +:+ leaf +:+ suffix; "-Wl,-x"].
Proof.
  intros Hp Hs Hn Hdot Hleaf Hsuf. unfold platform_link_args. rewrite Hp, Hs, Hn.
  cbn [String.eqb Ascii.eqb Bool.eqb andb].
  rewrite !replace_dot_app, (replace_dot_none leaf Hdot).
  change (Py.replace "." "/" ".") with "/".
  rewrite !string_app_assoc, basename_app by (by rewrite char_in_app, Hleaf, Hsuf).
  do 5 f_equal. unfold Py.os_path_join, Py.startswith.
  assert (Hstart : Py.is_prefix "/" (leaf +:+ suffix) = false).
  { assert (Hc : Py.char_in "/" (leaf +:+ suffix) = false) by (by rewrite char_in_app, Hleaf, Hsuf).
    destruct (leaf +:+ suffix) as [|c s]; [done|]. cbn in Hc |- *.
    destruct (Ascii.eqb c "/"); [discriminate|done]. }
  rewrite Hstart. reflexivity.
Qed.

End Darwin.

Section Small.
Context (h : Host).

(** X1: [run_configure] never raises: it runs [./configure <option>] through the
    shell once and answers [True] exactly when configure was started and
    exited with status 0; a shell that cannot be started gives [False].
    Working directory and environment stay as they were. *)
Theorem run_configure_never_raises (option : string) (st : State) :
  exists ok st' reply,
    run_configure h option st = (Ok ok, st') /\
    trace st' = trace st ++ [EvSpawn true ["./configure " +:+ option] reply] /\
    (ok = true <-> exists out, reply = Some (0%Z, out)) /\
    cwd st' = cwd st /\ environ st' = environ st.
Proof.
  rewrite run_configure_eval.
  destruct (spawn h st true [Py.join " " ["./configure"; option]]) as [reply fs] eqn:Es.
  exists (accepted reply), (emit (configure_event (option, reply)) (set_files fs st)), reply.
  cbn [fst snd]. split; [done|]. split; [done|]. split; [|done].
  unfold accepted. destruct reply as [[code out]|].
  - split.
    + intros ->%Z.eqb_eq. by exists out.
    + intros [out' [= -> _]]. done.
  - split; [done|]. intros [out [=]].
Qed.

Lemma str_in_no_space s : no_space s = true -> Py.str_in " " s = false.
Proof. intros H. rewrite str_in_char. by apply char_in_no_space. Qed.

(** X5: the macros that the vendored build gets on its command line are
    spelled as in the CPPFLAGS of the generated headers, as long as no name
    or value holds white space (the headers quote an option with a blank). *)
Theorem macro_options_agree (define_macros : list (string * option string)) :
  Forall (fun pair => no_space (fst pair) = true /\
                      forall v, snd pair = Some v -> no_space v = true) define_macros ->
  map (fun pair => format_macro_option (fst pair) (snd pair)) define_macros =
    optionise "-D" (kvtuples define_macros).
Proof.
  intros H. unfold optionise, kvtuples. rewrite <- list_fmap_compose.
  apply Forall_fmap_ext_1. eapply Forall_impl; [exact H|].
  intros [name [v|]] [Hn Hv]; cbn [fst snd] in *; unfold compose, appendoptvalue, quote;
    cbn [fst snd format_macro_option].
  - rewrite str_in_no_space; [done|].
    rewrite !no_space_app, Hn, (Hv v eq_refl). reflexivity.
  - rewrite str_in_no_space; [done|]. by rewrite no_space_app, Hn.
Qed.

End Small.


Section Scope.
Context (h : Host).

Lemma ccshared_suffix_other var : var <> "CFLAGS" -> ccshared_suffix h var = "".
Proof.
  intros Hne. unfold ccshared_suffix. destruct (String.eqb var "CFLAGS") eqn:E; [|done].
  by apply String.eqb_eq in E.
Qed.

Lemma compiler_envvars_enter_exact vars : forall tmp st,
  NoDup vars ->
  exists tmp' st',
    compiler_envvars_enter h vars tmp st = (Ok tmp', st') /\
    (forall v, v ∈ tmp' <->
       v ∈ tmp \/ (v ∈ vars /\ environ st !! v = None /\ is_Some (sysconfig h !! v))) /\
    (forall k, environ st' !! k =
       if bool_decide (k ∈ vars) then scoped_value h (environ st) k else environ st !! k).
Proof.
  induction vars as [|var vars IH]; intros tmp st Hnd.
  - exists tmp, st. split; [done|]. split.
    + intros v. split; [by left|]. intros [?|[Hv _]]; [done|]. by apply elem_of_nil in Hv.
    + intros k. by rewrite bool_decide_false by apply not_elem_of_nil.
  - apply NoDup_cons in Hnd as [Hvar Hnd].
    assert (Hstep : forall tmp0 st0,
      (forall k, k <> var -> environ st0 !! k = environ st !! k) ->
      environ st0 !! var = scoped_value h (environ st) var ->
      (forall v, v ∈ tmp0 <->
         v ∈ tmp \/ (v = var /\ environ st !! v = None /\ is_Some (sysconfig h !! v))) ->
      exists tmp' st',
        compiler_envvars_enter h vars tmp0 st0 = (Ok tmp', st') /\
        (forall v, v ∈ tmp' <->
           v ∈ tmp \/ (v ∈ var :: vars /\ environ st !! v = None /\
                       is_Some (sysconfig h !! v))) /\
        (forall k, environ st' !! k =
           if bool_decide (k ∈ var :: vars) then scoped_value h (environ st) k
           else environ st !! k)).
    { intros tmp0 st0 Hother Hthis Htmp0.
      destruct (IH tmp0 st0 Hnd) as (tmp' & st' & E & Htmp' & Henv).
      exists tmp', st'. split; [done|]. split.
      - intros v. rewrite Htmp', Htmp0, elem_of_cons. split.
        + intros [[?|(-> & ? & ?)]|(Hv & Hn & Hs)]; [by left|right; by split; [left|]|].
          right. rewrite <- Hother; [by split; [right|]|]. intros ->. done.
        + intros [?|([->|Hv] & Hn & Hs)]; [by left; left|left; by right|].
          right. rewrite Hother; [done|]. intros ->. done.
      - intros k. rewrite Henv. destruct (decide (k = var)) as [->|Hne].
        + rewrite bool_decide_false by done. rewrite bool_decide_true by left. done.
        + rewrite (bool_decide_ext (k ∈ var :: vars) (k ∈ vars)).
          2:{ rewrite elem_of_cons. split; [by intros [?|?]|by right]. }
          unfold scoped_value. rewrite (Hother k Hne). done. }
    cbn [compiler_envvars_enter]. unfold bind at 1, get_state at 1.
    destruct (environ st !! var) as [cur|] eqn:Ecur.
    + destruct (String.eqb var "CFLAGS" && bool_decide (is_Some (sysconfig h !! "CCSHARED")))
        eqn:Ec.
      * cbv [bind setenv modify print]. apply Hstep.
        -- intros k Hk. cbn. by rewrite lookup_insert_ne.
        -- cbn. rewrite lookup_insert_eq. unfold scoped_value. by rewrite Ecur.
        -- intros v. split; [by left|]. intros [?|(-> & Hn & _)]; [done|congruence].
      * cbv [bind ret modify print]. apply Hstep.
        -- done.
        -- cbn. unfold scoped_value. rewrite Ecur. f_equal.
           unfold ccshared_suffix. apply andb_false_iff in Ec as [->|Ec].
           ++ by rewrite string_app_nil_r.
           ++ destruct (String.eqb var "CFLAGS"); [|by rewrite string_app_nil_r].
              destruct (sysconfig h !! "CCSHARED") eqn:Es; [|by rewrite string_app_nil_r].
              rewrite bool_decide_true in Ec by eauto. done.
        -- intros v. split; [by left|]. intros [?|(-> & Hn & _)]; [done|congruence].
    + destruct (sysconfig h !! var) as [v0|] eqn:Esc.
      * cbv [bind setenv modify print]. apply Hstep.
        -- intros k Hk. cbn. by rewrite lookup_insert_ne.
        -- cbn. rewrite lookup_insert_eq. unfold scoped_value. by rewrite Ecur, Esc.
        -- intros v. rewrite elem_of_app, list_elem_of_singleton.
           split; [intros [?| ->]; [by left|right; eauto]|].
           intros [?|[-> _]]; [by left|by right].
      * apply Hstep.
        -- done.
        -- unfold scoped_value. by rewrite Ecur, Esc.
        -- intros v. split; [by left|]. intros [?|(-> & _ & [? Hs])]; [done|congruence].
Qed.

Lemma set_compiler_envvars_steps {A} (body : M A) st :
  preserves environ body ->
  exists tmp st0 rb st1 st2,
    compiler_envvars_enter h ["CC"; "CFLAGS"; "LDFLAGS"] [] st = (Ok tmp, st0) /\
    body st0 = (rb, st1) /\
    set_compiler_envvars h body st = (rb, st2) /\
    (forall v, v ∈ tmp <->
       v ∈ ["CC"; "CFLAGS"; "LDFLAGS"] /\ environ st !! v = None /\
       is_Some (sysconfig h !! v)) /\
    (forall k, environ st0 !! k =
       if bool_decide (k ∈ ["CC"; "CFLAGS"; "LDFLAGS"]) then scoped_value h (environ st) k
       else environ st !! k) /\
    (forall k, environ st2 !! k = if bool_decide (k ∈ tmp) then None else environ st0 !! k).
Proof.
  intros Hb.
  assert (Hnd0 : NoDup (["CC"; "CFLAGS"; "LDFLAGS"] : list string))
    by (apply (bool_decide_unpack _); vm_compute; reflexivity).
  destruct (compiler_envvars_enter_exact ["CC"; "CFLAGS"; "LDFLAGS"] [] st Hnd0)
    as (tmp & st0 & E & Htmp & Henv).
  destruct (compiler_envvars_enter_spec h ["CC"; "CFLAGS"; "LDFLAGS"] [] st)
    as (tmp_ & st0_ & prints & E_ & Hnd & Hin & _); [done|intros v Hv; inversion Hv|].
  rewrite E in E_. injection E_ as <- <-.
  destruct (body st0) as [rb st1] eqn:Eb.
  destruct (for_each_delenv_ok tmp st1 Hnd) as (st2 & E2 & He & _).
  { intros v Hv. rewrite (Hb _ _ _ Eb). auto. }
  exists tmp, st0, rb, st1, st2. split_and!; try done.
  - unfold set_compiler_envvars, bind. rewrite E. unfold try_finally. by rewrite Eb, E2.
  - intros v. rewrite Htmp. split; [intros [Hv|?]; [inversion Hv|done] | by right].
  - intros k. rewrite He, lookup_foldr_delete. rewrite (Hb _ _ _ Eb).
    by rewrite (bool_decide_ext (k ∈ reverse tmp) (k ∈ tmp)) by apply elem_of_reverse.
Qed.

(** X6: the environment after [with set_compiler_envvars(): body], for a body
    that leaves the environment alone: the one before, except that a CFLAGS
    that was set has a blank and CCSHARED appended when sysconfig has
    CCSHARED. *)
Theorem set_compiler_envvars_environ {A} (body : M A) (st : State) :
  preserves environ body ->
  environ (snd (set_compiler_envvars h body st)) =
    match environ st !! "CFLAGS", sysconfig h !! "CCSHARED" with
    | Some v, Some c => <["CFLAGS" := v +:+ " " +:+ c]> (environ st)
    | _, _ => environ st
    end.
Proof.
  intros Hb.
  destruct (set_compiler_envvars_steps body st Hb)
    as (tmp & st0 & rb & st1 & st2 & _ & _ & -> & Htmp & Henv & Hfin).
  cbn [snd]. apply map_eq. intros k. rewrite Hfin, Henv.
  case_bool_decide as Hk.
  - apply Htmp in Hk as (Hk & Hn & _). rewrite <- Hn.
    destruct (environ st !! "CFLAGS") as [v|] eqn:Ev; [|done].
    destruct (sysconfig h !! "CCSHARED"); [|done].
    rewrite lookup_insert_ne; [done|]. intros <-. congruence.
  - case_bool_decide as Hv.
    + unfold scoped_value. destruct (environ st !! k) as [cur|] eqn:Ecur.
      * destruct (decide (k = "CFLAGS")) as [->|Hne].
        -- rewrite Ecur. unfold ccshared_suffix. cbn [String.eqb Ascii.eqb Bool.eqb andb].
           destruct (sysconfig h !! "CCSHARED").
           ++ by rewrite lookup_insert_eq.
           ++ by rewrite string_app_nil_r.
        -- rewrite ccshared_suffix_other, string_app_nil_r by done.
           destruct (environ st !! "CFLAGS"); [|done].
           destruct (sysconfig h !! "CCSHARED"); [|done]. by rewrite lookup_insert_ne.
      * destruct (sysconfig h !! k) as [v0|] eqn:Es.
        -- exfalso. apply Hk, Htmp. eauto.
        -- cbn. destruct (environ st !! "CFLAGS") as [v|] eqn:Ev; [|done].
           destruct (sysconfig h !! "CCSHARED"); [|done].
           rewrite lookup_insert_ne; [done|]. intros <-. congruence.
    + destruct (environ st !! "CFLAGS") as [v|] eqn:Ev; [|done].
      destruct (sysconfig h !! "CCSHARED"); [|done].
      rewrite lookup_insert_ne; [done|]. intros <-. apply Hv.
      apply list_elem_of_further, list_elem_of_here.
Qed.

(** X7: what the body of [with set_compiler_envvars()] sees: CC, CFLAGS and
    LDFLAGS from the environment or else from sysconfig, CFLAGS with
    CCSHARED appended, every other variable as it was; the outcome of the
    body is the outcome of the scope. *)
Theorem set_compiler_envvars_body_sees {A} (body : M A) (st : State) :
  preserves environ body ->
  exists st0 st1,
    body st0 = (fst (set_compiler_envvars h body st), st1) /\
    (forall var, var ∈ ["CC"; "CFLAGS"; "LDFLAGS"] ->
       environ st0 !! var =
         match environ st !! var with
         | Some cur => Some (cur +:+ ccshared_suffix h var)
         | None => (fun v => v +:+ ccshared_suffix h var) <$> sysconfig h !! var
         end) /\
    (forall var, var ∉ ["CC"; "CFLAGS"; "LDFLAGS"] -> environ st0 !! var = environ st !! var).
Proof.
  intros Hb.
  destruct (set_compiler_envvars_steps body st Hb)
    as (tmp & st0 & rb & st1 & st2 & _ & Eb & -> & _ & Henv & _).
  exists st0, st1. split; [done|]. split; intros var Hvar; rewrite Henv.
  - by rewrite bool_decide_true.
  - by rewrite bool_decide_false.
Qed.

End Scope.


Section Relates.

Context (R : State -> State -> Prop) `{!PreOrder R}.

Lemma relates_ret {A} (a : A) : relates R (ret a).
Proof using Type*. intros st r st' [= <- <-]. reflexivity. Qed.

Lemma relates_raise {A} e : relates R (raise (A := A) e).
Proof using Type*. intros st r st' [= <- <-]. reflexivity. Qed.

Lemma relates_bind {A B} (m : M A) (k : A -> M B) :
  relates R m -> (forall a, relates R (k a)) -> relates R (bind m k).
Proof using Type*.
  intros Hm Hk st r st'. unfold bind. destruct (m st) as [[a|e] st1] eqn:E.
  - intros Ek. etrans; [exact (Hm _ _ _ E)|exact (Hk _ _ _ _ Ek)].
  - intros [= <- <-]. exact (Hm _ _ _ E).
Qed.

Lemma relates_try_finally {A} (body : M A) (fin : M unit) :
  relates R body -> relates R fin -> relates R (try_finally body fin).
Proof using Type*.
  intros Hb Hf st r st'. unfold try_finally. destruct (body st) as [rb st1] eqn:E.
  destruct (fin st1) as [[[]|e] st2] eqn:E2; intros [= <- <-];
    (etrans; [exact (Hb _ _ _ E)|exact (Hf _ _ _ E2)]).
Qed.

Lemma relates_try_except {A} (body : M A) handler :
  relates R body -> (forall e k, handler e = Some k -> relates R k) ->
  relates R (try_except body handler).
Proof using Type*.
  intros Hb Hh st r st'. unfold try_except. destruct (body st) as [[a|e] st1] eqn:E.
  - intros [= <- <-]. exact (Hb _ _ _ E).
  - destruct (handler e) as [k|] eqn:Ek.
    + intros E2. etrans; [exact (Hb _ _ _ E)|exact (Hh _ _ Ek _ _ _ E2)].
    + intros [= <- <-]. exact (Hb _ _ _ E).
Qed.

Lemma relates_for_each {A} (l : list A) (body : A -> M unit) :
  (forall x, relates R (body x)) -> relates R (for_each l body).
Proof using Type*.
  intros Hb. induction l as [|x l IH]; cbn [for_each].
  - apply relates_ret.
  - apply relates_bind; [apply Hb|]. intros _. exact IH.
Qed.

Lemma relates_changedir {A} path (body : M A) :
  (forall st d, R st (set_cwd d st)) -> relates R body -> relates R (changedir path body).
Proof using Type*.
  intros Hcd Hb. unfold changedir.
  assert (Hchdir : forall p, relates R (chdir p)).
  { intros p st r st'. unfold chdir. case_bool_decide; intros [= <- <-]; [apply Hcd|reflexivity]. }
  apply relates_bind; [intros st r st' [= <- <-]; reflexivity|]. intros save.
  apply relates_bind; [apply Hchdir|]. intros _.
  apply relates_try_finally; [exact Hb|apply Hchdir].
Qed.

End Relates.

Global Instance same_cwd_preorder : PreOrder same_cwd.
Proof.
  split.
  - intros st _. done.
  - intros st1 st2 st3 H12 H23 Hwf. destruct (H12 Hwf) as [Hc Hd].
    destruct H23 as [Hc' Hd'].
    + destruct Hwf as [Ha Hi]. split; [by rewrite Hc|by rewrite Hc, Hd].
    + split; congruence.
Qed.

Global Instance same_environ_preorder h : PreOrder (same_environ h).
Proof.
  split.
  - intros st k _ _. done.
  - intros st1 st2 st3 H12 H23 k Hk Hl. rewrite H23, H12; done.
Qed.

Lemma same_cwd_preserves {A} (m : M A) :
  preserves cwd m -> preserves dirs m -> relates same_cwd m.
Proof. intros Hc Hd st r st' E _. split; [exact (Hc _ _ _ E)|exact (Hd _ _ _ E)]. Qed.

Lemma same_environ_preserves h {A} (m : M A) :
  preserves environ m -> relates (same_environ h) m.
Proof. intros He st r st' E k _ _. by rewrite (He _ _ _ E). Qed.

Section MorePreserves.

Context (h : Host) {X : Type} (f : State -> X) (Hf : ignores_io f).

Lemma preserves_c99_probe self label candidates :
  preserves f (c99_probe h self label candidates).
Proof using Hf.
  induction candidates as [|flags rest IH]; cbn [c99_probe]; frame.
Qed.

Lemma preserves_c99_compile_args self : preserves f (c99_compile_args h self).
Proof using Hf. unfold c99_compile_args. frame. apply preserves_c99_probe. Qed.

Lemma preserves_collect_symbols exts : forall symbols,
  preserves f (collect_symbols h exts symbols).
Proof using Hf.
  induction exts as [|ext exts IH]; intros symbols; cbn [collect_symbols]; frame.
Qed.

Lemma preserves_report_conflicts items : forall errors,
  preserves f (report_conflicts items errors).
Proof using Hf.
  induction items as [|[sym objs] items IH]; intros errors; cbn [report_conflicts]; frame.
Qed.

Lemma preserves_check_ext_symbol_conflicts self :
  preserves f (check_ext_symbol_conflicts h self).
Proof using Hf.
  unfold check_ext_symbol_conflicts. frame.
  - apply preserves_collect_symbols.
  - apply preserves_report_conflicts.
Qed.

Lemma preserves_build_ext_modules r :
  (forall st hp, f (set_heap hp st) = f st) -> preserves f (build_ext_modules h r).
Proof using Hf.
  intros Hheap. unfold build_ext_modules. frame. apply preserves_modify. intros. apply Hheap.
Qed.

End MorePreserves.

(** The whole run keeps a relation that its quiet steps, its scopes and the
    LDSHARED adjustment keep. *)
Section Pipeline.

Context (h : Host) (R : State -> State -> Prop) `{!PreOrder R}.

Hypothesis quiet : forall A (m : M A),
  preserves cwd m -> preserves dirs m -> preserves environ m -> relates R m.
Hypothesis scoped_dir : forall A path (body : M A),
  preserves cwd body -> preserves dirs body -> preserves environ body ->
  relates R (changedir path body).
Hypothesis scoped_configure : forall dir env_options options,
  relates R (changedir dir (set_compiler_envvars h (configure_attempts h env_options options))).
Hypothesis ldshared : relates R (strip_bundle h).

Ltac quiet := solve [apply quiet; frame].

Ltac rel_step :=
  match goal with
  | |- relates _ (ret _) => apply relates_ret; [exact _]
  | |- relates _ (raise _) => apply relates_raise; [exact _]
  | |- relates _ (bind _ _) => apply relates_bind; [exact _| |]
  | |- relates _ (try_finally _ _) => apply relates_try_finally; [exact _| |]
  | |- relates _ (try_except _ _) => apply relates_try_except; [exact _| |]
  | |- relates _ (for_each _ _) => apply relates_for_each; [exact _|]
  | |- relates _ (if ?b then _ else _) => destruct b
  | |- relates _ (match ?x with _ => _ end) => destruct x
  | |- relates _ _ => fail 1
  | |- forall _, _ => intro
  | H : Some _ = Some _ |- _ => injection H as <-
  | H : None = Some _ |- _ => discriminate H
  | H : (match ?e with _ => _ end) = Some _ |- _ => destruct e
  end.

Lemma relates_configure_library dir env_options options :
  relates R (configure_library h dir env_options options).
Proof using All.
  unfold configure_library. repeat rel_step; try quiet. apply scoped_configure.
Qed.

Lemma relates_configure_builtin opts : relates R (configure_builtin h opts).
Proof using All.
  unfold configure_builtin. repeat rel_step; try quiet.
  - apply relates_configure_library.
  - apply scoped_dir; apply preserves_run_make_print_config; frame.
Qed.

Lemma relates_resolve_htslib : relates R (resolve_htslib h).
Proof using All.
  unfold resolve_htslib. repeat rel_step; try quiet. apply relates_configure_builtin.
Qed.

Lemma relates_setup_script : relates R (setup_script h).
Proof using All.
  unfold setup_script. repeat rel_step; try quiet.
  - apply relates_resolve_htslib.
  - apply quiet; apply preserves_build_ext_modules; frame; reflexivity.
Qed.

Lemma relates_run_hook mode hook ext force : relates R (run_hook h mode hook ext force).
Proof using All.
  destruct hook; cbn [run_hook].
  - unfold prebuild_libchtslib. repeat rel_step; try quiet.
    apply scoped_dir; apply preserves_run_make; frame.
  - unfold prebuild_libcsamtools. quiet.
Qed.

Lemma relates_build_extension mode self ext : relates R (build_extension h mode self ext).
Proof using All.
  unfold build_extension. repeat rel_step; try quiet; apply relates_run_hook.
Qed.

Lemma relates_super_run mode self : relates R (super_run h mode self).
Proof using All.
  unfold super_run, build_extensions. repeat rel_step; try quiet.
  - apply quiet; apply preserves_c99_compile_args; frame.
  - apply relates_build_extension.
Qed.

Lemma relates_run mode self : relates R (run h mode self).
Proof using All.
  unfold run. repeat rel_step; try quiet.
  - apply ldshared.
  - apply relates_super_run.
  - apply quiet; apply preserves_check_ext_symbol_conflicts; frame.
Qed.

Lemma relates_setup_build_ext cmd : relates R (setup_build_ext h cmd).
Proof using All.
  unfold setup_build_ext. repeat rel_step.
  - apply relates_setup_script.
  - apply relates_run.
Qed.

End Pipeline.

Section Invariants.

Context (h : Host).

Lemma preserves_compiler_envvars_enter {X} (f : State -> X) vars : forall tmp,
  ignores_io f -> (forall st e, f (set_environ e st) = f st) ->
  preserves f (compiler_envvars_enter h vars tmp).
Proof.
  induction vars as [|var vars IH]; intros tmp Hf He; cbn [compiler_envvars_enter]; frame;
    apply preserves_setenv, He.
Qed.

Lemma preserves_set_compiler_envvars {X A} (f : State -> X) (body : M A) :
  ignores_io f -> (forall st e, f (set_environ e st) = f st) ->
  preserves f body -> preserves f (set_compiler_envvars h body).
Proof.
  intros Hf He Hb. unfold set_compiler_envvars. frame.
  - by apply preserves_compiler_envvars_enter.
  - apply preserves_delenv, He.
Qed.

Lemma preserves_strip_bundle {X} (f : State -> X) :
  (forall st e, f (set_environ e st) = f st) -> preserves f (strip_bundle h).
Proof. intros He. unfold strip_bundle. frame; apply preserves_setenv, He. Qed.

Lemma same_cwd_changedir {A} path (body : M A) :
  preserves dirs body -> relates same_cwd (changedir path body).
Proof. intros Hd st r st' E Hwf. exact (changedir_restores_cwd path body st r st' Hwf Hd E). Qed.

(** X26: whatever the outcome of the build, it ends in the working directory it
    started in. *)
Theorem setup_build_ext_returns_to_cwd (cmd : cy_build_ext) (st : State)
    (r : result unit) (st' : State) :
  wf_cwd st -> setup_build_ext h cmd st = (r, st') ->
  cwd st' = cwd st.
Proof.
  intros Hwf E. cut (same_cwd st st'); [intros H; exact (proj1 (H Hwf))|].
  apply (relates_setup_build_ext h same_cwd) with (cmd := cmd) (r := r); [| | | |exact E].
  - intros A m Hc Hd _. by apply same_cwd_preserves.
  - intros A path body _ Hd _. by apply same_cwd_changedir.
  - intros dir env_options options. apply same_cwd_changedir.
    apply preserves_set_compiler_envvars; [frame|reflexivity|].
    apply preserves_configure_attempts. frame.
  - apply same_cwd_preserves; apply preserves_strip_bundle; reflexivity.
Qed.

Lemma same_environ_set_compiler_envvars {A} (body : M A) :
  preserves environ body -> relates (same_environ h) (set_compiler_envvars h body).
Proof.
  intros Hb st r st' E k Hk _.
  destruct (set_compiler_envvars_steps h body st Hb)
    as (tmp & st0 & rb & st1 & st2 & _ & _ & E' & Htmp & Henv & Hfin).
  rewrite E in E'. injection E' as -> ->. rewrite Hfin, Henv.
  case_bool_decide as Ht; [by apply Htmp in Ht as (_ & -> & _)|].
  case_bool_decide as Hv; [|done].
  unfold scoped_value. rewrite ccshared_suffix_other by done.
  destruct (environ st !! k) as [cur|] eqn:Ecur; [by rewrite string_app_nil_r|].
  destruct (sysconfig h !! k) eqn:Es; [|done]. exfalso. apply Ht, Htmp. eauto.
Qed.

(** X27: whatever the outcome of the build, the only environment variables it
    can have changed are CFLAGS and, on macOS, LDSHARED. *)
Theorem setup_build_ext_environ (cmd : cy_build_ext) (st : State) (r : result unit)
    (st' : State) (k : string) :
  setup_build_ext h cmd st = (r, st') ->
  k <> "CFLAGS" -> (k = "LDSHARED" -> sys_platform h <> "darwin") ->
  environ st' !! k = environ st !! k.
Proof.
  intros E. revert k.
  apply (relates_setup_build_ext h (same_environ h)) with (cmd := cmd) (r := r); [| | | |exact E].
  - intros A m _ _ He. by apply same_environ_preserves.
  - intros A path body _ _ He. apply same_environ_preserves.
    by apply preserves_changedir.
  - intros dir env_options options. apply relates_changedir; [exact _|done|].
    apply same_environ_set_compiler_envvars. apply preserves_configure_attempts. frame.
  - intros st0 r0 st0' E0 k Hk Hl. revert E0. unfold strip_bundle.
    destruct (String.eqb (sys_platform h) "darwin") eqn:Ed; [|by intros [= <- <-]].
    apply String.eqb_eq in Ed. unfold bind, get_state.
    destruct (environ st0 !! "LDSHARED"), (sysconfig h !! "LDSHARED");
      intros [= <- <-]; try done; cbn; rewrite lookup_insert_ne; try done;
      intros <-; by apply Hl.
Qed.

End Invariants.


Section BuildLoop.
Context (h : Host).

Lemma not_build_io_only : io_only (fun e => is_build e = false).
Proof. repeat split. Qed.

Lemma preserves_run_hook {X} (f : State -> X) mode hook ext force :
  ignores_io f -> (forall st d, f (set_cwd d st) = f st) ->
  preserves f (run_hook h mode hook ext force).
Proof.
  intros Hf Hc. destruct hook; cbn [run_hook].
  - unfold prebuild_libchtslib. frame.
  - unfold prebuild_libcsamtools. frame.
Qed.

Lemma build_extension_step mode self ext st st1 :
  build_extension h mode self ext st = (Ok tt, st1) ->
  exists evs,
    trace st1 = trace st ++ evs ++
      [EvBuildExtension (self_compiler self) (with_link_args h ext)
         (library_dirs_of st ext ++ appended self 1) (Ok tt)] /\
    Forall (fun e => is_build e = false) evs /\
    library_dirs_of st1 ext = library_dirs_of st ext ++ appended self 1 /\
    (forall loc, loc <> ext_library_dirs ext -> heap st1 !! loc = heap st !! loc).
Proof.
  unfold build_extension, with_link_args. intros E.
  apply bind_ok in E as ([] & sa & Ea & E).
  assert (Ha : trace sa = trace st /\
               library_dirs_of sa ext = library_dirs_of st ext ++ appended self 1 /\
               (forall loc, loc <> ext_library_dirs ext -> heap sa !! loc = heap st !! loc)).
  { unfold appended. destruct (inplace self); cbn [negb] in Ea.
    - injection Ea as <-. cbn. by rewrite app_nil_r.
    - unfold library_dirs_append, modify in Ea. injection Ea as <-. cbn.
      split; [done|]. unfold library_dirs_of at 1. cbn. rewrite lookup_insert_eq.
      split; [done|]. intros loc Hloc. by rewrite lookup_insert_ne. }
  destruct Ha as (Hta & Hda & Hha).
  destruct (platform_link_args h ext) as [args|e]; [|discriminate].
  set (ext' := set_extra_link_args (ext_extra_link_args ext ++ args) ext) in *.
  apply bind_ok in E as ([] & sb & Eb & E).
  assert (Hb : heap sb = heap sa /\
               exists evs, trace sb = trace sa ++ evs /\ Forall (fun e => is_build e = false) evs).
  { cbn [ext_prebuild_func ext' set_extra_link_args] in Eb.
    destruct (ext_prebuild_func ext) as [hook|].
    - split.
      + eapply (preserves_run_hook heap); [frame|reflexivity|exact Eb].
      + eapply (emits_run_hook h _ not_build_io_only); exact Eb.
    - injection Eb as <-. split; [done|]. exists []. by rewrite app_nil_r. }
  destruct Hb as (Hhb & evs & Htb & Hevs).
  unfold super_build in E.
  destruct (super_build_extension h sb (self_compiler self) ext' (library_dirs_of sb ext'))
    as [r fs] eqn:Es.
  injection E as -> <-. exists evs. cbn.
  assert (Hd : library_dirs_of sb ext' = library_dirs_of st ext ++ appended self 1).
  { unfold library_dirs_of in *. cbn [ext' ext_library_dirs set_extra_link_args].
    rewrite Hhb. exact Hda. }
  rewrite Htb, Hta, Hd, <- app_assoc. split; [done|]. split; [done|]. split.
  - unfold library_dirs_of in *. cbn. rewrite Hhb. exact Hda.
  - intros loc Hloc. cbn. rewrite Hhb. by apply Hha.
Qed.

Lemma appended_add self a b : appended self a ++ appended self b = appended self (a + b).
Proof. unfold appended. destruct (inplace self); [done|]. by rewrite replicate_add. Qed.

Lemma filter_not_build evs :
  Forall (fun e => is_build e = false) evs -> List.filter is_build evs = [].
Proof.
  induction 1 as [|e evs He _ IH]; [done|]. cbn [List.filter]. by rewrite He.
Qed.

(** X11: the build loop over extensions that share their [library_dirs] list:
    every extension is handed to distutils with its platform link arguments
    added, and with the shared search path as it has grown by then, one
    entry per extension built so far when the build is not in place. *)
Theorem build_loop_events (mode : string) (self : cy_build_ext) (exts : list Extension)
    (loc : nat) (st st' : State) :
  Forall (fun e => ext_library_dirs e = loc) exts ->
  for_each exts (build_extension h mode self) st = (Ok tt, st') ->
  exists evs,
    trace st' = trace st ++ evs /\
    List.filter is_build evs =
      imap (fun i e => EvBuildExtension (self_compiler self) (with_link_args h e)
                         (default [] (heap st !! loc) ++ appended self (S i)) (Ok tt)) exts /\
    default [] (heap st' !! loc) = default [] (heap st !! loc) ++ appended self (length exts).
Proof.
  revert st. induction exts as [|ext exts IH]; intros st Hloc E.
  - injection E as <-. exists []. rewrite !app_nil_r. split; [done|]. split; [done|].
    unfold appended. cbn [length]. destruct (inplace self); by rewrite app_nil_r.
  - inversion Hloc as [|? ? Hext Hloc']; subst.
    cbn [for_each] in E. apply bind_ok in E as ([] & st1 & E1 & E).
    destruct (build_extension_step mode self ext st st1 E1) as (evs1 & Ht1 & Hq & Hd1 & _).
    destruct (IH st1 Hloc' E) as (evs & Ht & Hf & Hd).
    unfold library_dirs_of in Hd1.
    exists ((evs1 ++ [EvBuildExtension (self_compiler self) (with_link_args h ext)
                        (library_dirs_of st ext ++ appended self 1) (Ok tt)]) ++ evs).
    split; [by rewrite Ht, Ht1, <- !app_assoc|]. split.
    + rewrite !List.filter_app, (filter_not_build _ Hq), Hf. cbn [List.filter is_build app].
      rewrite imap_cons. f_equal. apply imap_ext. intros i e _. cbn.
      rewrite Hd1, <- app_assoc, appended_add. done.
    + rewrite Hd, Hd1, <- app_assoc, appended_add. done.
Qed.

(** X25: all thirteen extensions get the one [library_dirs] list of
    [common_options], a new list object that holds the absolute search
    path, and the same include path. *)
Theorem build_ext_modules_share_library_dirs (r : Resolved) (st : State)
    (exts : list Extension) (st' : State) :
  build_ext_modules h r st = (Ok exts, st') ->
  exists loc dirs include_dirs,
    heap st !! loc = None /\ heap st' = <[loc := dirs]> (heap st) /\
    abspath_all h (cwd st) (Some "pysam" :: htslib_library_dirs r) = Ok dirs /\
    abspath_all h (cwd st)
      (Some "pysam" :: htslib_include_dirs r ++
       [Some "samtools"; Some "samtools/lz4"; Some "bcftools"; Some "."] ++
       map Some (include_os h)) = Ok include_dirs /\
    length exts = 13%nat /\
    Forall (fun e => ext_library_dirs e = loc /\ ext_include_dirs e = include_dirs /\
                     library_dirs_of st' e = dirs) exts.
Proof.
  unfold build_ext_modules, bind, get_state, modify, ret.
  change ([Some "pysam"] ++ htslib_library_dirs r) with (Some "pysam" :: htslib_library_dirs r).
  destruct (abspath_all h (cwd st) (Some "pysam" :: htslib_library_dirs r))
    as [dirs|e] eqn:Ed; [|discriminate].
  match goal with |- context [abspath_all h (cwd st) ?l] =>
    change l with (Some "pysam" :: htslib_include_dirs r ++
       [Some "samtools"; Some "samtools/lz4"; Some "bcftools"; Some "."] ++
       map Some (include_os h)) end.
  destruct (abspath_all h (cwd st) (Some "pysam" :: htslib_include_dirs r ++ _))
    as [incs|e] eqn:Ei; [|discriminate].
  intros [= <- <-]. exists (fresh (dom (heap st))), dirs, incs.
  split; [apply not_elem_of_dom, is_fresh|]. split; [done|]. split; [done|]. split; [done|].
  split; [reflexivity|].
  repeat (constructor;
    [split; [reflexivity|]; split; [reflexivity|];
     unfold library_dirs_of; cbn; by rewrite lookup_insert_eq|]).
  constructor.
Qed.

End BuildLoop.


(** ** config.py *)

Lemma is_prefix_app p q s : Py.is_prefix (p +:+ q) s = true -> Py.is_prefix p s = true.
Proof.
  revert s. induction p as [|a p IH]; intros s; [done|].
  change (Py.is_prefix (String a (p +:+ q)) s = true -> Py.is_prefix (String a p) s = true).
  cbn [Py.is_prefix]. destruct s as [|b s]; [done|].
  intros [-> H]%andb_true_iff. by rewrite (IH _ H).
Qed.

Lemma match_define_startswith line kv :
  match_define line = Some kv -> Py.startswith line "#define" = true.
Proof.
  unfold match_define, Py.startswith.
  destruct (Py.is_prefix "#define " line) eqn:E; [|discriminate]. intros _.
  by apply (is_prefix_app "#define" " ").
Qed.

Lemma read_defines_get lines key : forall d0 d,
  read_defines d0 lines = Ok d ->
  Dict.get d key =
    match defined_value lines key with
    | Some v => Some v
    | None => Dict.get d0 key
    end.
Proof.
  unfold defined_value. induction lines as [|line lines IH]; intros d0 d.
  - by intros [= <-].
  - cbn [read_defines omap list_omap].
    destruct (Py.startswith line "#define") eqn:Es.
    + destruct (match_define line) as [[k v]|] eqn:Em; [|discriminate].
      intros E. rewrite (IH _ _ E). destruct (String.eqb k key) eqn:Ek.
      * apply String.eqb_eq in Ek as ->. rewrite last_cons.
        destruct (last _); [done|]. apply dict_get_set_eq.
      * destruct (last _); [done|]. apply dict_get_set_ne.
        intros ->. by rewrite String.eqb_refl in Ek.
    + destruct (match_define line) as [kv|] eqn:Em.
      * apply match_define_startswith in Em. congruence.
      * apply IH.
Qed.

(** X18: for a htslib/config.h of ASCII lines, what config.py reports for an
    option is the value of its last [#define], or 0 when there is none. *)
Theorem config_values_last_define (lines : list string) (values : Dict.t string)
    (key : string) :
  Forall (fun line => is_ascii line = true) lines ->
  read_defines [] lines = Ok values ->
  config_value values key = default "0" (defined_value lines key).
Proof.
  intros _ E. unfold config_value. rewrite (read_defines_get _ key _ _ E).
  by destruct (defined_value lines key).
Qed.

Lemma read_defines_raises lines : forall d e,
  read_defines d lines = Raise e <->
  e = AttributeError /\
  exists line, line ∈ lines /\ Py.startswith line "#define" = true /\ match_define line = None.
Proof.
  induction lines as [|line lines IH]; intros d e; cbn [read_defines].
  - split; [done|]. intros [_ (l & Hl & _)]. by apply elem_of_nil in Hl.
  - destruct (Py.startswith line "#define") eqn:Es.
    + destruct (match_define line) as [[k v]|] eqn:Em.
      * rewrite IH. split; intros [-> (l & Hl & Hs & Hm)]; (split; [done|]); exists l.
        -- split; [by apply list_elem_of_further|done].
        -- apply elem_of_cons in Hl as [->|Hl]; [congruence|done].
      * split; [intros [= <-]|by intros [-> _]]. split; [done|].
        exists line. split; [apply list_elem_of_here|done].
    + rewrite IH. split; intros [-> (l & Hl & Hs & Hm)]; (split; [done|]); exists l.
      * split; [by apply list_elem_of_further|done].
      * apply elem_of_cons in Hl as [->|Hl]; [congruence|done].
Qed.

Lemma write_config_py_builtin lines st :
  dirname (resolve (cwd st) "pysam/config.py") ∈ dirs st ->
  write_config_py (Some "builtin") (Ok lines) st =
    match read_defines [] lines with
    | Raise e => (Raise e, config_py_opened (Some "builtin") st)
    | Ok values =>
        for_each config_option_keys (fun key =>
          let* _ := outf_write "pysam/config.py"
                      (key +:+ " = " +:+ config_value values key +:+ newline) in
          print ("# pysam: config_option: " +:+ key +:+ "=" +:+ config_value values key))
        (config_py_opened (Some "builtin") st)
    end.
Proof.
  intros Hdir. unfold write_config_py, bind, write_file.
  change (Py.os_path_join "pysam" "config.py") with "pysam/config.py".
  rewrite bool_decide_true by done. rewrite bool_decide_true by done.
  by destruct (read_defines [] lines).
Qed.

(** X19: for a htslib/config.h of ASCII lines, a [#define] line that the
    pattern does not match (one without a value, say) is what makes the
    script stop with [AttributeError], and then config.py is left with its
    first line only. *)
Theorem config_py_malformed_define (lines : list string) (st : State) :
  Forall (fun line => is_ascii line = true) lines ->
  dirname (resolve (cwd st) "pysam/config.py") ∈ dirs st ->
  let out := write_config_py (Some "builtin") (Ok lines) st in
  (fst out = Raise AttributeError <->
   exists line, line ∈ lines /\ Py.startswith line "#define" = true /\
                match_define line = None) /\
  (fst out = Raise AttributeError ->
   trace (snd out) = trace st ++
     [EvWrite "pysam/config.py" ("HTSLIB = " +:+ dquote +:+ "builtin" +:+ dquote +:+ newline)] /\
   path_exists (snd out) "pysam/config.py" = true).
Proof.
  intros _ Hdir out. subst out. rewrite (write_config_py_builtin lines st Hdir).
  destruct (read_defines [] lines) as [values|e] eqn:Er.
  - split; [|discriminate]. split; [discriminate|].
    intros Hl. exfalso.
    assert (read_defines [] lines = Raise AttributeError) as E' by (by apply read_defines_raises).
    congruence.
  - apply read_defines_raises in Er as [-> Hl]. cbn [fst snd]. split; [done|].
    intros _. split; [done|]. unfold path_exists. cbn [cwd files emit set_files config_py_opened].
    rewrite bool_decide_true; [done|]. apply elem_of_union_l, elem_of_singleton. done.
Qed.

(** ** The pattern *)

Lemma span_app p x rest :
  forallb p (list_ascii_of_string x) = true -> stops p rest -> span p (x +:+ rest) = (x, rest).
Proof.
  induction x as [|a x IH]; cbn [list_ascii_of_string forallb].
  - intros _ Hr. change ("" +:+ rest) with rest. destruct rest as [|b rest]; [done|].
    cbn in Hr. cbn [span]. by rewrite Hr.
  - intros [Ha Hx]%andb_true_iff Hr.
    change (span p (String a (x +:+ rest)) = (String a x, rest)).
    cbn [span]. by rewrite Ha, (IH Hx Hr).
Qed.

Lemma no_space_nonspace s : no_space s = forallb nonspace (list_ascii_of_string s).
Proof. reflexivity. Qed.

Lemma stops_app p a b : a <> "" -> stops p a -> stops p (a +:+ b).
Proof. destruct a; done. Qed.

Lemma nonempty_stops_nonspace s : s <> "" -> all_space s = true -> stops nonspace s.
Proof.
  destruct s as [|a s]; [done|]. unfold all_space, nonspace. cbn.
  intros _ [-> _]%andb_true_iff. done.
Qed.

Lemma nonempty_stops_isspace s : s <> "" -> no_space s = true -> stops Py.isspace s.
Proof.
  destruct s as [|a s]; [done|]. unfold no_space. cbn.
  intros _ [Ha _]%andb_true_iff. by destruct (Py.isspace a).
Qed.

Lemma drop_prefix_app p s : Py.is_prefix p (p +:+ s) = true /\ Py.drop_prefix p (p +:+ s) = s.
Proof.
  assert (Hp : Py.is_prefix p (p +:+ s) = true).
  { induction p as [|a p IH]; [done|].
    change (Py.is_prefix (String a p) (String a (p +:+ s)) = true).
    cbn [Py.is_prefix]. by rewrite Ascii.eqb_refl. }
  split; [done|]. unfold Py.drop_prefix. rewrite Hp.
  induction p as [|a p IH].
  - cbn. rewrite Nat.sub_0_r. apply substring_all.
  - change (String a p +:+ s) with (String a (p +:+ s)). cbn [String.length String.substring].
    cbn [Nat.sub]. apply IH. 
    clear. induction p as [|b p IH]; [done|].
    change (Py.is_prefix (String b p) (String b (p +:+ s)) = true).
    cbn [Py.is_prefix]. by rewrite Ascii.eqb_refl.
Qed.

Lemma span_all p s : forallb p (list_ascii_of_string s) = true -> span p s = (s, "").
Proof.
  intros H. rewrite <- (string_app_nil_r s) at 1. by apply span_app.
Qed.

Lemma all_space_stops s : all_space s = true -> stops nonspace s.
Proof.
  destruct s as [|a s]; [done|]. unfold all_space, nonspace. cbn.
  intros [-> _]%andb_true_iff. done.
Qed.

(** X20: the pattern on the ASCII lines that autoconf writes: a name and a
    value separated by white space are recovered; a name without a value
    does not match. *)
Theorem match_define_spec (key blank value rest : string) :
  is_ascii key = true ->
  key <> "" -> no_space key = true -> all_space blank = true ->
  (is_ascii value = true -> is_ascii rest = true ->
   blank <> "" -> value <> "" -> no_space value = true -> stops nonspace rest ->
   match_define ("#define " +:+ key +:+ blank +:+ value +:+ rest) = Some (key, value)) /\
  match_define ("#define " +:+ key +:+ blank) = None.
Proof.
  intros _ Hk Hks Hbs. unfold match_define. split.
  - intros _ _ Hb Hv Hvs Hr.
    destruct (drop_prefix_app "#define " (key +:+ blank +:+ value +:+ rest)) as [-> ->].
    rewrite (span_app nonspace key); [|done|].
    2:{ apply stops_app; [done|]. by apply nonempty_stops_nonspace. }
    cbn [fst snd].
    rewrite (span_app Py.isspace blank); [|done|].
    2:{ apply stops_app; [done|]. by apply nonempty_stops_isspace. }
    cbn [fst snd]. rewrite (span_app nonspace value) by done. cbn [fst].
    by destruct key, blank, value.
  - destruct (drop_prefix_app "#define " (key +:+ blank)) as [-> ->].
    rewrite (span_app nonspace key); [|done|by apply all_space_stops].
    cbn [fst snd]. rewrite (span_all Py.isspace blank) by done. cbn [fst snd span].
    by destruct key, blank.
Qed.

(** ** The missing config headers *)

Lemma path_exists_mono st st' fn :
  cwd st' = cwd st -> dirs st' = dirs st -> files st ⊆ files st' ->
  path_exists st fn = true -> path_exists st' fn = true.
Proof.
  unfold path_exists. intros -> -> Hf [H|H]%orb_true_iff; apply orb_true_iff.
  - left. apply bool_decide_eq_true in H. apply bool_decide_eq_true. by apply Hf.
  - by right.
Qed.

Lemma write_missing_step fn st r st1 :
  (let* st0 := get_state in
   if negb (path_exists st0 fn) then write_file fn empty_config_h else ret tt) st = (r, st1) ->
  cwd st1 = cwd st /\ dirs st1 = dirs st /\ files st ⊆ files st1 /\
  (r = Ok tt -> path_exists st1 fn = true).
Proof.
  unfold bind, get_state. destruct (path_exists st fn) eqn:Ex; cbn [negb].
  - intros [= <- <-]. done.
  - unfold write_file. case_bool_decide as Hd; intros [= <- <-]; [|done].
    cbn. split_and!; [done|done|apply union_subseteq_r|]. intros _. unfold path_exists. cbn.
    rewrite bool_decide_true; [done|]. by apply elem_of_union_l, elem_of_singleton.
Qed.

Lemma write_missing_inv fns : forall st st',
  write_missing_config_headers fns st = (Ok tt, st') ->
  cwd st' = cwd st /\ dirs st' = dirs st /\ files st ⊆ files st' /\
  Forall (fun fn => path_exists st' fn = true) fns.
Proof.
  unfold write_missing_config_headers.
  induction fns as [|fn fns IH]; intros st st'; cbn [for_each].
  - intros [= <-]. done.
  - intros E. apply bind_ok in E as ([] & st1 & E1 & E).
    destruct (write_missing_step _ _ _ _ E1) as (Hc1 & Hd1 & Hf1 & Hx1).
    destruct (IH _ _ E) as (Hc & Hd & Hf & Hall).
    split_and!; [congruence|congruence|by etrans|].
    constructor; [|done]. eapply path_exists_mono; [done..|by apply Hx1].
Qed.

Lemma write_missing_noop fns st :
  Forall (fun fn => path_exists st fn = true) fns ->
  write_missing_config_headers fns st = (Ok tt, st).
Proof.
  unfold write_missing_config_headers.
  induction 1 as [|fn fns Hx _ IH]; cbn [for_each]; [done|].
  unfold bind at 1, get_state at 1, bind at 1. rewrite Hx. cbn [negb ret]. exact IH.
Qed.

(** X22: creating the missing config headers a second time changes nothing. *)
Theorem write_missing_config_headers_idempotent (fns : list string) (st st' : State) :
  write_missing_config_headers fns st = (Ok tt, st') ->
  write_missing_config_headers fns st' = (Ok tt, st').
Proof.
  intros E. apply write_missing_noop. by destruct (write_missing_inv _ _ _ E) as (_ & _ & _ & H).
Qed.

(** X21: when their directories exist, exactly the config headers that are
    missing are created, each with the two comment lines; every header
    exists afterwards and no file is lost. *)
Theorem missing_config_headers_written (fns : list string) (st : State) :
  NoDup (map (resolve (cwd st)) fns) ->
  Forall (fun fn => dirname (resolve (cwd st) fn) ∈ dirs st) fns ->
  exists st',
    write_missing_config_headers fns st = (Ok tt, st') /\
    trace st' = trace st ++
      map (fun fn => EvWrite fn empty_config_h)
          (List.filter (fun fn => negb (path_exists st fn)) fns) /\
    Forall (fun fn => path_exists st' fn = true) fns /\
    files st ⊆ files st'.
Proof.
  revert st. induction fns as [|fn fns IH]; intros st Hnd Hdirs.
  - exists st. cbn. by rewrite app_nil_r.
  - cbn [map] in Hnd. apply NoDup_cons in Hnd as [Hfn Hnd].
    inversion Hdirs as [|? ? Hdir Hdirs']; subst.
    assert (Hstep : forall st1,
      cwd st1 = cwd st -> dirs st1 = dirs st ->
      (forall fn', fn' ∈ fns -> path_exists st1 fn' = path_exists st fn') ->
      exists st', for_each fns (fun fn =>
          let* st0 := get_state in
          if negb (path_exists st0 fn) then write_file fn empty_config_h else ret tt) st1
        = (Ok tt, st') /\
        trace st' = trace st1 ++
          map (fun fn => EvWrite fn empty_config_h)
              (List.filter (fun fn => negb (path_exists st fn)) fns) /\
        Forall (fun fn => path_exists st' fn = true) fns /\ files st1 ⊆ files st' /\
        cwd st' = cwd st /\ dirs st' = dirs st).
    { intros st1 Hc Hd Hsame. destruct (IH st1) as (st' & E & Ht & Hall & Hf).
      - by rewrite Hc.
      - by rewrite Hc, Hd.
      - exists st'. split; [exact E|]. split.
        + rewrite Ht. f_equal. f_equal. apply List.filter_ext_in.
          intros fn' Hin. by rewrite Hsame by (by apply list_elem_of_In).
        + destruct (write_missing_inv _ _ _ E) as (Hc' & Hd' & _ & _).
          split_and!; [done|done|congruence|congruence]. }
    unfold write_missing_config_headers. cbn [for_each List.filter].
    unfold bind at 1, get_state at 1, bind at 1.
    destruct (path_exists st fn) eqn:Ex; cbn [negb ret].
    + destruct (Hstep st) as (st' & E & Ht & Hall & Hf & Hc & Hd); [done..|].
      exists st'. split; [exact E|]. split; [exact Ht|]. split; [|done].
      constructor; [|done]. by eapply path_exists_mono.
    + unfold write_file. rewrite bool_decide_true by done.
      destruct (Hstep (emit (EvWrite fn empty_config_h)
                         (set_files ({[resolve (cwd st) fn]} ∪ files st) st)))
        as (st' & E & Ht & Hall & Hf & Hc & Hd); [done|done| |].
      { intros fn' Hin. unfold path_exists. cbn. f_equal. apply bool_decide_ext.
        rewrite elem_of_union, elem_of_singleton. split; [|by right].
        intros [Heq|?]; [|done]. exfalso. apply Hfn. rewrite <- Heq.
        apply list_elem_of_fmap. by exists fn'. }
      exists st'. split; [exact E|]. cbn in Ht, Hf. split; [by rewrite Ht, <- app_assoc|].
      split; [|etrans; [apply union_subseteq_r|exact Hf]]. constructor; [|done].
      unfold path_exists. rewrite Hc. rewrite bool_decide_true; [done|].
      by apply Hf, elem_of_union_l, elem_of_singleton.
Qed.


(** ** sdist options *)

Lemma has_option_app name l1 l2 :
  has_option name (l1 ++ l2) = has_option name l1 || has_option name l2.
Proof. apply existsb_app. Qed.

Lemma has_option_single name opt :
  has_option name [opt] = String.eqb (fst (fst opt)) name.
Proof. unfold has_option. cbn [existsb]. apply orb_false_r. Qed.

(** X8: the class body of [cythonize_sdist] makes sure that sdist knows
    [owner=] and [group=]: it keeps the options there are, in place, adds at
    most these two, none that is there already, and a second execution adds
    nothing. *)
Theorem cythonize_sdist_user_options_spec (user_options : list UserOption) :
  let result := cythonize_sdist_user_options user_options in
  has_option "owner=" result = true /\ has_option "group=" result = true /\
  result = user_options ++
           (if has_option "owner=" user_options then []
            else [("owner=", Some "u", "Specify owner inside tar")]) ++
           (if has_option "group=" user_options then []
            else [("group=", Some "g", "Specify group inside tar")]) /\
  cythonize_sdist_user_options result = result.
Proof.
  cbv zeta. unfold cythonize_sdist_user_options.
  destruct (has_option "owner=" user_options) eqn:Eo,
           (has_option "group=" user_options) eqn:Eg;
    repeat (rewrite ?has_option_app, ?has_option_single, ?Eo, ?Eg;
            cbn [fst String.eqb Ascii.eqb Bool.eqb andb orb negb]);
    split_and!; try done; by rewrite ?app_nil_r, <- ?app_assoc.
Qed.

(** ** clean_ext *)

(** What the removals of one part do: they stay in the directory, create
    nothing, remove only files of the list and, when they succeed, all of
    them. *)
Lemma for_each_remove_spec found : forall st r st1,
  for_each found remove st = (r, st1) ->
  cwd st1 = cwd st /\ files st1 ⊆ files st /\
  (forall p, p ∈ files st -> p ∉ files st1 ->
     exists q, q ∈ found /\ p = resolve (cwd st) q) /\
  (r = Ok tt -> forall q, q ∈ found -> resolve (cwd st) q ∉ files st1).
Proof.
  induction found as [|q found IH]; intros st r st1 E.
  - injection E as <- <-. split; [done|]. split; [done|]. split; [done|].
    intros _ q Hq. inversion Hq.
  - cbn [for_each] in E. unfold bind, remove at 1 in E.
    case_bool_decide as Hin.
    + apply IH in E as (Hc & Hf & Hrm & Hok). cbn [cwd files set_files] in Hc, Hf, Hrm, Hok.
      split; [done|].
      split; [etrans; [exact Hf|]; by apply subseteq_difference_l|].
      split.
      * intros p Hp Hn. destruct (decide (p = resolve (cwd st) q)) as [->|Hne].
        -- exists q. split; [by left|done].
        -- destruct (Hrm p) as (q' & Hq' & ->); [|done|].
           ++ apply elem_of_difference. split; [done|]. by intros ?%elem_of_singleton.
           ++ exists q'. split; [by right|done].
      * intros Hr q' Hq'. apply elem_of_cons in Hq' as [->|Hq']; [|by apply Hok].
        intros Hq. apply Hf in Hq. apply elem_of_difference in Hq as [_ Hq].
        apply Hq. by apply elem_of_singleton.
    + injection E as <- <-. split; [done|]. split; [done|]. split; [done|]. discriminate.
Qed.

Ltac in_list := cbn [app]; repeat first [apply list_elem_of_here | apply list_elem_of_further].

Lemma clean_pass_spec found message st r st1 :
  clean_pass found message st = (r, st1) ->
  cwd st1 = cwd st /\ files st1 ⊆ files st /\
  (forall p, p ∈ files st -> p ∉ files st1 ->
     exists q, q ∈ found /\ p = resolve (cwd st) q) /\
  (r = Ok tt -> forall q, q ∈ found -> resolve (cwd st) q ∉ files st1).
Proof.
  unfold clean_pass, bind. destruct found as [|q0 found].
  - cbn. intros [= <- <-]. split; [done|]. split; [done|]. split; [done|].
    intros _ q Hq. inversion Hq.
  - unfold log, modify. intros E. by apply for_each_remove_spec in E.
Qed.

(** X13: whatever its outcome, [clean_ext] removes no file but those that
    the calls of glob in this run reported, creates none and stays in its
    directory; when it succeeds, every file that was reported is gone. *)
Theorem clean_ext_removes_only_matches (glob_now : State -> string -> list string)
    (st : State) (r : result unit) (st' : State) :
  clean_ext_run glob_now st = (r, st') ->
  cwd st' = cwd st /\ files st' ⊆ files st /\
  (forall p, p ∈ files st -> p ∉ files st' -> reported glob_now st p) /\
  (r = Ok tt -> forall p, reported glob_now st p -> p ∉ files st').
Proof.
  unfold clean_ext_run, reported, glob_calls. unfold bind at 1.
  destruct (clean_cython_sources glob_now st) as [[[]|e1] st1] eqn:E1.
  2:{ intros [= <- <-]. unfold clean_cython_sources, bind, get_state in E1.
      apply clean_pass_spec in E1 as (Hc & Hf & Hrm & _).
      split; [done|]. split; [done|]. split; [|discriminate].
      intros p Hp Hn. destruct (Hrm p Hp Hn) as (q & Hq & ->).
      exists st, "pysam/libc*.c", q. split; [by left|done]. }
  unfold bind at 1.
  destruct (clean_config_headers glob_now st1) as [[[]|e2] st2] eqn:E2.
  2:{ intros [= <- <-]. unfold clean_cython_sources, bind, get_state in E1.
      unfold clean_config_headers, bind, get_state in E2.
      apply clean_pass_spec in E1 as (Hc1 & Hf1 & Hrm1 & _).
      apply clean_pass_spec in E2 as (Hc2 & Hf2 & Hrm2 & _).
      split; [congruence|]. split; [by etrans|]. split; [|discriminate].
      intros p Hp Hn. destruct (decide (p ∈ files st1)) as [Hp1|Hp1].
      - destruct (Hrm2 p Hp1 Hn) as (q & Hq & ->). rewrite Hc1.
        apply elem_of_app in Hq as [Hq|Hq]; [|apply elem_of_app in Hq as [Hq|Hq]].
        + exists st1, "htslib/*config*.h", q. split; [in_list|done].
        + exists st1, "samtools/*config*.h", q. split; [in_list|done].
        + exists st1, "bcftools/*config*.h", q. split; [in_list|done].
      - destruct (Hrm1 p Hp Hp1) as (q & Hq & ->).
        exists st, "pysam/libc*.c", q. split; [by left|done]. }
  intros E3.
  unfold clean_cython_sources, bind, get_state in E1.
  unfold clean_config_headers, bind, get_state in E2.
  unfold clean_objects, bind, get_state in E3.
  apply clean_pass_spec in E1 as (Hc1 & Hf1 & Hrm1 & Hok1).
  apply clean_pass_spec in E2 as (Hc2 & Hf2 & Hrm2 & Hok2).
  apply clean_pass_spec in E3 as (Hc3 & Hf3 & Hrm3 & Hok3).
  split; [congruence|]. split; [by do 2 (etrans; [eassumption|])|]. split.
  - intros p Hp Hn. destruct (decide (p ∈ files st1)) as [Hp1|Hp1];
      [destruct (decide (p ∈ files st2)) as [Hp2|Hp2]|].
    + destruct (Hrm3 p Hp2 Hn) as (q & Hq & ->). rewrite Hc2, Hc1.
      apply elem_of_app in Hq as [Hq|Hq]; [|apply elem_of_app in Hq as [Hq|Hq]].
      * exists st2, "htslib/*.[oa]", q. split; [in_list|done].
      * exists st2, "htslib/cram/*.o", q. split; [in_list|done].
      * exists st2, "htslib/htscodecs/htscodecs/*.o", q. split; [in_list|done].
    + destruct (Hrm2 p Hp1 Hp2) as (q & Hq & ->). rewrite Hc1.
      apply elem_of_app in Hq as [Hq|Hq]; [|apply elem_of_app in Hq as [Hq|Hq]].
      * exists st1, "htslib/*config*.h", q. split; [in_list|done].
      * exists st1, "samtools/*config*.h", q. split; [in_list|done].
      * exists st1, "bcftools/*config*.h", q. split; [in_list|done].
    + destruct (Hrm1 p Hp Hp1) as (q & Hq & ->).
      exists st, "pysam/libc*.c", q. split; [by left|done].
  - intros -> p (st0 & pattern & q & Hcall & Hq & ->).
    repeat (apply elem_of_cons in Hcall as [[= -> ->]|Hcall]); [..|inversion Hcall].
    + intros Hin. apply Hf3, Hf2 in Hin. revert Hin. by apply Hok1.
    + intros Hin. apply Hf3 in Hin. revert Hin. rewrite <- Hc1. apply Hok2; [done|].
      rewrite !elem_of_app; auto.
    + intros Hin. apply Hf3 in Hin. revert Hin. rewrite <- Hc1. apply Hok2; [done|].
      rewrite !elem_of_app; auto.
    + intros Hin. apply Hf3 in Hin. revert Hin. rewrite <- Hc1. apply Hok2; [done|].
      rewrite !elem_of_app; auto.
    + rewrite <- Hc1, <- Hc2. apply Hok3; [done|]. rewrite !elem_of_app; auto.
    + rewrite <- Hc1, <- Hc2. apply Hok3; [done|]. rewrite !elem_of_app; auto.
    + rewrite <- Hc1, <- Hc2. apply Hok3; [done|]. rewrite !elem_of_app; auto.
Qed.

Lemma for_each_remove found : forall st,
  NoDup (map (resolve (cwd st)) found) ->
  Forall (fun q => resolve (cwd st) q ∈ files st) found ->
  exists st',
    for_each found remove st = (Ok tt, st') /\
    files st' = files st ∖ list_to_set (map (resolve (cwd st)) found) /\
    cwd st' = cwd st /\ trace st' = trace st.
Proof.
  induction found as [|q found IH]; intros st Hnd Hin.
  - exists st. split; [done|]. split; [|done]. cbn. apply set_eq. intros x.
    rewrite elem_of_difference. split; [|by intros [? _]]. intros Hx. split; [done|].
    apply not_elem_of_empty.
  - cbn [map] in Hnd. apply NoDup_cons in Hnd as [Hq Hnd].
    inversion Hin as [|? ? Hqin Hin']; subst.
    cbn [for_each]. unfold bind, remove at 1. rewrite bool_decide_true by done.
    destruct (IH (set_files (files st ∖ {[resolve (cwd st) q]}) st)) as (st' & E & Hf & Hc & Ht).
    + exact Hnd.
    + cbn. apply Forall_forall. intros q' Hq'. rewrite Forall_forall in Hin'.
      apply elem_of_difference. split; [by apply Hin'|].
      intros Heq%elem_of_singleton. apply Hq. rewrite <- Heq.
      apply list_elem_of_fmap. by exists q'.
    + exists st'. split; [exact E|]. cbn in Hf, Hc, Ht. split; [|done].
      rewrite Hf. cbn [map list_to_set]. apply set_eq. intros x.
      rewrite !elem_of_difference, elem_of_union, elem_of_singleton. tauto.
Qed.

(** X14: a pass of [clean_ext] over files that exist, each found once, removes
    them all and writes its log line only when there is something to
    remove. *)
Theorem clean_pass_removes (found : list string) (message : string) (st : State) :
  NoDup (map (resolve (cwd st)) found) ->
  Forall (fun q => resolve (cwd st) q ∈ files st) found ->
  exists st',
    clean_pass found message st = (Ok tt, st') /\
    files st' = files st ∖ list_to_set (map (resolve (cwd st)) found) /\
    trace st' = trace st ++ match found with [] => [] | _ :: _ => [EvLog INFO message] end.
Proof.
  intros Hnd Hin. unfold clean_pass, bind.
  destruct found as [|q found].
  - exists st. cbn. split; [done|]. split; [|by rewrite app_nil_r].
    apply set_eq. intros x. rewrite elem_of_difference. split; [|by intros [? _]].
    intros Hx. split; [done|]. apply not_elem_of_empty.
  - unfold log, modify.
    destruct (for_each_remove (q :: found) (emit (EvLog INFO message) st) Hnd Hin)
      as (st' & E & Hf & _ & Ht).
    exists st'. split; [exact E|]. split; [exact Hf|exact Ht].
Qed.



Section Modules.
Context (h : Host).

(** X9: the conflict report names a module by [ext.name.lstrip('pysam.')],
    which strips characters, not a prefix; for the thirteen modules of the
    list this is the name without the package, and no two modules get the
    same. *)
Theorem module_labels_distinct (r : Resolved) :
  Forall (fun m => m_name m = "pysam." +:+ Py.lstrip_chars "pysam." (m_name m)) (modules h r) /\
  NoDup (map (fun m => Py.lstrip_chars "pysam." (m_name m)) (modules h r)).
Proof.
  split.
  - repeat (constructor; [reflexivity|]). constructor.
  - apply (bool_decide_unpack _). vm_compute. reflexivity.
Qed.

(** X24: "Order of modules matters": a module links, besides the external
    libraries, only the libraries of modules that stand before it in the
    list. *)
Theorem modules_link_earlier_modules (r : Resolved) (i : nat) (m : ModuleDecl) :
  modules h r !! i = Some m ->
  exists stems,
    m_libraries m = external_htslib_libraries r ++ map (internal_library h) stems /\
    forall s, s ∈ stems ->
      exists j m', (j < i)%nat /\ modules h r !! j = Some m' /\ m_name m' = "pysam.lib" +:+ s.
Proof.
  assert (H0 : exists m', modules h r !! 0%nat = Some m' /\ m_name m' = "pysam.lib" +:+ "chtslib")
    by (eexists; split; reflexivity).
  assert (H1 : exists m', modules h r !! 1%nat = Some m' /\ m_name m' = "pysam.lib" +:+ "csamtools")
    by (eexists; split; reflexivity).
  assert (H2 : exists m', modules h r !! 2%nat = Some m' /\ m_name m' = "pysam.lib" +:+ "cbcftools")
    by (eexists; split; reflexivity).
  assert (H3 : exists m', modules h r !! 3%nat = Some m' /\ m_name m' = "pysam.lib" +:+ "cutils")
    by (eexists; split; reflexivity).
  assert (Hpick : forall stems : list string,
    (4 <= i)%nat -> stems ⊆ ["chtslib"; "csamtools"; "cbcftools"; "cutils"] ->
    forall s, s ∈ stems ->
      exists j m', (j < i)%nat /\ modules h r !! j = Some m' /\ m_name m' = "pysam.lib" +:+ s).
  { intros stems Hi Hsub s Hs. apply Hsub in Hs.
    repeat (apply elem_of_cons in Hs as [->|Hs]).
    - destruct H0 as (m' & ? & ?). exists 0%nat, m'. split; [lia|done].
    - destruct H1 as (m' & ? & ?). exists 1%nat, m'. split; [lia|done].
    - destruct H2 as (m' & ? & ?). exists 2%nat, m'. split; [lia|done].
    - destruct H3 as (m' & ? & ?). exists 3%nat, m'. split; [lia|done].
    - by apply elem_of_nil in Hs. }
  destruct i as [|[|[|[|i]]]].
  - intros [= <-]. exists []. split; [by rewrite app_nil_r|]. intros s Hs.
    by apply elem_of_nil in Hs.
  - intros [= <-]. exists ["chtslib"]. split; [reflexivity|].
    intros s ->%list_elem_of_singleton. destruct H0 as (m' & ? & ?).
    exists 0%nat, m'. split; [lia|done].
  - intros [= <-]. exists ["chtslib"]. split; [reflexivity|].
    intros s ->%list_elem_of_singleton. destruct H0 as (m' & ? & ?).
    exists 0%nat, m'. split; [lia|done].
  - intros [= <-]. exists ["chtslib"; "csamtools"; "cbcftools"]. split; [reflexivity|].
    intros s Hs. repeat (apply elem_of_cons in Hs as [->|Hs]).
    + destruct H0 as (m' & ? & ?). exists 0%nat, m'. split; [lia|done].
    + destruct H1 as (m' & ? & ?). exists 1%nat, m'. split; [lia|done].
    + destruct H2 as (m' & ? & ?). exists 2%nat, m'. split; [lia|done].
    + by apply elem_of_nil in Hs.
  - intros Hm. exists ["chtslib"; "cutils"]. split.
    + do 9 (destruct i as [|i]; [by injection Hm as <-|]). discriminate Hm.
    + apply Hpick; [lia|]. intros x Hx.
      repeat (apply elem_of_cons in Hx as [->|Hx]).
      * apply list_elem_of_here.
      * do 3 apply list_elem_of_further. apply list_elem_of_here.
      * by apply elem_of_nil in Hx.
Qed.

(** X23: CIBUILDWHEEL=1 is what puts [-DBUILDING_WHEEL] on the command line of
    the vendored build of every module, and then it is in the CPPFLAGS of
    the generated headers as well. *)
Theorem building_wheel_macro (r : Resolved) (st : State) (exts : list Extension)
    (st' : State) :
  build_ext_modules h r st = (Ok exts, st') ->
  Forall (fun e =>
            Py.str_in "-DBUILDING_WHEEL" (all_cppflags e) =
              bool_decide (environ st !! "CIBUILDWHEEL" = Some "1") /\
            (environ st !! "CIBUILDWHEEL" = Some "1" ->
             forall st2, exists merged,
               Dict.get (build_config_dict h st2 e) "CPPFLAGS" = Some merged /\
               occurs_in "-DBUILDING_WHEEL" merged)) exts.
Proof.
  intros E. destruct (build_ext_modules_inv h _ _ _ _ E) as (_ & _ & loc & incs & ->).
  apply Forall_fmap, Forall_forall. intros m _. cbn [compose]. split.
  - unfold all_cppflags, CyExtension. cbn [ext_extra_compile_args ext_define_macros].
    unfold define_macros, environ_get, extra_compile_args.
    destruct (environ st !! "CIBUILDWHEEL") as [v|] eqn:Ev.
    + change (default "0" (Some v)) with v. destruct (String.eqb v "1") eqn:E1.
      * apply String.eqb_eq in E1 as ->. rewrite bool_decide_true by done.
        destruct (is_windows h); vm_compute; reflexivity.
      * rewrite bool_decide_false.
        2:{ intros [= ->]. by rewrite String.eqb_refl in E1. }
        destruct (is_windows h); vm_compute; reflexivity.
    + rewrite bool_decide_false by done. destruct (is_windows h); vm_compute; reflexivity.
  - intros Ev st2. eexists. split; [reflexivity|]. apply join_occurs.
    unfold cppflags_parts, CyExtension. cbn [ext_define_macros ext_include_dirs ext_undef_macros].
    unfold define_macros, environ_get. rewrite Ev.
    apply elem_of_app. right. apply elem_of_app. right. apply elem_of_app. left.
    vm_compute. apply list_elem_of_here.
Qed.

End Modules.



Section Errors.
Context (h : Host).

Lemma path_exists_io st e fn : path_exists (emit e st) fn = path_exists st fn.
Proof. reflexivity. Qed.

(** X15: a HTSLIB_MODE other than 'shared' and 'separate' needs
    HTSLIB_LIBRARY_DIR: without it the script stops with [ValueError],
    having run no program and changed no file. *)
Theorem unknown_mode_is_rejected (st : State) :
  path_exists st (source_pattern h "htslib") = true ->
  requires_vendored_build (environ_get st "HTSLIB_MODE" "shared") = false ->
  truthy (environ st !! "HTSLIB_LIBRARY_DIR") = false ->
  exists msg st' evs,
    resolve_htslib h st = (Raise (ValueError msg), st') /\
    trace st' = trace st ++ evs /\ Forall (fun e => is_print e = true) evs /\
    environ st' = environ st /\ files st' = files st.
Proof.
  intros Hsrc Hmode Hdir. unfold resolve_htslib, bind, get_state, print, modify.
  rewrite Hsrc. cbn [negb]. rewrite Hmode. unfold ret, select_artifacts, link_mode.
  rewrite Hdir. unfold requires_vendored_build in Hmode.
  apply orb_false_iff in Hmode as [Hsh Hsep]. rewrite Hsep, Hsh.
  eexists _, _, [_; _; _]. split; [reflexivity|]. split.
  { cbn. rewrite <- !app_assoc. reflexivity. }
  split; [by repeat constructor|done].
Qed.

(** X16: with HTSLIB_MODE 'shared' (the default) or 'separate' the script needs
    the configure script of the vendored library, even when an external
    library is named: without it the script stops with [ValueError], having
    run no program. *)
Theorem vendored_mode_needs_configure_script (st : State) :
  path_exists st (source_pattern h "htslib") = true ->
  requires_vendored_build (environ_get st "HTSLIB_MODE" "shared") = true ->
  path_exists st "htslib/configure" = false ->
  exists msg st' evs,
    resolve_htslib h st = (Raise (ValueError msg), st') /\
    trace st' = trace st ++ evs /\ Forall (fun e => is_print e = true) evs /\
    environ st' = environ st /\ files st' = files st.
Proof.
  intros Hsrc Hmode Hconf. unfold resolve_htslib, bind, get_state, print, modify.
  rewrite Hsrc. cbn [negb]. rewrite Hmode.
  unfold configure_builtin, bind, configure_library, bind, get_state.
  change (Py.os_path_join "htslib" "configure") with "htslib/configure".
  rewrite !path_exists_io, Hconf. cbn [negb raise].
  eexists _, _, [_; _; _]. split; [reflexivity|]. split.
  { cbn. rewrite <- !app_assoc. reflexivity. }
  split; [by repeat constructor|done].
Qed.


End Errors.



Lemma nodup_keys_filter {V} (P : string * V -> bool) (d : Dict.t V) :
  NoDup (Dict.keys d) -> NoDup (Dict.keys (List.filter P d)).
Proof.
  unfold Dict.keys. induction d as [|[k v] d IH]; [done|]. cbn [map List.filter fst].
  intros [Hk Hnd]%NoDup_cons. destruct (P (k, v)); [|by apply IH].
  cbn [map fst]. apply NoDup_cons. split; [|by apply IH].
  intros Hin. apply Hk. apply list_elem_of_fmap in Hin as ([k' v'] & -> & Hin).
  apply list_elem_of_In, filter_In in Hin as [Hin _]. apply list_elem_of_In in Hin.
  apply list_elem_of_fmap. by exists (k', v').
Qed.

Section Report.
Context (h : Host).

(** X28: when nm works on every module, the error log gets one line for each
    symbol that more than one module defines, naming those modules in the
    order of the list, and the check fails exactly when there is such a
    line. *)
Theorem conflict_report_lists_owners (syms : Extension -> gset string)
    (self : cy_build_ext) (st : State) :
  nm_reports h syms (ext_modules self) ->
  exists st' spawns conflicts,
    check_ext_symbol_conflicts h self st =
      (match conflicts with [] => Ok tt | _ :: _ => Raise link_error end, st') /\
    trace st' = trace st ++ spawns ++ map conflict_event conflicts /\
    Forall (fun e => is_spawn e = true) spawns /\
    NoDup (map fst conflicts) /\
    forall sym objs,
      (sym, objs) ∈ conflicts <->
      objs = owners syms (ext_modules self) sym /\ (1 < length objs)%nat.
Proof.
  intros Hnm. unfold check_ext_symbol_conflicts, bind.
  destruct (collect_symbols_spec h syms (ext_modules self) (ext_modules self) [] st Hnm)
    as (d & st1 & spawns & E & T & F & Hnd & Hget); [done|constructor|].
  rewrite E. destruct (report_conflicts_spec d 0%nat st1) as (st2 & E2 & T2). rewrite E2.
  cbn [Nat.add].
  assert (Hd : forall k os, (k, os) ∈ d <-> os = owners syms (ext_modules self) k /\ os <> []).
  { intros k os. rewrite (dict_get_elem_of d k os Hnd), Hget. cbn [Dict.get default].
    destruct (owners syms (ext_modules self) k); cbn [default app];
      [split; [discriminate | intros [-> ?]; done]|].
    split; [intros [= <-]; done | intros [-> _]; done]. }
  exists st2, spawns, (List.filter conflicting d).
  split; [by destruct (List.filter conflicting d)|].
  split; [by rewrite T2, T, <- app_assoc|]. split; [exact F|].
  split; [by apply (nodup_keys_filter conflicting d)|].
  intros sym objs. rewrite list_elem_of_In, filter_In, <- list_elem_of_In, Hd.
  unfold conflicting. cbn [snd]. rewrite Nat.ltb_lt. split.
  - intros [[-> _] Hlen]. done.
  - intros [-> Hlen]. split; [|done]. split; [done|]. intros Hn. rewrite Hn in Hlen.
    cbn in Hlen. lia.
Qed.

(** X29: an external library needs its include directory: with
    HTSLIB_LIBRARY_DIR set and HTSLIB_INCLUDE_DIR not, the names are bound
    but building the module list raises [TypeError]. *)
Theorem external_library_needs_include_dir (st : State) (r : Resolved) (st1 : State) :
  resolve_htslib h st = (Ok r, st1) ->
  truthy (environ st !! "HTSLIB_LIBRARY_DIR") = true ->
  environ st !! "HTSLIB_INCLUDE_DIR" = None ->
  build_ext_modules h r st1 = (Raise TypeError, st1).
Proof.
  intros E Hlib Hinc.
  destruct (resolve_htslib_inv h _ _ _ E) as (builtin & st0 & Hsel & _).
  pose proof (select_artifacts_lists _ _ _ Hsel) as Hl.
  destruct (select_artifacts_mode _ _ _ Hsel) as (_ & Hdir & _).
  unfold link_mode in Hl. rewrite Hdir, Hlib in Hl. destruct Hl as (_ & _ & Hld & Hid).
  unfold build_ext_modules, bind, get_state. rewrite Hld, Hid, Hinc.
  destruct (environ st !! "HTSLIB_LIBRARY_DIR") as [d|]; [|discriminate].
  cbn [app abspath_all]. reflexivity.
Qed.

(** X30: a probe that fails with anything but a compile error ends the build
    with that error: nothing more is tried and no extension is built. *)
Theorem probe_error_aborts_build (mode : string) (self : cy_build_ext) (st : State)
    (label : string) (e : exn) :
  compiler_label (self_compiler self) = Ok label ->
  (forall st0, fst (cc_compile h st0 (self_compiler self) ["pysam/conftest_cstd.c"]
                      (build_temp self) None) = Raise e) ->
  e <> CompileError ->
  exists st',
    build_extensions h mode self st = (Raise e, st') /\
    List.filter (fun ev => is_compile ev || is_build ev) (drop (length (trace st)) (trace st')) =
      [probe_event self (None, Raise e)].
Proof.
  intros Hlabel Hcc Hne. unfold build_extensions, bind, c99_compile_args. rewrite Hlabel.
  unfold bind, log, modify. cbn [c99_candidates c99_probe]. unfold try_except, bind.
  rewrite compile_eval, Hcc.
  destruct e; try done; eexists; (split; [reflexivity|]); cbn [trace emit set_files];
    rewrite <- app_assoc, drop_app_length; reflexivity.
Qed.

End Report.


(** * The model at work: instances and counterexamples *)

Ltac by_compute := apply (bool_decide_unpack _); vm_compute; reflexivity.

Lemma checkout_wf env : wf_cwd (Fixture.checkout env).
Proof. split; [reflexivity | by_compute]. Qed.

Lemma checkout_built_wf env : wf_cwd (Fixture.checkout_built env).
Proof. split; [reflexivity | by_compute]. Qed.

(** ** C1 *)

(** With both directories and HTSLIB_MODE=external the script completes in
    external mode and runs no program. *)
Lemma external_mode_selection_witness :
  let st := Fixture.checkout (<["HTSLIB_MODE" := "external"]> Fixture.external_dirs) in
  exists r exts st',
    wf_cwd st /\
    setup_script Fixture.linux st = (Ok (r, exts), st') /\
    (link_mode (HTSLIB_MODE r) (HTSLIB_LIBRARY_DIR r) = Ok External <->
       truthy (environ st !! "HTSLIB_LIBRARY_DIR") = true) /\
    (truthy (environ st !! "HTSLIB_LIBRARY_DIR") = true ->
       is_Some (environ st !! "HTSLIB_INCLUDE_DIR") /\
       htslib_library_dirs r = [environ st !! "HTSLIB_LIBRARY_DIR"] /\
       htslib_include_dirs r = [environ st !! "HTSLIB_INCLUDE_DIR"]) /\
    exists evs, trace st' = trace st ++ evs /\
      if requires_vendored_build (HTSLIB_MODE r)
      then exists t, configure_event t ∈ evs
      else Forall (fun e => is_spawn e = false) evs /\
           forall ext force st2,
             prebuild_libchtslib Fixture.linux (HTSLIB_MODE r) ext force st2 = (Ok tt, st2).
Proof.
  cbv zeta.
  destruct (setup_script Fixture.linux
              (Fixture.checkout (<["HTSLIB_MODE" := "external"]> Fixture.external_dirs)))
    as [[[r exts]|e] st'] eqn:E; [|vm_compute in E; discriminate E].
  exists r, exts, st'. split; [apply checkout_wf|]. split; [reflexivity|].
  apply (external_mode_selection Fixture.linux _ r exts st'); [apply checkout_wf | exact E].
Defined.

(** Both directories are supplied and HTSLIB_MODE is left at its default:
    the external branch is taken and the two directories are recorded, yet
    configure is run twice and then make, in the vendored source tree. *)
Lemma external_dirs_still_configure :
  let st := Fixture.checkout Fixture.external_dirs in
  let out := setup_script Fixture.linux st in
  (exists r exts,
     fst out = Ok (r, exts) /\
     link_mode (HTSLIB_MODE r) (HTSLIB_LIBRARY_DIR r) = Ok External /\
     htslib_library_dirs r = [Some "/usr/lib"] /\
     htslib_include_dirs r = [Some "/usr/include"]) /\
  List.filter is_spawn (trace (snd out)) =
    [ EvSpawn true ["./configure --enable-libcurl"] (Some (1%Z, ""));
      EvSpawn true ["./configure --disable-libcurl"] (Some (0%Z, ""));
      EvSpawn false ["make"; "-s"; "print-config"] (Some (0%Z, Fixture.make_config)) ].
Proof.
  cbv zeta. split.
  - eexists _, _. split; [vm_compute; reflexivity|]. split_and!; vm_compute; reflexivity.
  - vm_compute. reflexivity.
Qed.

(** ** C2 *)

Lemma artifacts_match_link_mode_witness :
  let st := Fixture.checkout ∅ in
  exists r exts st',
    setup_script Fixture.linux st = (Ok (r, exts), st') /\
    HTSLIB_MODE r = environ_get st "HTSLIB_MODE" "shared" /\
    HTSLIB_LIBRARY_DIR r = environ st !! "HTSLIB_LIBRARY_DIR" /\
    exists foundational rest,
      exts = foundational :: rest /\ ext_name foundational = "pysam.libchtslib" /\
      length rest = 12%nat /\
      match link_mode (HTSLIB_MODE r) (HTSLIB_LIBRARY_DIR r) with
      | Ok EmbeddedSeparate =>
          Forall (fun e => ext_extra_objects e = ["htslib/libhts.a"]) exts
      | Ok EmbeddedShared =>
          (exists make stdout objs,
             EvSpawn false [make; "-s"; "print-config"] (Some (0%Z, stdout)) ∈ trace st' /\
             Dict.get (parse_print_config stdout) "LIBHTS_OBJS" = Some objs /\
             ext_extra_objects foundational =
               map (Py.os_path_join "htslib") (Py.split_char " " objs)) /\
          Forall (fun e => ext_extra_objects e = []) rest
      | Ok External => Forall (fun e => ext_extra_objects e = []) exts
      | Raise _ => False
      end.
Proof.
  cbv zeta.
  destruct (setup_script Fixture.linux (Fixture.checkout ∅))
    as [[[r exts]|e] st'] eqn:E; [|vm_compute in E; discriminate E].
  exists r, exts, st'. split; [reflexivity|].
  apply (artifacts_match_link_mode Fixture.linux _ r exts st'). exact E.
Defined.

(** The three modes on the same checkout. *)
Example artifacts_of_the_three_modes :
  let objects env :=
    match fst (setup_script Fixture.linux (Fixture.checkout env)) with
    | Ok (_, exts) => map ext_extra_objects (take 3 exts)
    | Raise _ => []
    end in
  objects ∅ = [["htslib/kfunc.o"; "htslib/kstring.o"]; []; []] /\
  objects {[ "HTSLIB_MODE" := "separate" ]} =
    [["htslib/libhts.a"]; ["htslib/libhts.a"]; ["htslib/libhts.a"]] /\
  objects (<["HTSLIB_MODE" := "external"]> Fixture.external_dirs) = [[]; []; []].
Proof. cbv zeta. split_and!; vm_compute; reflexivity. Qed.

(** ** C3 *)

Lemma configure_builtin_fallback_witness :
  let st := Fixture.checkout ∅ in
  wf_cwd st /\ path_exists st "htslib/configure" = true /\
  resolve (cwd st) "htslib" ∈ dirs st /\
  exists res st1 prints tried,
    configure_library Fixture.linux "htslib" None ["--enable-libcurl"; "--disable-libcurl"] st
      = (Ok res, st1) /\
    trace st1 = trace st ++ prints ++ map configure_event tried /\
    Forall (fun e => is_print e = true) prints /\
    configure_run (option_list (effective_env_options st None) ++
                   ["--enable-libcurl"; "--disable-libcurl"]) tried res /\
    cwd st1 = cwd st /\
    (res = None ->
     forall r st', configure_builtin Fixture.linux None st = (r, st') ->
       exists evs, trace st' = trace st1 ++
         EvPrint "# pysam: htslib configure options: None" ::
         EvWrite "htslib/config.h" empty_config_h :: evs).
Proof.
  cbv zeta. split; [apply checkout_wf|]. split; [reflexivity|]. split; [by_compute|].
  apply (configure_builtin_fallback Fixture.linux None (Fixture.checkout ∅));
    [apply checkout_wf | reflexivity | by_compute].
Defined.

(** On Read the Docs the caller's option is never tried, though configure
    would accept it: --disable-bz2 is tried in its place and returned. *)
Lemma readthedocs_replaces_user_option :
  let st := Fixture.checkout {[ "READTHEDOCS" := "True";
                                "HTSLIB_CONFIGURE_OPTIONS" := "--enable-plugins" ]} in
  let out := configure_library Fixture.linux "htslib" (Some "--enable-plugins")
               ["--enable-libcurl"; "--disable-libcurl"] st in
  fst (run_configure Fixture.linux "--enable-plugins" st) = Ok true /\
  fst out = Ok (Some "--disable-bz2") /\
  List.filter is_spawn (trace (snd out)) =
    [EvSpawn true ["./configure --disable-bz2"] (Some (0%Z, ""))].
Proof. cbv zeta. split_and!; vm_compute; reflexivity. Qed.

(** When configure rejects everything the script goes on with the
    two-comment config.h. *)
Example configure_all_rejected :
  let h := Fixture.host "Linux" "linux" [(["make"; "-s"; "print-config"],
                                         Some (0%Z, Fixture.make_config))]
                        (Some (1%Z, "")) [None] in
  let out := resolve_htslib h (Fixture.checkout ∅) in
  (exists r, fst out = Ok r /\ htslib_configure_options r = None) /\
  List.filter (fun e => is_spawn e || negb (is_print e)) (trace (snd out)) =
    [ EvSpawn true ["./configure --enable-libcurl"] (Some (1%Z, ""));
      EvSpawn true ["./configure --disable-libcurl"] (Some (1%Z, ""));
      EvWrite "htslib/config.h" empty_config_h;
      EvSpawn false ["make"; "-s"; "print-config"] (Some (0%Z, Fixture.make_config)) ].
Proof.
  cbv zeta. split; [eexists; split; vm_compute; reflexivity | vm_compute; reflexivity].
Qed.

(** ** C4 *)

(** The merged flags of an extension with flags of every kind, with CPPFLAGS
    and CFLAGS in the environment. *)
Example build_config_dict_ex :
  let ext := mkExtension "pysam.libchtslib" [] ["pysam"; "my dir"]
               [("A", None); ("B", Some "1")] ["C"] 0 [] [] ["-Wno-unused"] ["-Wl,-x"]
               (Some "c") None in
  let st := set_heap {[ 0%nat := ["/usr/lib"] ]}
              (Fixture.checkout {[ "CPPFLAGS" := "-DX"; "CFLAGS" := "-g" ]}) in
  build_config_dict Fixture.linux st ext =
    [ ("CC", "cc");
      ("CPPFLAGS", "-DX -Ipysam '-Imy dir' -DA -DB=1 -UC");
      ("CFLAGS", "-O2 -g -fPIC -Wno-unused");
      ("LDFLAGS", "-Wl,-O1 -g -L/usr/lib -Wl,-x");
      ("LIBS", "") ].
Proof. vm_compute. reflexivity. Qed.

(** ** C5 and C10 *)

(** A compiler that needs -std=c99: the attempts and the compiler of the
    build are determined. *)
Lemma build_extensions_probes_once_witness :
  let self := Fixture.build_cmd false [Fixture.libchtslib; Fixture.libcsamtools] in
  let st := Fixture.checkout ∅ in
  compiler_label (self_compiler self) = Ok "cc" /\
  exists res st' probes builds tried cc,
    (build_extensions Fixture.linux_c99 "shared" self st = (res, st') /\
     trace st' = trace st ++ probes ++ builds /\
     List.filter is_compile probes = map (probe_event self) tried /\
     probe_run [None; Some ["-std=c99"]; Some ["-std=gnu99"]] tried /\
     Forall (built_with cc) builds /\
     (forall self', res = Ok self' -> self_compiler self' = cc) /\
     match adopted tried with
     | Some flags =>
         (flags = ["-std=c99"] \/ flags = ["-std=gnu99"]) /\
         extended_by Fixture.linux_c99 flags (cc_compiler (self_compiler self))
                     (cc_compiler cc) /\
         extended_by Fixture.linux_c99 flags (cc_compiler_so (self_compiler self))
                     (cc_compiler_so cc)
     | None => cc = self_compiler self
     end) /\
    tried = [(None, Raise CompileError); (Some ["-std=c99"], Ok tt)] /\
    cc = mkCCompiler (Some (PyList ["cc"; "-std=c99"]))
                     (Some (PyList ["cc"; "-fPIC"; "-std=c99"])).
Proof.
  cbv zeta. split; [reflexivity|].
  destruct (build_extensions_probes_once Fixture.linux_c99 "shared"
              (Fixture.build_cmd false [Fixture.libchtslib; Fixture.libcsamtools])
              (Fixture.checkout ∅) "cc" eq_refl)
    as (res & st' & probes & builds & tried & cc & E & T & F & P & B & S & A).
  exists res, st', probes, builds, tried, cc.
  split; [by repeat split|].
  assert (Hb : List.filter is_compile builds = []).
  { clear -B. induction B as [|e l [He _] _ IH]; [done|]. cbn. by rewrite He. }
  assert (Ht : tried = [(None, Raise CompileError); (Some ["-std=c99"], Ok tt)]).
  { apply (f_equal (List.filter is_compile)) in T.
    rewrite !List.filter_app, Hb, app_nil_r, F in T.
    assert (E' := f_equal (fun x => List.filter is_compile (trace (snd x))) E).
    cbn beta in E'. cbn [snd] in E'. rewrite T in E'. vm_compute in E'.
    clear -E'.
    destruct tried as [|[f1 r1] [|[f2 r2] [|? ?]]]; try discriminate E'.
    injection E' as <- <- <- <-. reflexivity. }
  split; [exact Ht|]. subst tried. cbn in A. destruct A as (_ & A1 & A2).
  destruct cc as [c1 c2]. cbn in A1, A2.
  inversion A1 as [x l Hx Hc| |old Hold]; subst.
  2:{ exfalso. repeat (apply elem_of_cons in Hold as [Hold|Hold]; [discriminate Hold|]).
      inversion Hold. }
  inversion A2 as [x l Hx Hc| |old Hold]; subst.
  2:{ exfalso. repeat (apply elem_of_cons in Hold as [Hold|Hold]; [discriminate Hold|]).
      inversion Hold. }
  reflexivity.
Defined.

(** There: two probes, one success, and both modules are built with the
    flag appended to both commands. *)
Example probe_adopts_c99 :
  let self := Fixture.build_cmd false [Fixture.libchtslib; Fixture.libcsamtools] in
  let cc99 := mkCCompiler (Some (PyList ["cc"; "-std=c99"]))
                          (Some (PyList ["cc"; "-fPIC"; "-std=c99"])) in
  map (fun e => match e with
                | EvCompile _ _ _ flags r => Some (inl (flags, r))
                | EvBuildExtension cc ext _ _ => Some (inr (cc, ext_name ext))
                | _ => None
                end)
      (List.filter (fun e => negb (is_print e) && match e with EvLog _ _ => false | _ => true end)
                   (trace (snd (build_extensions Fixture.linux_c99 "external" self
                                  (Fixture.checkout ∅))))) =
    [ Some (inl (None, Raise CompileError));
      Some (inl (Some ["-std=c99"], Ok tt));
      Some (inr (cc99, "pysam.libchtslib"));
      Some (inr (cc99, "pysam.libcsamtools")) ].
Proof. vm_compute. reflexivity. Qed.

(** Commands that were assigned as strings come back as lists of words. *)
Example probe_adopts_c99_str :
  let self := mk_cy_build_ext Fixture.cc_str "build/lib" "build/temp" false false
                              [Fixture.libchtslib] in
  fst (build_extensions Fixture.linux_c99 "external" self (Fixture.checkout ∅)) =
    Ok (set_self_compiler
          (mkCCompiler (Some (PyList ["cc"; "-std=c99"]))
                       (Some (PyList ["cc"; "-fPIC"; "-std=c99"]))) self).
Proof. vm_compute. reflexivity. Qed.

Lemma build_extensions_probe_failed_witness :
  let self := Fixture.build_cmd false [Fixture.libchtslib; Fixture.libcsamtools] in
  let st := Fixture.checkout ∅ in
  compiler_label (self_compiler self) = Ok "cc" /\
  (forall st' flags,
     fst (cc_compile Fixture.linux_no_c99 st' (self_compiler self) ["pysam/conftest_cstd.c"]
                     (build_temp self) flags) = Raise CompileError) /\
  exists st1 evs,
    c99_compile_args Fixture.linux_no_c99 self st = (Ok None, st1) /\
    trace st1 = trace st ++ evs /\
    List.filter is_compile evs =
      map (fun flags => probe_event self (flags, Raise CompileError)) c99_candidates /\
    last evs = Some (EvLog ERROR ("cc" +:+ " cannot compile C99 source code")) /\
    build_extensions Fixture.linux_no_c99 "shared" self st =
      (let* _ := for_each (ext_modules self)
                   (build_extension Fixture.linux_no_c99 "shared" self) in ret self) st1.
Proof.
  cbv zeta. split; [reflexivity|]. split; [intros; reflexivity|].
  apply (build_extensions_probe_failed Fixture.linux_no_c99 "shared"
           (Fixture.build_cmd false [Fixture.libchtslib; Fixture.libcsamtools])
           (Fixture.checkout ∅) "cc"); [reflexivity | intros; reflexivity].
Defined.

(** With such a compiler both modules are still built, with the compiler
    unchanged. *)
Example probe_failed_build_goes_on :
  let self := Fixture.build_cmd false [Fixture.libchtslib; Fixture.libcsamtools] in
  let out := build_extensions Fixture.linux_no_c99 "external" self (Fixture.checkout ∅) in
  fst out = Ok self /\
  map (fun e => match e with
                | EvBuildExtension cc ext _ r => Some (cc, ext_name ext, r)
                | _ => None
                end)
      (List.filter (fun e => match e with EvBuildExtension _ _ _ _ => true | _ => false end)
                   (trace (snd out))) =
    [ Some (Fixture.cc, "pysam.libchtslib", Ok tt);
      Some (Fixture.cc, "pysam.libcsamtools", Ok tt) ].
Proof. cbv zeta. split; vm_compute; reflexivity. Qed.

(** ** C7 *)

Lemma nm_defined_symbols_spec_witness :
  nm_defined_symbols Fixture.linux Fixture.nm_libchtslib = Ok {[ "foo"; "hts_open" ]} /\
  forall s, s ∈ ({[ "foo"; "hts_open" ]} : gset string) <->
    s <> "__pyx_CommonTypesMetaclass_get_module" /\
    exists line, line ∈ Py.splitlines Fixture.nm_libchtslib /\
                 contributes Fixture.linux line s.
Proof.
  split; [vm_compute; reflexivity|].
  apply (nm_defined_symbols_spec Fixture.linux Fixture.nm_libchtslib).
  vm_compute; reflexivity.
Defined.

(** On macOS names that begin with $ or, once the decoration is off, with
    an underscore are kept; elsewhere they are dropped. *)
Lemma darwin_keeps_reserved_prefixes :
  let out := "$ld$hide T 0 0" +:+ newline +:+ "__edata D 0 0" +:+ newline in
  nm_defined_symbols Fixture.darwin out = Ok {[ "$ld$hide"; "_edata" ]} /\
  nm_defined_symbols Fixture.linux out = Ok ∅.
Proof. cbv zeta. split; vm_compute; reflexivity. Qed.

(** ** C6 *)

Lemma fixture_nm_reports :
  nm_reports Fixture.linux Fixture.symbols_of [Fixture.libchtslib; Fixture.libcsamtools].
Proof.
  intros st ext Hin. apply elem_of_cons in Hin as [->|Hin];
    [|apply list_elem_of_singleton in Hin as ->].
  - exists Fixture.nm_libchtslib. split_and!; vm_compute; reflexivity.
  - exists Fixture.nm_libcsamtools. split_and!; vm_compute; reflexivity.
Qed.

Lemma symbol_conflicts_fail_the_run_witness :
  let self := Fixture.build_cmd false [Fixture.libchtslib; Fixture.libcsamtools] in
  let st := Fixture.checkout ∅ in
  nm_reports Fixture.linux Fixture.symbols_of (ext_modules self) /\
  exists self1 st1,
    (let* _ := strip_bundle Fixture.linux in super_run Fixture.linux "shared" self) st
      = (Ok self1, st1) /\
    exists res st' evs,
      run Fixture.linux "shared" self st = (res, st') /\ trace st' = trace st1 ++ evs /\
      (res = Raise link_error <->
         exists sym, defined_twice Fixture.symbols_of (ext_modules self) sym) /\
      (res = Ok tt <-> ~ exists sym, defined_twice Fixture.symbols_of (ext_modules self) sym) /\
      (forall e1 e2 foo, ext_modules self = [e1; e2] ->
         Fixture.symbols_of e1 ∩ Fixture.symbols_of e2 = {[foo]} ->
         List.filter is_error_log evs =
           [EvLog ERROR (conflict_message foo [label e1; label e2])]).
Proof.
  cbv zeta. split; [exact fixture_nm_reports|].
  destruct ((let* _ := strip_bundle Fixture.linux in
             super_run Fixture.linux "shared"
               (Fixture.build_cmd false [Fixture.libchtslib; Fixture.libcsamtools]))
              (Fixture.checkout ∅)) as [[self1|e] st1] eqn:E;
    [|vm_compute in E; discriminate E].
  exists self1, st1. split; [reflexivity|].
  exact (symbol_conflicts_fail_the_run Fixture.linux "shared" _ self1 _ st1
           Fixture.symbols_of E fixture_nm_reports).
Defined.

(** The two modules of the fixture share foo: one entry, and the run fails. *)
Example conflict_on_foo :
  let self := Fixture.build_cmd false [Fixture.libchtslib; Fixture.libcsamtools] in
  let out := run Fixture.linux "shared" self (Fixture.checkout ∅) in
  fst out = Raise link_error /\
  List.filter is_error_log (trace (snd out)) =
    [EvLog ERROR "conflicting symbol (libchtslib libcsamtools): foo"].
Proof. cbv zeta. split; vm_compute; reflexivity. Qed.

(** External directories with HTSLIB_MODE=separate: the external branch is
    taken (nothing of the vendored library is linked into the modules), two
    modules define foo, and yet the check does not run and the build
    succeeds; with HTSLIB_MODE=external the same build fails. *)
Lemma external_with_separate_skips_check :
  let st mode := Fixture.checkout_built (<["HTSLIB_MODE" := mode]> Fixture.external_dirs) in
  let cmd := Fixture.build_cmd false [] in
  (exists r exts,
     fst (setup_script Fixture.linux (st "separate")) = Ok (r, exts) /\
     link_mode (HTSLIB_MODE r) (HTSLIB_LIBRARY_DIR r) = Ok External /\
     Forall (fun e => ext_extra_objects e = []) exts) /\
  fst (setup_build_ext Fixture.linux cmd (st "separate")) = Ok tt /\
  List.filter is_spawn (trace (snd (setup_build_ext Fixture.linux cmd (st "separate")))) =
    [ EvSpawn true ["./configure --enable-libcurl"] (Some (1%Z, ""));
      EvSpawn true ["./configure --disable-libcurl"] (Some (0%Z, ""));
      EvSpawn false ["make"; "-s"; "print-config"] (Some (0%Z, Fixture.make_config)) ] /\
  fst (setup_build_ext Fixture.linux cmd (st "external")) = Raise link_error.
Proof.
  cbv zeta. split.
  - eexists _, _. split; [vm_compute; reflexivity|]. split; [vm_compute; reflexivity|].
    repeat constructor.
  - split_and!; vm_compute; reflexivity.
Qed.

(** ** C9 *)

Lemma prebuild_libchtslib_spec_witness :
  let st := Fixture.checkout_built ∅ in
  let ext := Fixture.libchtslib in
  wf_cwd st /\ resolve (cwd st) "htslib" ∈ dirs st /\
  exists res st' evs,
    prebuild_libchtslib Fixture.linux "shared" ext false st = (res, st') /\
    trace st' = trace st ++ evs /\ cwd st' = cwd st /\
    ((exists reply, make_static st ext reply ∈ evs) <->
       requires_vendored_build "shared" = true /\
       (false = true \/ path_exists st "htslib/libhts.a" = false)) /\
    Forall (fun e => is_spawn e = true -> exists reply, e = make_static st ext reply) evs /\
    (requires_vendored_build "shared" = true -> false = false ->
     path_exists st "htslib/libhts.a" = true ->
       res = Ok tt /\
       evs = header_events Fixture.linux ext st ++
             [EvLog WARNING "skipping 'libhts.a' (already built)"]).
Proof.
  cbv zeta. split; [apply checkout_built_wf|]. split; [by_compute|].
  apply (prebuild_libchtslib_spec Fixture.linux "shared" Fixture.libchtslib false
           (Fixture.checkout_built ∅)); [apply checkout_built_wf | by_compute].
Defined.

(** Both directories are supplied and HTSLIB_MODE is left at its default:
    the mode is external, which needs nothing compiled, and the hook of the
    foundational module still runs make for the static library. *)
Lemma external_dirs_still_build :
  let st := Fixture.checkout Fixture.external_dirs in
  exists r exts st1 foundational,
    setup_script Fixture.linux st = (Ok (r, exts), st1) /\
    head exts = Some foundational /\
    link_mode (HTSLIB_MODE r) (HTSLIB_LIBRARY_DIR r) = Ok External /\
    ext_extra_objects foundational = [] /\
    List.filter is_spawn
      (drop (length (trace st1))
            (trace (snd (prebuild_libchtslib Fixture.linux (HTSLIB_MODE r) foundational
                                             false st1)))) =
      [ EvSpawn false
          ["make";
           "ALL_CPPFLAGS=-I. -Wno-unused -Wno-strict-prototypes -Wno-sign-compare -Wno-error=declaration-after-statement  $(CPPFLAGS)";
           "lib-static"]
          (Some (0%Z, "")) ].
Proof.
  cbv zeta. eexists _, _, _, _. split; [vm_compute; reflexivity|].
  split; [reflexivity|]. split_and!; vm_compute; reflexivity.
Qed.


(** ** Instances of the further properties *)

(** Of two LIBS lines the second one counts. *)
Lemma print_config_last_definition_witness :
  let stdout := "LIBS = -lz" +:+ newline +:+ "LIBS = -lz -lbz2" +:+ newline +:+
                "CC = gcc" +:+ newline in
  Py.splitlines stdout = ["LIBS = -lz"] ++ "LIBS = -lz -lbz2" :: ["CC = gcc"] /\
  Py.split_char "=" "LIBS = -lz -lbz2" = ["LIBS "; " -lz -lbz2"] /\
  Dict.get (parse_print_config stdout) (Py.strip "LIBS ") = Some (Py.strip " -lz -lbz2").
Proof.
  cbv zeta. split; [reflexivity|]. split; [reflexivity|].
  apply (print_config_last_definition _ ["LIBS = -lz"] ["CC = gcc"] "LIBS = -lz -lbz2"
           "LIBS " " -lz -lbz2"); [reflexivity|reflexivity|].
  intros l k' v' Hl Hs. apply list_elem_of_singleton in Hl. subst l.
  vm_compute in Hs. injection Hs as <- <-. vm_compute. discriminate.
Defined.

Lemma print_config_provenance_witness :
  Dict.get (parse_print_config Fixture.make_config) "LIBS" = Some "-lz -lcurl" /\
  (exists line k v, line ∈ Py.splitlines Fixture.make_config /\
                    Py.split_char "=" line = [k; v] /\
                    "LIBS" = Py.strip k /\ "-lz -lcurl" = Py.strip v) /\
  Py.str_in "=" "LIBS" = false /\ Py.str_in "=" "-lz -lcurl" = false.
Proof.
  split; [reflexivity|].
  apply (print_config_provenance Fixture.make_config "LIBS" "-lz -lcurl"). reflexivity.
Defined.

Lemma libs_of_make_inverts_join_witness :
  libs_of_make (Py.join " " (map (fun n => "-l" +:+ n) ["z"; "curl"; "bz2"])) =
    ["z"; "curl"; "bz2"].
Proof. apply (libs_of_make_inverts_join ["z"; "curl"; "bz2"]). repeat constructor. Defined.

Lemma macro_options_agree_witness :
  let macros := [("BUILDING_WHEEL", None); ("NDEBUG", Some "1")] in
  map (fun pair => format_macro_option (fst pair) (snd pair)) macros =
    optionise "-D" (kvtuples macros).
Proof.
  cbv zeta. apply (macro_options_agree [("BUILDING_WHEEL", None); ("NDEBUG", Some "1")]).
  repeat constructor; cbn; intros v [= <-]; reflexivity.
Defined.

(** A configure step with CFLAGS=-g in the environment. *)
Lemma set_compiler_envvars_environ_witness :
  let st := Fixture.checkout {[ "CFLAGS" := "-g" ]} in
  let body := configure_attempts Fixture.linux None ["--disable-libcurl"] in
  environ (snd (set_compiler_envvars Fixture.linux body st)) =
    match environ st !! "CFLAGS", sysconfig Fixture.linux !! "CCSHARED" with
    | Some v, Some c => <["CFLAGS" := v +:+ " " +:+ c]> (environ st)
    | _, _ => environ st
    end.
Proof.
  cbv zeta. apply (set_compiler_envvars_environ Fixture.linux).
  apply preserves_configure_attempts. apply environ_ignores_io.
Defined.

Lemma set_compiler_envvars_body_sees_witness :
  let st := Fixture.checkout {[ "CFLAGS" := "-g" ]} in
  let body := configure_attempts Fixture.linux None ["--disable-libcurl"] in
  exists st0 st1,
    body st0 = (fst (set_compiler_envvars Fixture.linux body st), st1) /\
    (forall var, var ∈ ["CC"; "CFLAGS"; "LDFLAGS"] ->
       environ st0 !! var =
         match environ st !! var with
         | Some cur => Some (cur +:+ ccshared_suffix Fixture.linux var)
         | None => (fun v => v +:+ ccshared_suffix Fixture.linux var) <$>
                     sysconfig Fixture.linux !! var
         end) /\
    (forall var, var ∉ ["CC"; "CFLAGS"; "LDFLAGS"] -> environ st0 !! var = environ st !! var).
Proof.
  cbv zeta. apply (set_compiler_envvars_body_sees Fixture.linux).
  apply preserves_configure_attempts. apply environ_ignores_io.
Defined.

Lemma darwin_install_name_witness :
  platform_link_args Fixture.darwin Fixture.libchtslib =
    Ok ["-dynamiclib"; "-rpath"; "@loader_path"; "-Wl,-headerpad_max_install_names";
        "-Wl,-install_name,@rpath/" +:+ "libchtslib" +:+ ".so"; "-Wl,-x"].
Proof.
  apply (darwin_install_name Fixture.darwin Fixture.libchtslib "pysam" "libchtslib" ".so");
    reflexivity.
Defined.

(** The whole build on a checkout, on macOS. *)
Lemma setup_build_ext_returns_to_cwd_witness :
  let st := Fixture.checkout ∅ in
  let out := setup_build_ext Fixture.darwin (Fixture.build_cmd false []) st in
  wf_cwd st /\ cwd (snd out) = cwd st.
Proof.
  cbv zeta. split; [apply checkout_wf|].
  apply (setup_build_ext_returns_to_cwd Fixture.darwin (Fixture.build_cmd false [])
           (Fixture.checkout ∅)
           (fst (setup_build_ext Fixture.darwin (Fixture.build_cmd false [])
                   (Fixture.checkout ∅)))).
  - apply checkout_wf.
  - by destruct (setup_build_ext Fixture.darwin (Fixture.build_cmd false [])
                   (Fixture.checkout ∅)).
Defined.

(** CC, set for the configure step only, is not in the environment
    afterwards. *)
Lemma setup_build_ext_environ_witness :
  let st := Fixture.checkout ∅ in
  let out := setup_build_ext Fixture.darwin (Fixture.build_cmd false []) st in
  "CC" <> "CFLAGS" /\ ("CC" = "LDSHARED" -> sys_platform Fixture.darwin <> "darwin") /\
  environ (snd out) !! "CC" = environ st !! "CC".
Proof.
  cbv zeta. split; [discriminate|]. split; [discriminate|].
  apply (setup_build_ext_environ Fixture.darwin (Fixture.build_cmd false [])
           (Fixture.checkout ∅)
           (fst (setup_build_ext Fixture.darwin (Fixture.build_cmd false [])
                   (Fixture.checkout ∅)))).
  - by destruct (setup_build_ext Fixture.darwin (Fixture.build_cmd false [])
                   (Fixture.checkout ∅)).
  - discriminate.
  - discriminate.
Defined.

(** Two modules that share their search path, built out of place. *)
Lemma build_loop_events_witness :
  let self := Fixture.build_cmd false [Fixture.libchtslib; Fixture.libcsamtools] in
  let st := Fixture.checkout ∅ in
  exists st',
    for_each (ext_modules self) (build_extension Fixture.linux "external" self) st
      = (Ok tt, st') /\
    exists evs,
    trace st' = trace st ++ evs /\
    List.filter is_build evs =
      imap (fun i e => EvBuildExtension (self_compiler self) (with_link_args Fixture.linux e)
                         (default [] (heap st !! 0%nat) ++ appended self (S i)) (Ok tt))
           (ext_modules self) /\
    default [] (heap st' !! 0%nat) =
      default [] (heap st !! 0%nat) ++ appended self (length (ext_modules self)).
Proof.
  cbv zeta.
  destruct (for_each (ext_modules (Fixture.build_cmd false [Fixture.libchtslib; Fixture.libcsamtools]))
              (build_extension Fixture.linux "external"
                 (Fixture.build_cmd false [Fixture.libchtslib; Fixture.libcsamtools]))
              (Fixture.checkout ∅)) as [[[]|e] st'] eqn:E; [|vm_compute in E; discriminate E].
  exists st'. split; [reflexivity|].
  apply (build_loop_events Fixture.linux "external"
           (Fixture.build_cmd false [Fixture.libchtslib; Fixture.libcsamtools])
           [Fixture.libchtslib; Fixture.libcsamtools] 0%nat (Fixture.checkout ∅) st');
    [by repeat constructor|exact E].
Defined.

Lemma build_ext_modules_share_library_dirs_witness :
  let st := Fixture.checkout ∅ in
  exists exts st',
    build_ext_modules Fixture.linux resolved_shared st = (Ok exts, st') /\
    exists loc dirs include_dirs,
      heap st !! loc = None /\ heap st' = <[loc := dirs]> (heap st) /\
      abspath_all Fixture.linux (cwd st) (Some "pysam" :: htslib_library_dirs resolved_shared)
        = Ok dirs /\
      abspath_all Fixture.linux (cwd st)
        (Some "pysam" :: htslib_include_dirs resolved_shared ++
         [Some "samtools"; Some "samtools/lz4"; Some "bcftools"; Some "."] ++
         map Some (include_os Fixture.linux)) = Ok include_dirs /\
      length exts = 13%nat /\
      Forall (fun e => ext_library_dirs e = loc /\ ext_include_dirs e = include_dirs /\
                       library_dirs_of st' e = dirs) exts.
Proof.
  cbv zeta.
  destruct (build_ext_modules Fixture.linux resolved_shared (Fixture.checkout ∅))
    as [[exts|e] st'] eqn:E; [|vm_compute in E; discriminate E].
  exists exts, st'. split; [reflexivity|].
  apply (build_ext_modules_share_library_dirs Fixture.linux resolved_shared
           (Fixture.checkout ∅) exts st' E).
Defined.

Lemma building_wheel_macro_witness :
  let st := Fixture.checkout {[ "CIBUILDWHEEL" := "1" ]} in
  exists exts st',
    build_ext_modules Fixture.linux resolved_shared st = (Ok exts, st') /\
    Forall (fun e =>
              Py.str_in "-DBUILDING_WHEEL" (all_cppflags e) =
                bool_decide (environ st !! "CIBUILDWHEEL" = Some "1") /\
              (environ st !! "CIBUILDWHEEL" = Some "1" ->
               forall st2, exists merged,
                 Dict.get (build_config_dict Fixture.linux st2 e) "CPPFLAGS" = Some merged /\
                 occurs_in "-DBUILDING_WHEEL" merged)) exts.
Proof.
  cbv zeta.
  destruct (build_ext_modules Fixture.linux resolved_shared
              (Fixture.checkout {[ "CIBUILDWHEEL" := "1" ]}))
    as [[exts|e] st'] eqn:E; [|vm_compute in E; discriminate E].
  exists exts, st'. split; [reflexivity|].
  apply (building_wheel_macro Fixture.linux resolved_shared
           (Fixture.checkout {[ "CIBUILDWHEEL" := "1" ]}) exts st' E).
Defined.

(** The fifth module links the libraries of the first and the fourth. *)
Lemma modules_link_earlier_modules_witness :
  let m := pysam_module Fixture.linux resolved_shared "alignmentfile" in
  modules Fixture.linux resolved_shared !! 4%nat = Some m /\
  exists stems,
    m_libraries m = external_htslib_libraries resolved_shared ++
                    map (internal_library Fixture.linux) stems /\
    forall s, s ∈ stems ->
      exists j m', (j < 4)%nat /\ modules Fixture.linux resolved_shared !! j = Some m' /\
                   m_name m' = "pysam.lib" +:+ s.
Proof.
  cbv zeta. split; [reflexivity|].
  apply (modules_link_earlier_modules Fixture.linux resolved_shared 4). reflexivity.
Defined.

(** HTSLIB_MODE=external without HTSLIB_LIBRARY_DIR. *)
Lemma unknown_mode_is_rejected_witness :
  let st := Fixture.checkout {[ "HTSLIB_MODE" := "external" ]} in
  path_exists st (source_pattern Fixture.linux "htslib") = true /\
  requires_vendored_build (environ_get st "HTSLIB_MODE" "shared") = false /\
  truthy (environ st !! "HTSLIB_LIBRARY_DIR") = false /\
  exists msg st' evs,
    resolve_htslib Fixture.linux st = (Raise (ValueError msg), st') /\
    trace st' = trace st ++ evs /\ Forall (fun e => is_print e = true) evs /\
    environ st' = environ st /\ files st' = files st.
Proof.
  cbv zeta. split; [by_compute|]. split; [reflexivity|]. split; [reflexivity|].
  apply (unknown_mode_is_rejected Fixture.linux); [by_compute|reflexivity|reflexivity].
Defined.

(** An installed pysam source tree without the vendored htslib, and an
    external library named. *)
Lemma vendored_mode_needs_configure_script_witness :
  let st := mkState "/src" Fixture.external_dirs {[ "/src/pysam/libchtslib.pyx" ]}
                    {[ "/src"; "/src/pysam" ]} ∅ [] in
  path_exists st (source_pattern Fixture.linux "htslib") = true /\
  requires_vendored_build (environ_get st "HTSLIB_MODE" "shared") = true /\
  path_exists st "htslib/configure" = false /\
  exists msg st' evs,
    resolve_htslib Fixture.linux st = (Raise (ValueError msg), st') /\
    trace st' = trace st ++ evs /\ Forall (fun e => is_print e = true) evs /\
    environ st' = environ st /\ files st' = files st.
Proof.
  cbv zeta. split; [by_compute|]. split; [reflexivity|]. split; [by_compute|].
  apply (vendored_mode_needs_configure_script Fixture.linux);
    [by_compute|reflexivity|by_compute].
Defined.

Lemma config_values_last_define_witness :
  Forall (fun line => is_ascii line = true) config_h_lines /\
  exists values,
    read_defines [] config_h_lines = Ok values /\
    config_value values "HAVE_LIBCURL" = default "0" (defined_value config_h_lines "HAVE_LIBCURL") /\
    config_value values "HAVE_LIBCURL" = "1" /\ config_value values "HAVE_MMAP" = "0".
Proof.
  assert (Hascii : Forall (fun line => is_ascii line = true) config_h_lines)
    by (repeat constructor).
  split; [exact Hascii|].
  destruct (read_defines [] config_h_lines) as [values|e] eqn:E;
    [|vm_compute in E; discriminate E].
  exists values. split; [reflexivity|]. split.
  - apply (config_values_last_define config_h_lines values "HAVE_LIBCURL" Hascii E).
  - vm_compute in E. injection E as <-. split; reflexivity.
Defined.

Lemma config_py_malformed_define_witness :
  let st := Fixture.checkout ∅ in
  let lines := ["#define HAVE_LIBCURL 1" +:+ newline; "#define HAVE_LIBBZ2" +:+ newline] in
  let out := write_config_py (Some "builtin") (Ok lines) st in
  Forall (fun line => is_ascii line = true) lines /\
  dirname (resolve (cwd st) "pysam/config.py") ∈ dirs st /\
  (fst out = Raise AttributeError <->
   exists line, line ∈ lines /\ Py.startswith line "#define" = true /\
                match_define line = None) /\
  (fst out = Raise AttributeError ->
   trace (snd out) = trace st ++
     [EvWrite "pysam/config.py" ("HTSLIB = " +:+ dquote +:+ "builtin" +:+ dquote +:+ newline)] /\
   path_exists (snd out) "pysam/config.py" = true).
Proof.
  cbv zeta. split; [repeat constructor|]. split; [by_compute|].
  apply (config_py_malformed_define
           ["#define HAVE_LIBCURL 1" +:+ newline; "#define HAVE_LIBBZ2" +:+ newline]
           (Fixture.checkout ∅)); [repeat constructor|by_compute].
Defined.

Lemma match_define_spec_witness :
  (match_define ("#define " +:+ "HAVE_LIBCURL" +:+ " " +:+ "1" +:+ newline)
     = Some ("HAVE_LIBCURL", "1")) /\
  match_define ("#define " +:+ "HAVE_LIBCURL" +:+ newline) = None.
Proof.
  destruct (match_define_spec "HAVE_LIBCURL" " " "1" newline) as [H1 _];
    [reflexivity|discriminate|reflexivity|reflexivity|].
  destruct (match_define_spec "HAVE_LIBCURL" newline "" "") as [_ H2];
    [reflexivity|discriminate|reflexivity|reflexivity|].
  split; [|exact H2].
  apply H1; [reflexivity|reflexivity|discriminate|discriminate|reflexivity|reflexivity].
Defined.

Lemma missing_config_headers_written_witness :
  let st := Fixture.checkout ∅ in
  let fns := ["samtools/config.h"; "htslib/config.h"] in
  NoDup (map (resolve (cwd st)) fns) /\
  Forall (fun fn => dirname (resolve (cwd st) fn) ∈ dirs st) fns /\
  exists st',
    write_missing_config_headers fns st = (Ok tt, st') /\
    trace st' = trace st ++
      map (fun fn => EvWrite fn empty_config_h)
          (List.filter (fun fn => negb (path_exists st fn)) fns) /\
    Forall (fun fn => path_exists st' fn = true) fns /\
    files st ⊆ files st'.
Proof.
  cbv zeta.
  assert (H1 : NoDup (map (resolve (cwd (Fixture.checkout ∅)))
                          ["samtools/config.h"; "htslib/config.h"])) by by_compute.
  assert (H2 : Forall (fun fn => dirname (resolve (cwd (Fixture.checkout ∅)) fn)
                                   ∈ dirs (Fixture.checkout ∅))
                      ["samtools/config.h"; "htslib/config.h"])
    by (repeat constructor; by_compute).
  split; [exact H1|]. split; [exact H2|].
  exact (missing_config_headers_written ["samtools/config.h"; "htslib/config.h"]
           (Fixture.checkout ∅) H1 H2).
Defined.

Lemma write_missing_config_headers_idempotent_witness :
  let st := Fixture.checkout ∅ in
  let fns := ["samtools/config.h"; "htslib/config.h"] in
  exists st',
    write_missing_config_headers fns st = (Ok tt, st') /\
    write_missing_config_headers fns st' = (Ok tt, st').
Proof.
  cbv zeta.
  destruct (write_missing_config_headers ["samtools/config.h"; "htslib/config.h"]
              (Fixture.checkout ∅)) as [[[]|e] st'] eqn:E; [|vm_compute in E; discriminate E].
  exists st'. split; [reflexivity|].
  apply (write_missing_config_headers_idempotent ["samtools/config.h"; "htslib/config.h"]
           (Fixture.checkout ∅) st' E).
Defined.

(** Cleaning a built tree: libhts.a is found and removed. *)
Lemma clean_ext_removes_only_matches_witness :
  let st := Fixture.checkout_built ∅ in
  let out := clean_ext_run glob_built st in
  fst out = Ok tt /\
  cwd (snd out) = cwd st /\ files (snd out) ⊆ files st /\
  (forall p, p ∈ files st -> p ∉ files (snd out) -> reported glob_built st p) /\
  (fst out = Ok tt -> forall p, reported glob_built st p -> p ∉ files (snd out)).
Proof.
  cbv zeta. split; [vm_compute; reflexivity|].
  apply (clean_ext_removes_only_matches glob_built (Fixture.checkout_built ∅)
           (fst (clean_ext_run glob_built (Fixture.checkout_built ∅)))).
  by destruct (clean_ext_run glob_built (Fixture.checkout_built ∅)).
Defined.

Example clean_ext_removes_libhts :
  files (snd (clean_ext_run glob_built (Fixture.checkout_built ∅))) =
    files (Fixture.checkout_built ∅) ∖ {[ "/src/htslib/libhts.a" ]}.
Proof. by_compute. Qed.

Lemma clean_pass_removes_witness :
  let st := Fixture.checkout_built ∅ in
  let found := ["htslib/libhts.a"] in
  NoDup (map (resolve (cwd st)) found) /\
  Forall (fun q => resolve (cwd st) q ∈ files st) found /\
  exists st',
    clean_pass found "removing 'htslib/**/*.o' and libhts.a (1 objects)" st = (Ok tt, st') /\
    files st' = files st ∖ list_to_set (map (resolve (cwd st)) found) /\
    trace st' = trace st ++
      [EvLog INFO "removing 'htslib/**/*.o' and libhts.a (1 objects)"].
Proof.
  cbv zeta.
  assert (H1 : NoDup (map (resolve (cwd (Fixture.checkout_built ∅))) ["htslib/libhts.a"]))
    by by_compute.
  assert (H2 : Forall (fun q => resolve (cwd (Fixture.checkout_built ∅)) q
                                  ∈ files (Fixture.checkout_built ∅)) ["htslib/libhts.a"])
    by (repeat constructor; by_compute).
  split; [exact H1|]. split; [exact H2|].
  exact (clean_pass_removes ["htslib/libhts.a"] _ (Fixture.checkout_built ∅) H1 H2).
Defined.


Lemma conflict_report_lists_owners_witness :
  let self := Fixture.build_cmd false [Fixture.libchtslib; Fixture.libcsamtools] in
  let st := Fixture.checkout ∅ in
  nm_reports Fixture.linux Fixture.symbols_of (ext_modules self) /\
  exists st' spawns conflicts,
    check_ext_symbol_conflicts Fixture.linux self st =
      (match conflicts with [] => Ok tt | _ :: _ => Raise link_error end, st') /\
    trace st' = trace st ++ spawns ++ map conflict_event conflicts /\
    Forall (fun e => is_spawn e = true) spawns /\
    NoDup (map fst conflicts) /\
    forall sym objs,
      (sym, objs) ∈ conflicts <->
      objs = owners Fixture.symbols_of (ext_modules self) sym /\ (1 < length objs)%nat.
Proof.
  cbv zeta. split; [exact fixture_nm_reports|].
  exact (conflict_report_lists_owners Fixture.linux Fixture.symbols_of
           (Fixture.build_cmd false [Fixture.libchtslib; Fixture.libcsamtools])
           (Fixture.checkout ∅) fixture_nm_reports).
Defined.

(** HTSLIB_LIBRARY_DIR without HTSLIB_INCLUDE_DIR. *)
Lemma external_library_needs_include_dir_witness :
  let st := Fixture.checkout {[ "HTSLIB_MODE" := "external";
                                "HTSLIB_LIBRARY_DIR" := "/usr/lib" ]} in
  exists r st1,
    resolve_htslib Fixture.linux st = (Ok r, st1) /\
    truthy (environ st !! "HTSLIB_LIBRARY_DIR") = true /\
    environ st !! "HTSLIB_INCLUDE_DIR" = None /\
    build_ext_modules Fixture.linux r st1 = (Raise TypeError, st1).
Proof.
  cbv zeta.
  destruct (resolve_htslib Fixture.linux
              (Fixture.checkout {[ "HTSLIB_MODE" := "external";
                                   "HTSLIB_LIBRARY_DIR" := "/usr/lib" ]}))
    as [[r|e] st1] eqn:E; [|vm_compute in E; discriminate E].
  exists r, st1. split; [reflexivity|]. split; [reflexivity|]. split; [reflexivity|].
  apply (external_library_needs_include_dir Fixture.linux _ r st1 E); reflexivity.
Defined.

Lemma probe_error_aborts_build_witness :
  let self := Fixture.build_cmd false [Fixture.libchtslib] in
  let st := Fixture.checkout ∅ in
  exists st',
    build_extensions no_compiler "shared" self st = (Raise OSError, st') /\
    List.filter (fun ev => is_compile ev || is_build ev) (drop (length (trace st)) (trace st')) =
      [probe_event self (None, Raise OSError)].
Proof.
  cbv zeta.
  apply (probe_error_aborts_build no_compiler "shared"
           (Fixture.build_cmd false [Fixture.libchtslib]) (Fixture.checkout ∅) "cc" OSError);
    [reflexivity|reflexivity|discriminate].
Defined.

